(** * documents/views.py: the HTTP API layer of the document manager

    A shallow embedding of the request handlers of [src/documents/views.py]
    and the properties the specification states about them.

    Conventions.
    - A Python [str] is represented by the Rocq [string] holding its UTF-8
      encoding; a Python [bytes] object by the [string] of its bytes.  The
      two are kept apart by the constructors of [pyvalue].
    - The ORM tables are lists of records, a [QuerySet] is evaluated to the
      list of its rows.
    - Handlers run in a small state-and-exception monad [M] over a [world]
      (database, file system, trace of the calls made to collaborators). *)

From Stdlib Require Import ZArith NArith Ascii String List Sorting.Permutation Sorting.Sorted.
From stdpp Require Import base decidable option list strings gmap.

Set Warnings "-register-all".
Local Open Scope Z_scope.

(** ** Text: the string functions the handlers call *)

Module Text.

Definition dquote : ascii := "034"%char.
Definition squote : ascii := "039"%char.
Definition backslash : ascii := "092"%char.

Definition chr (c : ascii) : string := String c EmptyString.

Fixpoint join_strings (l : list string) : string :=
  match l with
  | [] => ""
  | s :: l' => s +:+ join_strings l'
  end.

Fixpoint chars (s : string) : list ascii :=
  match s with
  | EmptyString => []
  | String c s' => c :: chars s'
  end.

Fixpoint of_chars (l : list ascii) : string :=
  match l with
  | [] => EmptyString
  | c :: l' => String c (of_chars l')
  end.

Definition code (c : ascii) : N := N_of_ascii c.

(** One hexadecimal digit, in upper or lower case. *)
Definition hex_digit (upper : bool) (n : N) : ascii :=
  if (n <? 10)%N then ascii_of_N (48 + n)
  else ascii_of_N ((if upper then 55 else 87) + n).

Definition hex2 (upper : bool) (c : ascii) : string :=
  String (hex_digit upper (code c / 16)) (chr (hex_digit upper (code c mod 16))).

(** [str.replace(old, new)] for one-character [old] and [new]. *)
Fixpoint replace_char (old new : ascii) (s : string) : string :=
  match s with
  | EmptyString => EmptyString
  | String c s' =>
      String (if decide (c = old) then new else c) (replace_char old new s')
  end.

(** [s.encode("ascii", "ignore")]: every code point above 127 is
    dropped.  On the UTF-8 representation these are exactly the bytes
    above 127. *)
Fixpoint encode_ascii_ignore (s : string) : string :=
  match s with
  | EmptyString => EmptyString
  | String c s' =>
      if (code c <? 128)%N then String c (encode_ascii_ignore s')
      else encode_ascii_ignore s'
  end.

Fixpoint count_char (q : ascii) (s : string) : nat :=
  match s with
  | EmptyString => O
  | String c s' => ((if decide (c = q) then 1 else 0) + count_char q s')%nat
  end.

(** [repr] of a [bytes] object (CPython's [PyBytes_Repr] with smart
    quotes): double quotes are chosen only when the bytes hold a single
    quote and no double quote. *)
Definition repr_quote (b : string) : ascii :=
  if (negb (Nat.eqb (count_char squote b) 0) && Nat.eqb (count_char dquote b) 0)%bool
  then dquote else squote.

Definition repr_byte (q c : ascii) : string :=
  if decide (c = q \/ c = backslash) then String backslash (chr c)
  else if decide (c = "009"%char) then String backslash "t"
  else if decide (c = "010"%char) then String backslash "n"
  else if decide (c = "013"%char) then String backslash "r"
  else if ((code c <? 32) || (127 <=? code c))%N%bool
       then String backslash (String "x" (hex2 false c))
  else chr c.

Definition bytes_repr (b : string) : string :=
  let q := repr_quote b in
  String "b" (String q (join_strings (map (repr_byte q) (chars b)) +:+ chr q)).

(** What an f-string interpolates. *)
Inductive pyvalue :=
| PyStr (s : string)
| PyBytes (b : string).

(** [format(v, "")], which is [str(v)]: a [str] is itself, a [bytes]
    object is its [repr]. *)
Definition format_value (v : pyvalue) : string :=
  match v with
  | PyStr s => s
  | PyBytes b => bytes_repr b
  end.

(** [urllib.parse.quote(s)] with the default [safe="/"]. *)
Definition always_safe (c : ascii) : bool :=
  let n := code c in
  (((65 <=? n) && (n <=? 90)) || ((97 <=? n) && (n <=? 122))
   || ((48 <=? n) && (n <=? 57))
   || (n =? 95) || (n =? 46) || (n =? 45) || (n =? 126))%N%bool.

Definition quote_byte (safe : list ascii) (c : ascii) : string :=
  if (always_safe c || bool_decide (c ∈ safe))%bool then chr c
  else String "%" (hex2 true c).

Definition quote (s : string) : string :=
  join_strings (map (quote_byte ["/"%char]) (chars s)).

(** White space as [str.isspace] has it, each character by its UTF-8
    bytes: U+0009-000D, U+001C-0020, U+0085, U+00A0, U+1680, U+2000-200A,
    U+2028, U+2029, U+202F, U+205F, U+3000. *)
Definition whitespace : list (list ascii) :=
  ((fun c => [c]) <$> [" "; "009"; "010"; "011"; "012"; "013";
                       "028"; "029"; "030"; "031"]%char)
  ++ [ ["194"; "133"]; ["194"; "160"]; ["225"; "154"; "128"] ]%char
  ++ ((fun c => ["226"; "128"; c]%char)
      <$> ["128"; "129"; "130"; "131"; "132"; "133"; "134"; "135"; "136"; "137";
           "138"; "168"; "169"; "175"]%char)
  ++ [ ["226"; "129"; "159"]; ["227"; "128"; "128"] ]%char.

Fixpoint strip_prefix (p l : list ascii) : option (list ascii) :=
  match p, l with
  | [], _ => Some l
  | c :: p', c' :: l' => if decide (c = c') then strip_prefix p' l' else None
  | _ :: _, [] => None
  end.

(** The text without one leading character of [ws], if it starts with one. *)
Fixpoint strip_one (ws : list (list ascii)) (l : list ascii) : option (list ascii) :=
  match ws with
  | [] => None
  | p :: ws' =>
      match strip_prefix p l with
      | Some r => Some r
      | None => strip_one ws' l
      end
  end.

Fixpoint strip_all (n : nat) (ws : list (list ascii)) (l : list ascii) : list ascii :=
  match n with
  | O => l
  | S n' =>
      match strip_one ws l with
      | Some r => strip_all n' ws r
      | None => l
      end
  end.

(** [s.lstrip()], [s.rstrip()] and [s.strip()] *)
Definition lstrip (l : list ascii) : list ascii :=
  strip_all (length l) whitespace l.

Definition rstrip (l : list ascii) : list ascii :=
  rev (strip_all (length l) ((fun p => rev p) <$> whitespace) (rev l)).

Definition strip (l : list ascii) : list ascii := rstrip (lstrip l).

(** [posixpath.join(a, b)]. *)
Definition startswith_char (c : ascii) (s : string) : bool :=
  match s with
  | String c' _ => bool_decide (c' = c)
  | EmptyString => false
  end.

Fixpoint endswith_char (c : ascii) (s : string) : bool :=
  match s with
  | EmptyString => false
  | String c' EmptyString => bool_decide (c' = c)
  | String _ s' => endswith_char c s'
  end.

Definition path_join (a b : string) : string :=
  if startswith_char "/" b then b
  else if (bool_decide (a = "") || endswith_char "/" a)%bool then a +:+ b
  else a +:+ "/" +:+ b.

End Text.

Import Text.

(** ** Http: requests, responses, Python exceptions *)

Module Http.

(** The exceptions the handlers raise, catch or let through.  All of them
    are subclasses of [Exception]. *)
Inductive exn :=
| Http404
| NotFound
| ValidationError
| NotAuthenticated
| PermissionDenied
| DoesNotExist
| FileNotFoundError
| KeyError
| TypeError
| ValueError
| OverflowError
| IntegrityError
| UnicodeDecodeError
| OtherException (name : string).

#[global] Instance exn_eq_dec : EqDecision exn.
Proof. solve_decision. Defined.

Inductive result (A : Type) :=
| Ok (a : A)
| Raise (e : exn).
Arguments Ok {A} a.
Arguments Raise {A} e.

Inductive json :=
| JNull
| JBool (b : bool)
| JInt (z : Z)
| JStr (s : string)
| JList (l : list json)
| JDict (l : list (string * json)).

(** [django.http.QueryDict]: the parameters in the order of the query
    string; a key may occur several times. *)
Abbreviation QueryDict := (list (string * string)).

Definition qd_contains (k : string) (q : QueryDict) : bool :=
  bool_decide (k ∈ q.*1).

(** [q.get(k)]: the last value given for [k], [None] without one. *)
Definition qd_get (k : string) (q : QueryDict) : option string :=
  last (filter (fun kv => kv.1 = k) q).*2.

(** [q[k]]: as [get], but a missing key raises [KeyError]. *)
Definition qd_getitem (k : string) (q : QueryDict) : result string :=
  match qd_get k q with
  | Some v => Ok v
  | None => Raise KeyError
  end.

Definition qd_get_default (k d : string) (q : QueryDict) : string :=
  default d (qd_get k q).

Record User := {
  user_id : Z;
  username : string;
  first_name : string;
  last_name : string;
  is_authenticated : bool
}.

Record request := {
  method : string;
  query_params : QueryDict;
  data : list (string * json);
  user : User;
  (** [request.authenticators] is not empty *)
  has_authenticators : bool;
  (** [request.successful_authenticator] is not [None] *)
  successful_authenticator : bool
}.

Inductive body :=
| Data (j : json)
| Text (s : string)
| FileContent (s : string).

Record response := {
  status : Z;
  content_type : option string;
  headers : list (string * string);
  content : body
}.

(** [rest_framework.response.Response(data)] *)
Definition Response (j : json) : response :=
  {| status := 200; content_type := None; headers := []; content := Data j |}.

(** [django.http.HttpResponse(content, content_type=...)] *)
Definition HttpResponse (c : body) (ct : option string) : response :=
  {| status := 200; content_type := ct; headers := []; content := c |}.

(** [django.http.HttpResponseBadRequest(text)] *)
Definition HttpResponseBadRequest (s : string) : response :=
  {| status := 400; content_type := None; headers := []; content := Text s |}.

(** [response[name] = value] *)
Definition set_header (name value : string) (r : response) : response :=
  {| status := status r; content_type := content_type r;
     headers := (name, value) :: filter (fun h => h.1 <> name) (headers r);
     content := content r |}.

Definition get_header (name : string) (r : response) : option string :=
  snd <$> head (filter (fun h => h.1 = name) (headers r)).

(** The code points of a text kept as its UTF-8 bytes; [None] for bytes
    that are no UTF-8 (no shortest form, a surrogate, beyond U+10FFFF). *)
Definition continuation (c : ascii) : option N :=
  let n := code c in
  if ((128 <=? n) && (n <? 192))%N%bool then Some (n - 128)%N else None.

Fixpoint utf8_decode (l : list ascii) : option (list N) :=
  match l with
  | [] => Some []
  | c :: l1 =>
      let n := code c in
      if (n <? 128)%N then cons n <$> utf8_decode l1
      else if (n <? 192)%N then None
      else if (n <? 224)%N then
        match l1 with
        | c1 :: l2 =>
            match continuation c1 with
            | Some n1 =>
                let cp := ((n - 192) * 64 + n1)%N in
                if (cp <? 128)%N then None else cons cp <$> utf8_decode l2
            | None => None
            end
        | _ => None
        end
      else if (n <? 240)%N then
        match l1 with
        | c1 :: c2 :: l3 =>
            match continuation c1, continuation c2 with
            | Some n1, Some n2 =>
                let cp := ((n - 224) * 4096 + n1 * 64 + n2)%N in
                if ((cp <? 2048) || ((55296 <=? cp) && (cp <? 57344)))%N%bool
                then None else cons cp <$> utf8_decode l3
            | _, _ => None
            end
        | _ => None
        end
      else if (n <? 248)%N then
        match l1 with
        | c1 :: c2 :: c3 :: l4 =>
            match continuation c1, continuation c2, continuation c3 with
            | Some n1, Some n2, Some n3 =>
                let cp := ((n - 240) * 262144 + n1 * 4096 + n2 * 64 + n3)%N in
                if ((cp <? 65536) || (1114111 <? cp))%N%bool
                then None else cons cp <$> utf8_decode l4
            | _, _, _ => None
            end
        | _ => None
        end
      else None
  end.

(** [str.isspace] on one code point: the white space of Unicode. *)
Definition unicode_space (cp : N) : bool :=
  (((9 <=? cp) && (cp <=? 13)) || ((28 <=? cp) && (cp <=? 32))
   || (cp =? 133) || (cp =? 160) || (cp =? 5760)
   || ((8192 <=? cp) && (cp <=? 8202))
   || (cp =? 8232) || (cp =? 8233) || (cp =? 8239) || (cp =? 8287)
   || (cp =? 12288))%N%bool.

(** The decimal digits of Unicode (category [Nd], Unicode 14.0 as in
    Python 3.11) come in runs of ten, [0] to [9]; the code point of the
    [0] of each run. *)
Definition decimal_zeros : list N :=
  [ 48; 1632; 1776; 1984; 2406; 2534; 2662; 2790; 2918; 3046; 3174; 3302;
    3430; 3558; 3664; 3792; 3872; 4160; 4240; 6112; 6160; 6470; 6608; 6784;
    6800; 6992; 7088; 7232; 7248; 42528; 43216; 43264; 43472; 43504; 43600;
    44016; 65296; 66720; 68912; 69734; 69872; 69942; 70096; 70384; 70736;
    70864; 71248; 71360; 71472; 71904; 72016; 72784; 73040; 73120; 92768;
    92864; 93008; 120782; 120792; 120802; 120812; 120822; 123200; 123632;
    125264; 130032 ]%N.

(** [unicodedata.decimal]: the value of a decimal digit *)
Definition unicode_decimal (cp : N) : option N :=
  (fun z => (cp - z)%N)
    <$> head (filter (fun z => (z <=? cp)%N && (cp <? z + 10)%N = true) decimal_zeros).

(** What [int] parses: a code point below 127 as it is, white space of
    other scripts as a space, a decimal digit of another script as the
    ASCII digit; anything else is malformed. *)
Definition int_ascii (cp : N) : option N :=
  if (cp <? 127)%N then Some cp
  else if unicode_space cp then Some 32%N
  else (fun d => (48 + d)%N) <$> unicode_decimal cp.

(** The white space of C: [\t \n \v \f \r] and the space. *)
Definition c_space (n : N) : bool :=
  (((9 <=? n) && (n <=? 13)) || (n =? 32))%N%bool.

Fixpoint drop_while {A} (f : A -> bool) (l : list A) : list A :=
  match l with
  | x :: l' => if f x then drop_while f l' else l
  | [] => []
  end.

(** [sys.get_int_max_str_digits()]: longer numerals are refused. *)
Definition int_max_str_digits : nat := 4300.

(** Decimal digits with single underscores between them; [count] is the
    number of digits read. *)
Fixpoint parse_digits (acc : Z) (after_digit : bool) (count : nat) (l : list N)
  : option Z :=
  match l with
  | [] =>
      if after_digit && (count <=? int_max_str_digits)%nat then Some acc else None
  | n :: l' =>
      if (n =? 95)%N then
        if after_digit then parse_digits acc false count l' else None
      else if ((48 <=? n) && (n <=? 57))%N%bool
      then parse_digits (10 * acc + Z.of_N (n - 48)) true (S count) l'
      else None
  end.

(** [int(s)] on a text, in base 10: white space around, an optional sign,
    digits of any script with single underscores between them; anything
    else raises [ValueError]. *)
Definition int (s : string) : result Z :=
  let r :=
    match utf8_decode (chars s) ≫= mapM int_ascii with
    | Some l =>
        match rev (drop_while c_space (rev (drop_while c_space l))) with
        | n :: l' =>
            if (n =? 45)%N then Z.opp <$> parse_digits 0 false 0 l'
            else if (n =? 43)%N then parse_digits 0 false 0 l'
            else parse_digits 0 false 0 (n :: l')
        | [] => None
        end
    | None => None
    end in
  match r with
  | Some z => Ok z
  | None => Raise ValueError
  end.

End Http.

Import Http.

(** ** The persistence layer: tables as lists of rows

    The models are declared in [documents/models.py]; the records below
    carry the columns and properties the views read. *)

Inductive storage := STORAGE_TYPE_UNENCRYPTED | STORAGE_TYPE_GPG.

#[global] Instance storage_eq_dec : EqDecision storage.
Proof. solve_decision. Defined.

Record Document := {
  doc_id : Z;
  correspondent : option Z;
  document_type : option Z;
  storage_path : option Z;
  created : Z;
  doc_content : string;
  mime_type : string;
  storage_type : storage;
  has_archive_version : bool;
  (** [get_public_filename()] and [get_public_filename(archive=True)] *)
  public_filename : string;
  public_archive_filename : string;
  source_path : string;
  archive_path : string;
  thumbnail_path : string
}.

#[global] Instance Document_eq_dec : EqDecision Document.
Proof. solve_decision. Defined.

Definition get_public_filename (doc : Document) (archive : bool) : string :=
  if archive then public_archive_filename doc else public_filename doc.

Record Note := {
  note_id : Z;
  (** the text of the note, as the JSON string it is answered with *)
  note : json;
  note_created : Z;
  note_document : Z;
  note_user : User
}.

Record Tag := {
  tag_id : Z;
  is_inbox_tag : bool
}.

Record Correspondent := { correspondent_pk : Z }.
Record DocumentType := { document_type_pk : Z }.

Record StoragePath := {
  storage_path_pk : Z;
  path : string
}.

Record PaperlessTask := {
  task_pk : Z;
  task_id : string;
  acknowledged : bool;
  date_created : Z
}.

#[global] Instance PaperlessTask_eq_dec : EqDecision PaperlessTask.
Proof. solve_decision. Defined.

Record database := {
  documents : list Document;
  (** the many-to-many table between documents and tags:
      (document id, tag id) *)
  documents_tags : list (Z * Z);
  notes : list Note;
  (** the last id the database gave to a note; its ids are given in
      sequence and never twice, also after a note was deleted *)
  note_sequence : Z;
  tags : list Tag;
  correspondents : list Correspondent;
  document_types : list DocumentType;
  storage_paths : list StoragePath;
  tasks : list PaperlessTask
}.

(** ** The handler monad *)

(** Where the arguments of a call to a collaborator come from. *)
Inductive provenance :=
| NoRequestData      (** constants and rows already loaded *)
| UrlKwarg           (** the [pk] captured by the router *)
| RawRequestData     (** [request.data], [request.query_params], [request.GET] *)
| ValidatedData.     (** [serializer.validated_data] *)

#[global] Instance provenance_eq_dec : EqDecision provenance.
Proof. solve_decision. Defined.

Inductive event :=
| EvValidate (serializer : string)
| EvOrm (model op : string) (args : provenance)
| EvIndex (op : string) (args : provenance)
| EvOpen (filename : string)
| EvLog (msg : string).

#[global] Instance event_eq_dec : EqDecision event.
Proof. solve_decision. Defined.

Record world := {
  db : database;
  (** regular files: path to content *)
  files : gmap string string;
  (** calls made so far, oldest first *)
  trace : list event
}.

Definition M (A : Type) : Type := world -> world * result A.

Definition ret {A} (a : A) : M A := fun w => (w, Ok a).
Definition raise {A} (e : exn) : M A := fun w => (w, Raise e).

Definition bind {A B} (m : M A) (f : A -> M B) : M B :=
  fun w =>
    match m w with
    | (w', Ok a) => f a w'
    | (w', Raise e) => (w', Raise e)
    end.

Notation "x <- m ;; k" := (bind m (fun x => k))
  (at level 100, m at next level, right associativity).
Notation "m ;;; k" := (bind m (fun _ => k))
  (at level 100, right associativity).

(** [try: m except (e1, e2, ...): h] *)
Definition try_except {A} (m : M A) (catches : exn -> bool) (h : exn -> M A) : M A :=
  fun w =>
    match m w with
    | (w', Ok a) => (w', Ok a)
    | (w', Raise e) => if catches e then h e w' else (w', Raise e)
    end.

(** [except Exception]: every exception of [exn] is one. *)
Definition Exception (e : exn) : bool := true.

Definition lift {A} (r : result A) : M A := fun w => (w, r).

Definition emit (e : event) : M unit :=
  fun w => ({| db := db w; files := files w; trace := trace w ++ [e] |}, Ok tt).

(** A collaborator that works on the database only. *)
Definition on_db {A} (f : database -> database * result A) : M A :=
  fun w =>
    let '(d, r) := f (db w) in
    ({| db := d; files := files w; trace := trace w |}, r).

Definition get_db : M database := fun w => (w, Ok (db w)).

Definition put_db (d : database) : M unit :=
  fun w => ({| db := d; files := files w; trace := trace w |}, Ok tt).

(** [os.path.isfile(filename)] *)
Definition isfile (filename : string) : M bool :=
  fun w => (w, Ok (bool_decide (is_Some (files w !! filename)))).

(** [open(filename)] for reading; the content read from the handle. *)
Definition open (filename : string) : M string :=
  emit (EvOpen filename) ;;;
  fun w =>
    match files w !! filename with
    | Some c => (w, Ok c)
    | None => (w, Raise FileNotFoundError)
    end.

(** The keys the database stores are integers of 64 bits with a sign.
    Another integer is the key of no row, and the database driver
    (SQLite, the project's default) refuses it as a parameter of a query:
    the lookup raises [OverflowError] where it would else find nothing. *)
Definition fits_int64 (z : Z) : bool := (- 2 ^ 63 <=? z) && (z <? 2 ^ 63).

Definition row_missing {A} (key : Z) : M A :=
  if fits_int64 key then raise DoesNotExist else raise OverflowError.

(** [Document.objects.get(id=pk)] with the [pk] of the URL. *)
Definition Document_objects_get (pk : string) : M Document :=
  emit (EvOrm "Document" "get" UrlKwarg) ;;;
  id <- lift (int pk) ;;
  d <- get_db ;;
  match filter (fun doc => doc_id doc = id) (documents d) with
  | [doc] => ret doc
  | [] => row_missing id
  | _ => raise (OtherException "MultipleObjectsReturned")
  end.

#[global] Instance result_eq_dec `{EqDecision A} : EqDecision (result A).
Proof. solve_decision. Defined.

(** ** DocumentViewSet: serving files *)

Section DocumentViewSet_files.

(** [unicodedata.normalize(form, s)] *)
Variable normalize : string -> string -> string.
(** [GnuPG.decrypted(file_handle)] of [paperless.db] *)
Variable GnuPG_decrypted : string -> result string.
(** What the decorator [cache_control(public=False, max_age=315360000)]
    does to the response a method returned: Django's
    [patch_cache_control] sets its [Cache-Control] header. *)
Variable cache_control : response -> response.

Definition original_requested (request : request) : bool :=
  qd_contains "original" (query_params request)
  && bool_decide (qd_getitem "original" (query_params request) = Ok "true").

(** The f-string assembled at the end of [file_response]. *)
Definition content_disposition (disposition filename : string) : string :=
  let filename_normalized :=
    PyBytes (encode_ascii_ignore (normalize "NFKD" (replace_char "," "_" filename))) in
  let filename_encoded := PyStr (quote filename) in
  join_strings
    [ format_value (PyStr disposition); "; ";
      "filename="; chr dquote; format_value filename_normalized; chr dquote; "; ";
      "filename*=utf-8''"; format_value filename_encoded ].

Definition csv_mime_type (m : string) : bool :=
  bool_decide (m ∈ ["application/csv"; "text/csv"]).

Definition file_response (pk : string) (request : request) (disposition : string)
  : M response :=
  doc <- Document_objects_get pk ;;
  sel <- (if negb (original_requested request) && has_archive_version doc then
            file_handle <- open (archive_path doc) ;;
            ret (file_handle, get_public_filename doc true, "application/pdf")
          else
            file_handle <- open (source_path doc) ;;
            let mime_type := mime_type doc in
            let mime_type :=
              if csv_mime_type mime_type && bool_decide (disposition = "inline")
              then "text/plain" else mime_type in
            ret (file_handle, get_public_filename doc false, mime_type)) ;;
  let '(file_handle, filename, mime_type) := sel in
  file_handle <- (if decide (storage_type doc = STORAGE_TYPE_GPG)
                  then lift (GnuPG_decrypted file_handle)
                  else ret file_handle) ;;
  let response := HttpResponse (FileContent file_handle) (Some mime_type) in
  ret (set_header "Content-Disposition" (content_disposition disposition filename)
         response).

Definition not_found_errors (e : exn) : bool :=
  bool_decide (e = FileNotFoundError \/ e = DoesNotExist).

Definition preview (request : request) (pk : string) : M response :=
  try_except (file_response pk request "inline")
    not_found_errors (fun _ => raise Http404).

Definition download (request : request) (pk : string) : M response :=
  try_except (file_response pk request "attachment")
    not_found_errors (fun _ => raise Http404).

(** The method as it is written, and as the router calls it: wrapped in
    the decorator, which sees the response only when one is returned. *)
Definition thumb_undecorated (request : request) (pk : string) : M response :=
  try_except
    (doc <- Document_objects_get pk ;;
     handle <- (if decide (storage_type doc = STORAGE_TYPE_GPG)
                then (h <- open (thumbnail_path doc) ;; lift (GnuPG_decrypted h))
                else open (thumbnail_path doc)) ;;
     ret (HttpResponse (FileContent handle) (Some "image/webp")))
    not_found_errors (fun _ => raise Http404).

Definition thumb (request : request) (pk : string) : M response :=
  response <- thumb_undecorated request pk ;;
  ret (cache_control response).

(** The header as the specification words it: the quoted filename is the
    normalized public filename itself. *)
Definition content_disposition_spec (disposition filename : string) : string :=
  join_strings
    [ disposition; "; ";
      "filename="; chr dquote;
      encode_ascii_ignore (normalize "NFKD" (replace_char "," "_" filename));
      chr dquote; "; ";
      "filename*=utf-8''"; quote filename ].

End DocumentViewSet_files.

(** ** Query helpers *)

(** [order_by]: insertion sort, [le a b] says that [a] may come before [b]. *)
Fixpoint insert_by {A} (le : A -> A -> bool) (x : A) (l : list A) : list A :=
  match l with
  | [] => [x]
  | y :: l' => if le x y then x :: l else y :: insert_by le x l'
  end.

Definition sort_by {A} (le : A -> A -> bool) (l : list A) : list A :=
  foldr (insert_by le) [] l.

(** [d[k]] and [d[k] = v] on a dict kept as an association list. *)
Definition dict_getitem {V} (k : string) (d : list (string * V)) : result V :=
  match filter (fun kv => kv.1 = k) d with
  | kv :: _ => Ok kv.2
  | [] => Raise KeyError
  end.

Fixpoint dict_setitem {V} (k : string) (v : V) (d : list (string * V)) : list (string * V) :=
  match d with
  | [] => [(k, v)]
  | kv :: d' => if decide (kv.1 = k) then (k, v) :: d' else kv :: dict_setitem k v d'
  end.

(** ** DocumentViewSet: notes *)

Section DocumentViewSet_notes.

(** [self.get_object()] of the framework's [GenericAPIView] *)
Variable get_object : request -> string -> database -> result Document.
(** [index.add_or_update_document] of [documents/index.py] *)
Variable index_add_or_update_document : Document -> result unit.
(** [timezone.now()], the default of [Note.created] *)
Variable now : Z.
(** [str(v)] of a value that is no text *)
Variable str_ : json -> string.

Definition note_json (c : Note) : json :=
  JDict [ ("id", JInt (note_id c));
          ("note", note c);
          ("created", JInt (note_created c));
          ("user", JDict [ ("id", JInt (user_id (note_user c)));
                           ("username", JStr (username (note_user c)));
                           ("first_name", JStr (first_name (note_user c)));
                           ("last_name", JStr (last_name (note_user c))) ]) ].

Definition getNotes (doc : Document) : M (list json) :=
  emit (EvOrm "Note" "filter" NoRequestData) ;;;
  d <- get_db ;;
  ret (note_json <$>
         sort_by (fun a b => note_created b <=? note_created a)
           (filter (fun c => note_document c = doc_id doc) (notes d))).

Definition with_notes (d : database) (l : list Note) : database :=
  {| documents := documents d; documents_tags := documents_tags d; notes := l;
     note_sequence := note_sequence d;
     tags := tags d; correspondents := correspondents d;
     document_types := document_types d; storage_paths := storage_paths d;
     tasks := tasks d |}.

(** [INSERT] of a note: the next id of the sequence. *)
Definition insert_note (d : database) (c : Z -> Note) : database :=
  {| documents := documents d; documents_tags := documents_tags d;
     notes := notes d ++ [c (note_sequence d + 1)];
     note_sequence := note_sequence d + 1;
     tags := tags d; correspondents := correspondents d;
     document_types := document_types d; storage_paths := storage_paths d;
     tasks := tasks d |}.

(** What a [TextField] stores ([to_python]): a text as it is, any other
    value through [str]; [None] is no value, and the column of the note
    is [NOT NULL]. *)
Definition TextField_to_python (v : json) : option json :=
  match v with
  | JStr s => Some (JStr s)
  | JNull => None
  | _ => Some (JStr (str_ v))
  end.

(** [Note.objects.create(document=doc, note=v, user=u)].  The model takes
    a [User] only (the user of an unauthenticated request is an
    [AnonymousUser]: [ValueError]); the database refuses a note without
    text ([IntegrityError]). *)
Definition Note_objects_create (src : provenance) (doc : Document) (v : json) (u : User)
  : M Note :=
  emit (EvOrm "Note" "create" src) ;;;
  if negb (is_authenticated u) then raise ValueError
  else
    match TextField_to_python v with
    | None => raise IntegrityError
    | Some text =>
        d <- get_db ;;
        let c id := {| note_id := id; note := text; note_created := now;
                       note_document := doc_id doc; note_user := u |} in
        put_db (insert_note d c) ;;;
        ret (c (note_sequence d + 1))
    end.

(** [Note.objects.get(id=i)] and [note.delete()] *)
Definition Note_objects_get (src : provenance) (i : Z) : M Note :=
  emit (EvOrm "Note" "get" src) ;;;
  d <- get_db ;;
  match filter (fun c => note_id c = i) (notes d) with
  | [c] => ret c
  | [] => row_missing i
  | _ => raise (OtherException "MultipleObjectsReturned")
  end.

Definition Note_delete (c : Note) : M unit :=
  emit (EvOrm "Note" "delete" NoRequestData) ;;;
  d <- get_db ;;
  put_db (with_notes d (filter (fun c' => note_id c' <> note_id c) (notes d))).

(** [index.add_or_update_document(self.get_object())] *)
Definition reindex (request : request) (pk : string) : M unit :=
  emit (EvOrm "Document" "get_object" UrlKwarg) ;;;
  d <- get_db ;;
  o <- lift (get_object request pk d) ;;
  emit (EvIndex "add_or_update_document" NoRequestData) ;;;
  lift (index_add_or_update_document o).

Definition error_body (msg : string) : response :=
  Response (JDict [("error", JStr msg)]).

Definition notes_handler (request : request) (pk : string) : M response :=
  doc <- try_except (Document_objects_get pk)
           (fun e => bool_decide (e = DoesNotExist)) (fun _ => raise Http404) ;;
  let currentUser := user request in
  if decide (method request = "GET") then
    try_except
      (n <- getNotes doc ;; ret (Response (JList n)))
      Exception
      (fun e => emit (EvLog "An error occurred retrieving notes") ;;;
                ret (error_body "Error retreiving notes, check logs for more detail."))
  else if decide (method request = "POST") then
    try_except
      (v <- lift (dict_getitem "note" (data request)) ;;
       c <- Note_objects_create RawRequestData doc v currentUser ;;
       emit (EvOrm "Note" "save" NoRequestData) ;;;
       reindex request pk ;;;
       n <- getNotes doc ;;
       ret (Response (JList n)))
      Exception
      (fun e => emit (EvLog "An error occurred saving note") ;;;
                ret (error_body "Error saving note, check logs for more detail."))
  else if decide (method request = "DELETE") then
    i <- match qd_get "id" (query_params request) with
         | Some s => lift (int s)
         | None => raise TypeError
         end ;;
    c <- Note_objects_get RawRequestData i ;;
    Note_delete c ;;;
    reindex request pk ;;;
    n <- getNotes doc ;;
    ret (Response (JList n))
  else
    ret (error_body "error").

End DocumentViewSet_notes.

(** ** LogViewSet *)

Section LogViewSet.

(** [settings.LOGGING_DIR] *)
Variable LOGGING_DIR : string.
(** Reading a file opened in text mode decodes its bytes in the encoding
    of the locale; bytes that are no text in it raise
    [UnicodeDecodeError]. *)
Variable decode : string -> result string.

Definition log_files : list string := ["paperless"; "mail"].

Definition get_log_filename (log : string) : string :=
  path_join LOGGING_DIR (format_value (PyStr log) +:+ ".log").

(** Text mode reads with universal newlines: [\r\n] and [\r] become [\n]. *)
Fixpoint universal_newlines (l : list ascii) : list ascii :=
  match l with
  | [] => []
  | c :: l' =>
      if decide (c = "013"%char) then
        match l' with
        | c' :: l'' =>
            if decide (c' = "010"%char) then "010"%char :: universal_newlines l''
            else "010"%char :: universal_newlines l'
        | [] => ["010"%char]
        end
      else c :: universal_newlines l'
  end.

(** [f.readlines()]: each line keeps its newline. *)
Fixpoint readlines_aux (cur : list ascii) (l : list ascii) : list (list ascii) :=
  match l with
  | [] => match cur with [] => [] | _ => [rev cur] end
  | c :: l' =>
      if decide (c = "010"%char) then rev (c :: cur) :: readlines_aux [] l'
      else readlines_aux (c :: cur) l'
  end.

Definition readlines (content : string) : list (list ascii) :=
  readlines_aux [] (universal_newlines (chars content)).

Definition LogViewSet_retrieve (request : request) (pk : option string) : M response :=
  match pk with
  | Some log =>
      if bool_decide (log ∈ log_files) then
        let filename := get_log_filename log in
        exists_ <- isfile filename ;;
        if negb exists_ then raise Http404
        else
          f <- open filename ;;
          text <- lift (decode f) ;;
          let lines := (fun line => JStr (of_chars (rstrip line))) <$> readlines text in
          ret (Response (JList lines))
      else raise Http404
  | None => raise Http404
  end.

Definition LogViewSet_list (request : request) : M response :=
  fun w =>
    (w, Ok (Response (JList (JStr <$>
       filter (fun log => is_Some (files w !! get_log_filename log)) log_files)))).

End LogViewSet.

(** ** Views that validate through a serializer *)

Definition dict_get {V} (k : string) (d : list (string * V)) : option V :=
  snd <$> head (filter (fun kv => kv.1 = k) d).

(** What iterating a value of the validated data yields: the entries of
    a list, the keys of a dict, the characters of a text; anything else
    raises [TypeError]. *)
Inductive element :=
| EJson (j : json)
| EChar (code_point : N).

Definition py_iter (j : option json) : result (list element) :=
  match j with
  | Some (JList l) => Ok (EJson <$> l)
  | Some (JDict d) => Ok ((fun k => EJson (JStr k)) <$> d.*1)
  | Some (JStr s) =>
      match utf8_decode (chars s) with
      | Some l => Ok (EChar <$> l)
      | None => Raise ValueError
      end
  | _ => Raise TypeError
  end.

(** A value as an id ([IntegerField.get_prep_value]): [int(v)], and [None]
    as it is. *)
Definition prep_id (x : json) : result (option Z) :=
  match x with
  | JInt z => Ok (Some z)
  | JBool b => Ok (Some (if b then 1 else 0))
  | JStr s =>
      match int s with
      | Ok z => Ok (Some z)
      | Raise e => Raise e
      end
  | JNull => Ok None
  | JList _ | JDict _ => Raise TypeError
  end.

Definition prep_element (x : element) : result (option Z) :=
  match x with
  | EJson j => prep_id j
  | EChar cp =>
      (* [int(c)] for the text of one character *)
      match int_ascii cp with
      | Some n => if ((48 <=? n) && (n <=? 57))%N%bool then Ok (Some (Z.of_N (n - 48)))
                  else Raise ValueError
      | None => Raise ValueError
      end
  end.

(** The ids of an [id__in] lookup, as the ORM reads the value when the
    lookup is built: every entry as an id, [None] entries left out. *)
Fixpoint prep_ids (l : list element) : result (list Z) :=
  match l with
  | [] => Ok []
  | x :: l' =>
      match prep_element x with
      | Ok o =>
          match prep_ids l' with
          | Ok ids => Ok (match o with Some z => z :: ids | None => ids end)
          | Raise e => Raise e
          end
      | Raise e => Raise e
      end
  end.

Definition json_ints (j : option json) : result (list Z) :=
  match py_iter j with
  | Ok l => prep_ids l
  | Raise e => Raise e
  end.

(** Running a query with these ids as parameters: the database driver
    refuses an integer beyond 64 bits ([fits_int64]). *)
Definition bind_ids (ids : list Z) : M unit :=
  if forallb fits_int64 ids then ret tt else raise OverflowError.

(** SQL: the rows of a [LEFT OUTER JOIN] for one left row; without a
    related row there is one row of [NULL]s. *)
Definition left_outer_join {A} (related : list A) : list (option A) :=
  match related with
  | [] => [None]
  | _ => Some <$> related
  end.

(** [Case(When(documents__id__in=ids, then=1))]: [NULL] when no branch
    applies. *)
Definition Case_When_id_in (ids : list Z) (row : option Document) : option Z :=
  match row with
  | Some doc => if bool_decide (doc_id doc ∈ ids) then Some 1 else None
  | None => None
  end.

(** [Count(expr)]: the rows where [expr] is not [NULL]. *)
Definition Count {A} (column : list (option A)) : Z :=
  Z.of_nat (length (filter is_Some column)).

Definition annotate_document_count (ids : list Z) (related : list Document) : Z :=
  Count (Case_When_id_in ids <$> left_outer_join related).

(** The documents reached through the [documents] relation of each model. *)
Definition correspondent_documents (d : database) (c : Correspondent) : list Document :=
  filter (fun doc => correspondent doc = Some (correspondent_pk c)) (documents d).

Definition document_type_documents (d : database) (t : DocumentType) : list Document :=
  filter (fun doc => document_type doc = Some (document_type_pk t)) (documents d).

Definition storage_path_documents (d : database) (s : StoragePath) : list Document :=
  filter (fun doc => storage_path doc = Some (storage_path_pk s)) (documents d).

Definition tag_documents (d : database) (t : Tag) : list Document :=
  filter (fun p => p.2 = tag_id t) (documents_tags d)
    ≫= (fun p => filter (fun doc => doc_id doc = p.1) (documents d)).

Definition selection_entry (id count : Z) : json :=
  JDict [("id", JInt id); ("document_count", JInt count)].

Section Serializer_views.

(** [serializer.is_valid(raise_exception=True)] for the serializer class
    of that name ([documents/serialisers.py]): the validated data, or
    [ValidationError]. *)
Variable is_valid : string -> list (string * json) -> result (list (string * json)).
(** [method(documents, **parameters)] for what the validated data hold
    under ["method"], ["documents"] and ["parameters"]; the methods are
    those of [documents/bulk_edit.py].  Calling what is no method, or
    with parameters that are no dict, raises [TypeError] there. *)
Variable bulk_edit_method :
  option json -> option json -> option json -> database -> database * result json.
(** [str(e)] *)
Variable exn_str : exn -> string.

Definition validate (serializer_class : string) (request : request)
  : M (list (string * json)) :=
  emit (EvValidate serializer_class) ;;;
  lift (is_valid serializer_class (data request)).

Definition SelectionDataView_post (request : request) : M response :=
  validated_data <- validate "DocumentListSerializer" request ;;
  let ids := dict_get "documents" validated_data in
  emit (EvOrm "Correspondent" "annotate" ValidatedData) ;;;
  ids <- lift (json_ints ids) ;;
  emit (EvOrm "Tag" "annotate" ValidatedData) ;;;
  emit (EvOrm "DocumentType" "annotate" ValidatedData) ;;;
  emit (EvOrm "StoragePath" "annotate" ValidatedData) ;;;
  bind_ids ids ;;;
  d <- get_db ;;
  ret (Response (JDict [
    ("selected_correspondents",
      JList ((fun t => selection_entry (correspondent_pk t)
                (annotate_document_count ids (correspondent_documents d t)))
             <$> correspondents d));
    ("selected_tags",
      JList ((fun t => selection_entry (tag_id t)
                (annotate_document_count ids (tag_documents d t)))
             <$> tags d));
    ("selected_document_types",
      JList ((fun t => selection_entry (document_type_pk t)
                (annotate_document_count ids (document_type_documents d t)))
             <$> document_types d));
    ("selected_storage_paths",
      JList ((fun t => selection_entry (storage_path_pk t)
                (annotate_document_count ids (storage_path_documents d t)))
             <$> storage_paths d)) ])).

Definition BulkEditView_post (request : request) : M response :=
  validated_data <- validate "BulkEditSerializer" request ;;
  let method := dict_get "method" validated_data in
  let parameters := dict_get "parameters" validated_data in
  let documents := dict_get "documents" validated_data in
  try_except
    (emit (EvOrm "Document" "bulk_edit" ValidatedData) ;;;
     result <- on_db (bulk_edit_method method documents parameters) ;;
     ret (Response (JDict [("result", result)])))
    Exception
    (fun e => ret (HttpResponseBadRequest (exn_str e))).

Definition with_tasks (d : database) (l : list PaperlessTask) : database :=
  {| documents := documents d; documents_tags := documents_tags d; notes := notes d;
     note_sequence := note_sequence d;
     tags := tags d; correspondents := correspondents d;
     document_types := document_types d; storage_paths := storage_paths d;
     tasks := l |}.

Definition acknowledge (t : PaperlessTask) : PaperlessTask :=
  {| task_pk := task_pk t; task_id := task_id t; acknowledged := true;
     date_created := date_created t |}.

Definition AcknowledgeTasksView_post (request : request) : M response :=
  validated_data <- validate "AcknowledgeTasksViewSerializer" request ;;
  let tasks_ := dict_get "tasks" validated_data in
  try_except
    (emit (EvOrm "PaperlessTask" "update" ValidatedData) ;;;
     tasks_ <- lift (json_ints tasks_) ;;
     bind_ids tasks_ ;;;
     d <- get_db ;;
     let hit t := bool_decide (task_pk t ∈ tasks_) in
     put_db (with_tasks d ((fun t => if hit t then acknowledge t else t) <$> tasks d)) ;;;
     let result := Z.of_nat (length (filter (fun t => hit t = true) (tasks d))) in
     ret (Response (JDict [("result", JInt result)])))
    Exception
    (fun _ => ret (HttpResponseBadRequest "")).

End Serializer_views.

(** ** SearchAutoCompleteView *)

Section SearchAutoCompleteView.

(** [index.autocomplete(index.open_index(), term, limit)] *)
Variable index_autocomplete : string -> Z -> result json.

Definition SearchAutoCompleteView_get (request : request) : M response :=
  if qd_contains "term" (query_params request) then
    term <- lift (qd_getitem "term" (query_params request)) ;;
    limit_or_response <-
      (if qd_contains "limit" (query_params request) then
         s <- lift (qd_getitem "limit" (query_params request)) ;;
         limit <- lift (int s) ;;
         if limit <=? 0 then ret (inr (HttpResponseBadRequest "Invalid limit"))
         else ret (inl limit)
       else ret (inl 10)) ;;
    match limit_or_response with
    | inr r => ret r
    | inl limit =>
        emit (EvIndex "autocomplete" RawRequestData) ;;;
        r <- lift (index_autocomplete term limit) ;;
        ret (Response r)
    end
  else ret (HttpResponseBadRequest "Term required").

End SearchAutoCompleteView.

(** ** StatisticsView *)

(** [Document.objects.filter(tags__is_inbox_tag=True)]: the rows of the
    inner join of documents, the many-to-many table and the inbox tags;
    a document with two inbox tags occurs twice. *)
Definition Document_filter_inbox (d : database) : list Document :=
  documents d ≫= (fun doc =>
    filter (fun p => p.1 = doc_id doc) (documents_tags d) ≫= (fun p =>
      filter (fun t => tag_id t = p.2 /\ is_inbox_tag t = true) (tags d) ≫= (fun _ =>
        [doc]))).

(** [.distinct()] *)
Definition distinct {A} `{EqDecision A} (rows : list A) : list A := remove_dups rows.

(** SQL [LENGTH]: the characters of a text, on its UTF-8 bytes. *)
Definition char_length (s : string) : Z :=
  Z.of_nat (length (filter (fun c => (code c / 64 <> 2)%N) (chars s))).

Definition mime_type_counts (docs : list Document) : list (string * Z) :=
  sort_by (fun a b => b.2 <=? a.2)
    ((fun m => (m, Z.of_nat (length (filter (fun doc => mime_type doc = m) docs))))
     <$> remove_dups (mime_type <$> docs)).

Definition option_json (o : option Z) : json :=
  match o with
  | Some z => JInt z
  | None => JNull
  end.

Definition StatisticsView_get (request : request) : M response :=
  emit (EvOrm "Document" "count" NoRequestData) ;;;
  d <- get_db ;;
  let documents_total := Z.of_nat (length (documents d)) in
  let inbox_tag := filter (fun t => is_inbox_tag t = true) (tags d) in
  let inbox_tag_exists := negb (bool_decide (inbox_tag = [])) in
  let documents_inbox :=
    if inbox_tag_exists
    then Some (Z.of_nat (length (distinct (Document_filter_inbox d))))
    else None in
  let document_file_type_counts :=
    if 0 <? documents_total
    then JList ((fun mc => JDict [("mime_type", JStr mc.1); ("mime_type_count", JInt mc.2)])
                <$> mime_type_counts (documents d))
    else JInt 0 in
  let character_count :=
    match documents d with
    | [] => None
    | docs => Some (foldr Z.add 0 ((fun doc => char_length (doc_content doc)) <$> docs))
    end in
  ret (Response (JDict [
    ("documents_total", JInt documents_total);
    ("documents_inbox", option_json documents_inbox);
    ("inbox_tag",
      option_json (if inbox_tag_exists
                   then head (sort_by Z.leb (tag_id <$> inbox_tag))
                   else None));
    ("document_file_type_counts", document_file_type_counts);
    ("character_count", option_json character_count) ])).

(** ** FilesAndFoldersViewSet *)

(** What the combined list holds: [isinstance] tells the two apart. *)
Inductive item :=
| Folder (s : StoragePath)
| File (doc : Document).

(** [l[start:stop]] with Python's rules: a negative bound counts from the
    end, bounds are clamped to the list. *)
Definition slice_bound (len i : Z) : Z :=
  if i <? 0 then Z.max 0 (len + i) else Z.min i len.

Definition slice {A} (l : list A) (start stop : Z) : list A :=
  let len := Z.of_nat (length l) in
  let a := slice_bound len start in
  let b := slice_bound len stop in
  take (Z.to_nat (b - a)) (drop (Z.to_nat a) l).

Fixpoint contains_char (c : ascii) (s : string) : bool :=
  match s with
  | EmptyString => false
  | String c' s' => (bool_decide (c' = c) || contains_char c s')%bool
  end.

Section FilesAndFoldersViewSet.

(** [StoragePathSerializer(item).data] and [DocumentSerializer(item).data] *)
Variable StoragePathSerializer : StoragePath -> list (string * json).
Variable DocumentSerializer : Document -> list (string * json).
(** [queryset.order_by(ordering)] on documents *)
Variable order_by : string -> list Document -> result (list Document).
(** the [istartswith] lookup of the database: is the second text a
    prefix of the first, ignoring case *)
Variable istartswith : string -> string -> bool.

Definition int_param (k : string) (default : Z) (q : QueryDict) : result Z :=
  match qd_get k q with
  | Some s => int s
  | None => Ok default
  end.

Definition StoragePath_objects_get (src : provenance) (pk : string) : M StoragePath :=
  emit (EvOrm "StoragePath" "get" src) ;;;
  id <- lift (int pk) ;;
  d <- get_db ;;
  match filter (fun s => storage_path_pk s = id) (storage_paths d) with
  | [s] => ret s
  | [] => row_missing id
  | _ => raise (OtherException "MultipleObjectsReturned")
  end.

(** The two lists [folders] and [files] and the parent, by the branch of
    [parent_storage_path_id]. *)
Definition select_folders_files (request : request)
  : M (list StoragePath * list Document * option StoragePath) :=
  let ordering := qd_get_default "ordering" "-created" (query_params request) in
  let parent_storage_path_id := qd_get "parent_storage_path_id" (query_params request) in
  match parent_storage_path_id with
  | Some (String c s) =>
      parent_storage_path <- StoragePath_objects_get RawRequestData (String c s) ;;
      emit (EvOrm "StoragePath" "filter" NoRequestData) ;;;
      d <- get_db ;;
      let folders :=
        filter (fun s => storage_path_pk s <> storage_path_pk parent_storage_path)
          (filter (fun s => istartswith (path s) (path parent_storage_path) = true)
             (storage_paths d)) in
      emit (EvOrm "Document" "filter" RawRequestData) ;;;
      files <- lift (order_by ordering
                 (filter (fun doc => storage_path doc
                                     = Some (storage_path_pk parent_storage_path))
                    (documents d))) ;;
      ret (folders, files, Some parent_storage_path)
  | _ =>
      emit (EvOrm "StoragePath" "exclude" NoRequestData) ;;;
      d <- get_db ;;
      let folders :=
        filter (fun s => contains_char "/" (path s) = false) (storage_paths d) in
      emit (EvOrm "Document" "filter" RawRequestData) ;;;
      files <- lift (order_by ordering
                 (filter (fun doc => storage_path doc = None) (documents d))) ;;
      ret (folders, files, None)
  end.

Definition serialize_item (it : item) : json :=
  match it with
  | Folder s => JDict (dict_setitem "type" (JStr "folder") (StoragePathSerializer s))
  | File doc => JDict (dict_setitem "type" (JStr "file") (DocumentSerializer doc))
  end.

Definition FilesAndFoldersViewSet_list (request : request) : M response :=
  page <- lift (int_param "page" 1 (query_params request)) ;;
  page_size <- lift (int_param "page_size" 100 (query_params request)) ;;
  sel <- select_folders_files request ;;
  let '(folders, files, parent_storage_path) := sel in
  let combined := (Folder <$> folders) ++ (File <$> files) in
  let start := (page - 1) * page_size in
  let end_ := page * page_size in
  let sliced_combined := slice combined start end_ in
  let data := serialize_item <$> sliced_combined in
  ret (Response (JDict [
    ("count", JInt (Z.of_nat (length combined)));
    ("next", JNull);
    ("previous", JNull);
    ("results", JList data);
    ("parentStoragePath",
      match parent_storage_path with
      | Some s => JDict (StoragePathSerializer s)
      | None => JNull
      end) ])).

End FilesAndFoldersViewSet.

(** ** TasksViewSet *)

(** A lazy [QuerySet] over [PaperlessTask]: the clauses collected so far. *)
Record TaskQuerySet := {
  where_acknowledged : option bool;
  where_task_id : option string;
  (** the field of [order_by], if any *)
  ordering : option string;
  (** [False] once [reverse()] flipped the direction *)
  standard_ordering : bool
}.

Definition PaperlessTask_objects : TaskQuerySet :=
  {| where_acknowledged := None; where_task_id := None; ordering := None;
     standard_ordering := true |}.

Definition filter_acknowledged (b : bool) (q : TaskQuerySet) : TaskQuerySet :=
  {| where_acknowledged := Some b; where_task_id := where_task_id q;
     ordering := ordering q; standard_ordering := standard_ordering q |}.

Definition filter_task_id (t : string) (q : TaskQuerySet) : TaskQuerySet :=
  {| where_acknowledged := where_acknowledged q; where_task_id := Some t;
     ordering := ordering q; standard_ordering := standard_ordering q |}.

Definition qs_order_by (field : string) (q : TaskQuerySet) : TaskQuerySet :=
  {| where_acknowledged := where_acknowledged q; where_task_id := where_task_id q;
     ordering := Some field; standard_ordering := standard_ordering q |}.

Definition qs_reverse (q : TaskQuerySet) : TaskQuerySet :=
  {| where_acknowledged := where_acknowledged q; where_task_id := where_task_id q;
     ordering := ordering q; standard_ordering := negb (standard_ordering q) |}.

Definition TasksViewSet_get_queryset (request : request) : TaskQuerySet :=
  let queryset :=
    qs_reverse (qs_order_by "date_created"
                  (filter_acknowledged false PaperlessTask_objects)) in
  let task_id := qd_get "task_id" (query_params request) in
  match task_id with
  | Some t => filter_task_id t PaperlessTask_objects
  | None => queryset
  end.

(** Running the query: [WHERE], then [ORDER BY date_created] in the
    direction asked; without [order_by] the rows come in table order. *)
Definition where_clause (q : TaskQuerySet) (t : PaperlessTask) : bool :=
  match where_acknowledged q with
  | Some b => bool_decide (acknowledged t = b)
  | None => true
  end
  && match where_task_id q with
     | Some s => bool_decide (task_id t = s)
     | None => true
     end.

Definition evaluate (d : database) (q : TaskQuerySet) : list PaperlessTask :=
  let rows := filter (fun t => where_clause q t = true) (tasks d) in
  match ordering q with
  | Some _ =>
      if standard_ordering q
      then sort_by (fun a b => date_created a <=? date_created b) rows
      else sort_by (fun a b => date_created b <=? date_created a) rows
  | None => rows
  end.

(** ** Permissions

    [permission_classes] as each view class of the module sets it; the
    check is the framework's [APIView.initial], which runs before the
    handler. *)

Inductive permission_class :=
| AllowAny
| IsAuthenticated
| PaperlessObjectPermissions
| PaperlessAdminPermissions.

#[global] Instance permission_class_eq_dec : EqDecision permission_class.
Proof. solve_decision. Defined.

Inductive view :=
| CorrespondentViewSet
| TagViewSet
| DocumentTypeViewSet
| DocumentViewSet
| UnifiedSearchViewSet
| LogViewSet
| SavedViewViewSet
| BulkEditView
| PostDocumentView
| SelectionDataView
| SearchAutoCompleteView
| StatisticsView
| BulkDownloadView
| RemoteVersionView
| StoragePathViewSet
| FilesAndFoldersViewSet
| UiSettingsView
| TasksViewSet
| AcknowledgeTasksView.

#[global] Instance view_eq_dec : EqDecision view.
Proof. solve_decision. Defined.

Definition api_views : list view :=
  [ CorrespondentViewSet; TagViewSet; DocumentTypeViewSet; DocumentViewSet;
    UnifiedSearchViewSet; LogViewSet; SavedViewViewSet; BulkEditView;
    PostDocumentView; SelectionDataView; SearchAutoCompleteView; StatisticsView;
    BulkDownloadView; RemoteVersionView; StoragePathViewSet;
    FilesAndFoldersViewSet; UiSettingsView; TasksViewSet; AcknowledgeTasksView ].

(** The class attribute; [None] where the class body does not set it and
    no base class of this module does. *)
Definition permission_classes (v : view) : option (list permission_class) :=
  match v with
  | CorrespondentViewSet => Some [IsAuthenticated; PaperlessObjectPermissions]
  | TagViewSet => Some [IsAuthenticated; PaperlessObjectPermissions]
  | DocumentTypeViewSet => Some [IsAuthenticated; PaperlessObjectPermissions]
  | DocumentViewSet => Some [IsAuthenticated; PaperlessObjectPermissions]
  | UnifiedSearchViewSet => Some [IsAuthenticated; PaperlessObjectPermissions]
  | LogViewSet => Some [IsAuthenticated; PaperlessAdminPermissions]
  | SavedViewViewSet => Some [IsAuthenticated; PaperlessObjectPermissions]
  | BulkEditView => Some [IsAuthenticated]
  | PostDocumentView => Some [IsAuthenticated]
  | SelectionDataView => Some [IsAuthenticated]
  | SearchAutoCompleteView => Some [IsAuthenticated]
  | StatisticsView => Some [IsAuthenticated]
  | BulkDownloadView => Some [IsAuthenticated]
  | RemoteVersionView => None
  | StoragePathViewSet => Some [IsAuthenticated; PaperlessObjectPermissions]
  | FilesAndFoldersViewSet => Some [IsAuthenticated]
  | UiSettingsView => Some [IsAuthenticated]
  | TasksViewSet => Some [IsAuthenticated]
  | AcknowledgeTasksView => Some [IsAuthenticated]
  end.

Section Dispatch.

(** [REST_FRAMEWORK["DEFAULT_PERMISSION_CLASSES"]] of the project
    settings; the framework's own default is [[AllowAny]]. *)
Variable DEFAULT_PERMISSION_CLASSES : list permission_class.
(** [has_permission] of the classes of [documents/permissions.py] *)
Variable documents_has_permission : permission_class -> request -> bool.

Definition has_permission (p : permission_class) (request : request) : bool :=
  match p with
  | AllowAny => true
  | IsAuthenticated => is_authenticated (user request)
  | _ => documents_has_permission p request
  end.

Definition get_permissions (v : view) : list permission_class :=
  default DEFAULT_PERMISSION_CLASSES (permission_classes v).

(** [APIView.permission_denied] *)
Definition permission_denied (request : request) : exn :=
  if has_authenticators request && negb (successful_authenticator request)
  then NotAuthenticated
  else PermissionDenied.

Fixpoint check_permissions (ps : list permission_class) (request : request)
  : result unit :=
  match ps with
  | [] => Ok tt
  | p :: ps' =>
      if has_permission p request then check_permissions ps' request
      else Raise (permission_denied request)
  end.

(** The handler runs only after the checks passed. *)
Definition dispatch {A} (v : view) (request : request) (handler : M A) : M A :=
  lift (check_permissions (get_permissions v) request) ;;; handler.

End Dispatch.

(** The status the framework's exception handler answers with; [None] for
    an exception it does not handle (a server error). *)
Definition exception_status (e : exn) : option Z :=
  match e with
  | Http404 | NotFound => Some 404
  | ValidationError => Some 400
  | NotAuthenticated => Some 401
  | PermissionDenied => Some 403
  | _ => None
  end.

(** The events a run appended to the trace. *)
Definition new_events (w w' : world) : list event :=
  drop (length (trace w)) (trace w').

(** ** The branch of [file_response]

    The file the handler opens, the name it puts in the header and the
    content type, by the branch taken. *)

Definition serves_archive (request : request) (doc : Document) : bool :=
  negb (original_requested request) && has_archive_version doc.

Definition served_path (request : request) (doc : Document) : string :=
  if serves_archive request doc then archive_path doc else source_path doc.

Definition served_filename (request : request) (doc : Document) : string :=
  get_public_filename doc (serves_archive request doc).

Definition served_content_type (request : request) (doc : Document)
  (disposition : string) : string :=
  if serves_archive request doc then "application/pdf"
  else if csv_mime_type (mime_type doc) && bool_decide (disposition = "inline")
       then "text/plain" else mime_type doc.

Definition decrypted (GnuPG_decrypted : string -> result string) (doc : Document)
  (c : string) : result string :=
  if decide (storage_type doc = STORAGE_TYPE_GPG) then GnuPG_decrypted c else Ok c.

(** ** The counts as the specification words them *)

(** A document carries a tag when the many-to-many table links them. *)
Definition carries_inbox_tag (d : database) (doc : Document) : Prop :=
  Exists (fun t => is_inbox_tag t = true /\ (doc_id doc, tag_id t) ∈ documents_tags d)
    (tags d).

(** The number of distinct documents carrying at least one inbox tag when
    an inbox tag exists, and null otherwise. *)
Definition documents_inbox_spec (d : database) : option Z :=
  if decide (Exists (fun t => is_inbox_tag t = true) (tags d))
  then Some (Z.of_nat (length (remove_dups (filter (carries_inbox_tag d) (documents d)))))
  else None.

(** The number of documents of the submitted list linked to an entity. *)
Definition linked_documents_count (ids : list Z) (linked : Document -> Prop)
  `{forall doc, Decision (linked doc)} (d : database) : Z :=
  Z.of_nat (length (filter (fun doc => doc_id doc ∈ ids /\ linked doc) (documents d))).

(** The elements of a list at the indices [first] through [last], in
    the specification's words: list positions count from 0. *)
Definition elements_at_indices {A} (l : list A) (first last : Z) : list A :=
  omap (fun i : Z => if decide (0 <= i) then l !! Z.to_nat i else None)
    (seqZ first (last - first + 1)).

(** ** Shapes of outcomes *)





(** The notes of a document, as [getNotes] lists them. *)
Definition notes_response (r : response) : Prop := exists n, r = Response (JList n).

(** ** More of the module *)

(** A printable ASCII character: no control character (so no line feed
    or carriage return) and nothing above 126. *)
Definition is_printable (c : ascii) : bool :=
  ((32 <=? code c) && (code c <? 127))%N.

Definition printable (s : string) : Prop :=
  Forall (fun c => is_printable c = true) (chars s).

(** *** DocumentViewSet.get_serializer *)

(** [s.split(sep)] for a one-character separator; [cur] holds the current
    piece, reversed. *)
Fixpoint split_aux (sep : ascii) (cur : list ascii) (l : list ascii) : list string :=
  match l with
  | [] => [of_chars (rev cur)]
  | c :: l' =>
      if decide (c = sep) then of_chars (rev cur) :: split_aux sep [] l'
      else split_aux sep (c :: cur) l'
  end.

Definition split (sep : ascii) (s : string) : list string :=
  split_aux sep [] (chars s).

(** [sep.join(l)] *)
Fixpoint join_with (sep : string) (l : list string) : string :=
  match l with
  | [] => ""
  | [s] => s
  | s :: l' => s +:+ sep +:+ join_with sep l'
  end.

(** [s.lower()] on the letters [A]-[Z].  Python lowers the letters of
    other scripts too; the result is compared with ["true"] and ["1"]
    only, which no such letter can produce. *)
Definition ascii_lower (c : ascii) : ascii :=
  if ((65 <=? code c) && (code c <=? 90))%N then ascii_of_N (code c + 32) else c.

Fixpoint lower (s : string) : string :=
  match s with
  | EmptyString => EmptyString
  | String c s' => String (ascii_lower c) (lower s')
  end.

(** The keyword arguments [get_serializer] adds. *)
Record serializer_kwargs := {
  kw_fields : option (list string);
  kw_truncate_content : bool
}.

Definition DocumentViewSet_get_serializer_kwargs (request : request) : serializer_kwargs :=
  let fields_param := qd_get "fields" (query_params request) in
  let fields :=
    match fields_param with
    | Some (String c s) => Some (split "," (String c s))
    | _ => None
    end in
  let truncate_content := qd_get_default "truncate_content" "False" (query_params request) in
  {| kw_fields := fields;
     kw_truncate_content := bool_decide (lower truncate_content ∈ ["true"; "1"]) |}.

(** *** UnifiedSearchViewSet *)

(** A value of the query parameters once the view has written to them: a
    text of the query string, or the user id the view stores. *)
Inductive param_value :=
| PStr (s : string)
| PInt (z : Z).

#[global] Instance param_value_eq_dec : EqDecision param_value.
Proof. solve_decision. Defined.

(** [q[k] = v] on a [QueryDict]: the key keeps its place and loses every
    earlier value. *)
Fixpoint params_setitem (k : string) (v : param_value)
  (q : list (string * param_value)) : list (string * param_value) :=
  match q with
  | [] => [(k, v)]
  | kv :: q' =>
      if decide (kv.1 = k) then (k, v) :: filter (fun kv' => kv'.1 <> k) q'
      else kv :: params_setitem k v q'
  end.

Definition params_contains (k : string) (q : list (string * param_value)) : bool :=
  bool_decide (k ∈ q.*1).

Definition params_get (k : string) (q : list (string * param_value)) : option param_value :=
  last (filter (fun kv => kv.1 = k) q).*2.

Inductive query_class :=
| DelayedFullTextQuery
| DelayedMoreLikeThisQuery.

Inductive serializer_class_name :=
| SearchResultSerializer
| DocumentSerializer_class.

Definition _is_search_request (request : request) : bool :=
  qd_contains "query" (query_params request)
  || qd_contains "more_like_id" (query_params request).

Definition UnifiedSearchViewSet_get_serializer_class (request : request)
  : serializer_class_name :=
  if _is_search_request request then SearchResultSerializer
  else DocumentSerializer_class.

Section UnifiedSearchViewSet.

(** the searcher of [index.open_index_searcher()] *)
Variable searcher : Type.
(** the rows of a queryset *)
Variable queryset : Type.
(** [super().filter_queryset(queryset)] *)
Variable super_filter_queryset : request -> queryset -> result queryset.
(** [self.paginator.get_page_size(self.request)] *)
Variable get_page_size : request -> option Z.
(** entering [index.open_index_searcher()] *)
Variable open_index_searcher : result searcher.
(** [super().list(request)], with [self.searcher] as it stands *)
Variable super_list : option searcher -> request -> M response.
(** [str(e)] *)
Variable exn_str : exn -> string.

(** The query object [filter_queryset] builds: its class and the three
    arguments of the constructor. *)
Record delayed_query := {
  q_class : query_class;
  q_searcher : option searcher;
  q_params : list (string * param_value);
  q_page_size : option Z
}.

Definition UnifiedSearchViewSet_filter_queryset (self_searcher : option searcher)
  (request : request) (qs : queryset) : result (delayed_query + queryset) :=
  if _is_search_request request then
    (* a framework request always has the attribute [user] *)
    let query_params :=
      params_setitem "user" (PInt (user_id (user request)))
        ((fun kv => (kv.1, PStr kv.2)) <$> query_params request) in
    match
      (if params_contains "query" query_params then Ok DelayedFullTextQuery
       else if params_contains "more_like_id" query_params
            then Ok DelayedMoreLikeThisQuery
            else Raise ValueError)
    with
    | Ok cls =>
        Ok (inl {| q_class := cls; q_searcher := self_searcher;
                   q_params := query_params;
                   q_page_size := get_page_size request |})
    | Raise e => Raise e
    end
  else
    match super_filter_queryset request qs with
    | Ok r => Ok (inr r)
    | Raise e => Raise e
    end.

Definition UnifiedSearchViewSet_list (request : request) : M response :=
  if _is_search_request request then
    try_except
      (s <- lift open_index_searcher ;;
       super_list (Some s) request)
      Exception
      (fun e => if decide (e = NotFound) then raise e
                else ret (HttpResponseBadRequest (exn_str e)))
  else super_list None request.

End UnifiedSearchViewSet.

(** *** DocumentViewSet.metadata *)

Section DocumentViewSet_metadata.

(** the columns of [Document] the answer copies *)
Variable checksum archive_checksum : Document -> json.
Variable filename archive_filename original_filename : Document -> json.
(** [doc.content] goes to [langdetect.detect] *)
Variable detect : string -> result string.
(** The parsers of [documents/parsers.py]: the classes and their
    instances *)
Variable parser_class parser_instance : Type.
(** [get_parser_class_for_mime_type(mime_type)] *)
Variable get_parser_class_for_mime_type : string -> result (option parser_class).
(** [parser_class(progress_callback=None, logging_group=None)] *)
Variable new_parser : parser_class -> result parser_instance.
(** [parser.extract_metadata(file, mime_type)] *)
Variable extract_metadata : parser_instance -> string -> string -> result json.

(** Only [extract_metadata] runs inside the [try]. *)
Definition get_metadata (file mime_type : string) : M json :=
  exists_ <- isfile file ;;
  if negb exists_ then ret JNull
  else
    parser_class_ <- lift (get_parser_class_for_mime_type mime_type) ;;
    match parser_class_ with
    | Some cls =>
        parser <- lift (new_parser cls) ;;
        try_except (lift (extract_metadata parser file mime_type))
          Exception (fun _ => ret (JList []))
    | None => ret (JList [])
    end.

(** [os.stat(filename).st_size]: the bytes of the file *)
Definition get_filesize (filename : string) : M json :=
  fun w =>
    match files w !! filename with
    | Some c => (w, Ok (JInt (Z.of_nat (String.length c))))
    | None => (w, Ok JNull)
    end.

Definition metadata_handler (request : request) (pk : string) : M response :=
  doc <- try_except (Document_objects_get pk)
           (fun e => bool_decide (e = DoesNotExist)) (fun _ => raise Http404) ;;
  original_size <- get_filesize (source_path doc) ;;
  original_metadata <- get_metadata (source_path doc) (mime_type doc) ;;
  let meta :=
    [ ("original_checksum", checksum doc);
      ("original_size", original_size);
      ("original_mime_type", JStr (mime_type doc));
      ("media_filename", filename doc);
      ("has_archive_version", JBool (has_archive_version doc));
      ("original_metadata", original_metadata);
      ("archive_checksum", archive_checksum doc);
      ("archive_media_filename", archive_filename doc);
      ("original_filename", original_filename doc) ] in
  lang <- try_except (lift (detect (doc_content doc))) Exception (fun _ => ret "en") ;;
  let meta := dict_setitem "lang" (JStr lang) meta in
  meta <- (if has_archive_version doc then
             archive_size <- get_filesize (archive_path doc) ;;
             let meta := dict_setitem "archive_size" archive_size meta in
             archive_metadata <- get_metadata (archive_path doc) "application/pdf" ;;
             ret (dict_setitem "archive_metadata" archive_metadata meta)
           else
             ret (dict_setitem "archive_metadata" JNull
                    (dict_setitem "archive_size" JNull meta))) ;;
  ret (Response (JDict meta)).

End DocumentViewSet_metadata.

(** *** UiSettingsView.get *)

(** [re.sub(r"^\w+.", "", perm)] on ASCII text: the longest run of
    letters, digits and underscores at the start goes together with the
    character after it, whichever it is except a line feed; when nothing
    follows the run, the pattern takes the last character of the run
    for its dot, so a run of two or more goes altogether. *)
Definition is_word (c : ascii) : bool :=
  let n := code c in
  (((65 <=? n) && (n <=? 90)) || ((97 <=? n) && (n <=? 122))
   || ((48 <=? n) && (n <=? 57)) || (n =? 95))%N%bool.

Fixpoint span_word (l : list ascii) : list ascii * list ascii :=
  match l with
  | c :: l' =>
      if is_word c then let '(w, r) := span_word l' in (c :: w, r) else ([], l)
  | [] => ([], [])
  end.

Definition strip_app_label (perm : string) : string :=
  let '(w, r) := span_word (chars perm) in
  match w with
  | [] => perm
  | _ :: w' =>
      match r with
      | c :: r' =>
          if decide (c = "010"%char)
          then match w' with [] => perm | _ => of_chars r end
          else of_chars r'
      | [] => match w' with [] => perm | _ => "" end
      end
  end.

(** The row of [User] the view reads, with [user.ui_settings.settings]
    where the user has settings. *)
Record user_row := {
  row_id : Z;
  row_username : string;
  row_is_superuser : bool;
  row_groups : list Z;
  row_ui_settings : option json;
  row_all_permissions : list string
}.

Section UiSettingsView.

Variable is_valid : string -> list (string * json) -> result (list (string * json)).
(** [User.objects.get(pk=...)] *)
Variable User_objects_get : Z -> result user_row.
(** [settings.ENABLE_UPDATE_CHECK] *)
Variable ENABLE_UPDATE_CHECK : json.

(** The two branches on ["update_checking"]; anything but a dict, as the
    settings or as the value of the key, ends in [TypeError]. *)
Definition set_backend_setting (ui_settings : json) : result (list (string * json)) :=
  match ui_settings with
  | JDict d =>
      match dict_get "update_checking" d with
      | Some (JDict u) =>
          Ok (dict_setitem "update_checking"
                (JDict (dict_setitem "backend_setting" ENABLE_UPDATE_CHECK u)) d)
      | Some _ => Raise TypeError
      | None =>
          Ok (dict_setitem "update_checking"
                (JDict [("backend_setting", ENABLE_UPDATE_CHECK)]) d)
      end
  | _ => Raise TypeError
  end.

Definition UiSettingsView_get (request : request) : M response :=
  validate is_valid "UiSettingsViewSerializer" request ;;;
  emit (EvOrm "User" "get" NoRequestData) ;;;
  user <- lift (User_objects_get (user_id (Http.user request))) ;;
  let ui_settings := default (JDict []) (row_ui_settings user) in
  ui_settings <- lift (set_backend_setting ui_settings) ;;
  let roles := strip_app_label <$> row_all_permissions user in
  ret (Response (JDict [
    ("user", JDict [ ("id", JInt (row_id user));
                     ("username", JStr (row_username user));
                     ("is_superuser", JBool (row_is_superuser user));
                     ("groups", JList (JInt <$> row_groups user)) ]);
    ("settings", JDict ui_settings);
    ("permissions", JList (JStr <$> roles)) ])).

End UiSettingsView.

(** *** RemoteVersionView.get *)

Section RemoteVersionView.

(** [packaging.version]: the parsed versions, [parse] and [>] *)
Variable version : Type.
Variable parse : string -> result version.
Variable version_gt : version -> version -> bool.
(** [version.__full_version_str__] of [paperless] *)
Variable full_version_str : string.
(** [urlopen(req)] and [response.read().decode("utf-8")] *)
Variable urlopen_read : result string.
(** [json.loads] *)
Variable json_loads : string -> result json.

Definition URLError : exn := OtherException "URLError".

(** [remote_json["tag_name"]], then [startswith] on it *)
Definition tag_name (remote_json : json) : result string :=
  match remote_json with
  | JDict d =>
      match dict_getitem "tag_name" d with
      | Ok (JStr s) => Ok s
      | Ok _ => Raise (OtherException "AttributeError")
      | Raise e => Raise e
      end
  | _ => Raise TypeError
  end.

Definition strip_ngx (remote_version : string) : string :=
  if String.prefix "ngx-" remote_version
  then String.substring 4 (String.length remote_version - 4) remote_version
  else remote_version.

Definition RemoteVersionView_get (request : request) : M response :=
  let remote_version := "0.0.0" in
  current_version <- lift (parse full_version_str) ;;
  remote_version <-
    try_except
      (remote <- lift urlopen_read ;;
       try_except
         (remote_json <- lift (json_loads remote) ;;
          remote_version <- lift (tag_name remote_json) ;;
          ret (strip_ngx remote_version))
         (fun e => bool_decide (e = ValueError))
         (fun _ => emit (EvLog "An error occurred parsing remote version json") ;;;
                   ret remote_version))
      (fun e => bool_decide (e = URLError))
      (fun _ => emit (EvLog "An error occurred checking for available updates") ;;;
                ret remote_version) ;;
  remote <- lift (parse remote_version) ;;
  let is_greater_than_current := version_gt remote current_version in
  ret (Response (JDict [ ("version", JStr remote_version);
                         ("update_available", JBool is_greater_than_current) ])).

End RemoteVersionView.

(** *** DocumentViewSet.update and destroy *)

Section DocumentViewSet_update.

Variable get_object : request -> string -> database -> result Document.
Variable index_add_or_update_document : Document -> result unit.
(** [index.remove_document_from_index] of [documents/index.py] *)
Variable index_remove_document_from_index : Document -> result unit.
(** [super().update(request, ...)] and [super().destroy(request, ...)]:
    the framework's [UpdateModelMixin] and [DestroyModelMixin] *)
Variable super_update super_destroy : request -> string -> M response.

Definition DocumentViewSet_update (request : request) (pk : string) : M response :=
  response <- super_update request pk ;;
  reindex get_object index_add_or_update_document request pk ;;;
  ret response.

Definition DocumentViewSet_destroy (request : request) (pk : string) : M response :=
  emit (EvOrm "Document" "get_object" UrlKwarg) ;;;
  d <- get_db ;;
  o <- lift (get_object request pk d) ;;
  emit (EvIndex "remove_document_from_index" NoRequestData) ;;;
  lift (index_remove_document_from_index o) ;;;
  super_destroy request pk.

End DocumentViewSet_update.

(** *** DocumentViewSet.suggestions *)

(** [sorted(s)] of a set of dates (a date is kept as the number it is
    ordered by): comparing [None] with anything raises [TypeError], and
    two elements are enough for a comparison. *)
Definition sorted_dates (s : list (option Z)) : result (list (option Z)) :=
  match s with
  | [] | [_] => Ok s
  | _ =>
      match mapM (fun x : option Z => x) s with
      | Some l => Ok (Some <$> sort_by Z.leb l)
      | None => Raise TypeError
      end
  end.

Section DocumentViewSet_suggestions.

(** the classifier of [documents/classifier.py] *)
Variable classifier : Type.
Variable load_classifier : result classifier.
(** [itertools.islice(parse_date_generator(doc.filename, doc.content), n)]:
    what the first [n] steps of the generator yield *)
Variable parse_date_generator : Document -> nat -> result (list (option Z)).
(** [settings.NUMBER_OF_SUGGESTED_DATES] *)
Variable NUMBER_OF_SUGGESTED_DATES : nat.
(** [date.strftime("%Y-%m-%d")] *)
Variable strftime : Z -> string.
(** the ids of what [match_correspondents(doc, classifier)] and its like
    return ([documents/matching.py]) *)
Variable match_correspondents match_tags match_document_types match_storage_paths :
  Document -> classifier -> result (list Z).

Definition DocumentViewSet_suggestions (request : request) (pk : string) : M response :=
  (* get_object_or_404(Document, pk=pk) *)
  doc <- try_except (Document_objects_get pk)
           (fun e => bool_decide (e = DoesNotExist)) (fun _ => raise Http404) ;;
  classifier_ <- lift load_classifier ;;
  gen <- lift (parse_date_generator doc NUMBER_OF_SUGGESTED_DATES) ;;
  dates <- lift (sorted_dates (remove_dups gen)) ;;
  correspondents <- lift (match_correspondents doc classifier_) ;;
  tags <- lift (match_tags doc classifier_) ;;
  document_types <- lift (match_document_types doc classifier_) ;;
  storage_paths <- lift (match_storage_paths doc classifier_) ;;
  ret (Response (JDict [
    ("correspondents", JList (JInt <$> correspondents));
    ("tags", JList (JInt <$> tags));
    ("document_types", JList (JInt <$> document_types));
    ("storage_paths", JList (JInt <$> storage_paths));
    ("dates", JList ((fun date => JStr (strftime date))
                     <$> omap (fun x : option Z => x) dates)) ])).

End DocumentViewSet_suggestions.

(** *** DocumentViewSet.index_field_metadata *)

Section DocumentViewSet_index_field_metadata.

Variable get_object : request -> string -> database -> result Document.
Variable index_add_or_update_document : Document -> result unit.
Variable str_ : json -> string.
(** The model [Metadata] is declared in [documents/models.py].
    [Metadata.objects.filter(document=doc).order_by("-created")] is handed
    to [Response] as it is, a query not yet run: what the renderer reads
    from it. *)
Variable Metadata_objects_filter : Document -> database -> json.
(** [Metadata.objects.create(document=doc, data=v, user=u)]: the database
    after it and [c.data] *)
Variable Metadata_objects_create :
  Document -> json -> User -> database -> database * result json.

Definition index_field_metadata (request : request) (pk : string) : M response :=
  doc <- try_except (Document_objects_get pk)
           (fun e => bool_decide (e = DoesNotExist)) (fun _ => raise Http404) ;;
  let currentUser := user request in
  if decide (method request = "GET") then
    try_except
      (emit (EvOrm "Metadata" "filter" NoRequestData) ;;;
       d <- get_db ;;
       ret (Response (Metadata_objects_filter doc d)))
      Exception
      (fun e => emit (EvLog "An error occurred retrieving metadatas") ;;;
                ret (error_body "Error retreiving metadatas, check logs for more detail."))
  else if decide (method request = "POST") then
    try_except
      (v <- lift (dict_getitem "metadata" (data request)) ;;
       emit (EvOrm "Metadata" "create" RawRequestData) ;;;
       c_data <- on_db (Metadata_objects_create doc v currentUser) ;;
       emit (EvOrm "Metadata" "save" NoRequestData) ;;;
       reindex get_object index_add_or_update_document request pk ;;;
       ret (Response (JStr (str_ c_data))))
      Exception
      (fun e => emit (EvLog "An error occurred saving metadata") ;;;
                ret (error_body "Error saving metadata, check logs for more detail."))
  else
    (* the method ends without a [return]: the framework refuses [None] *)
    raise (OtherException "AssertionError").

End DocumentViewSet_index_field_metadata.

(** *** PostDocumentView and BulkDownloadView *)

(** [Document.objects.get(id=v)] for a value of the validated data: it is
    read as [prep_element] reads it; [None] is the id of no row. *)
Definition Document_objects_get_id (src : provenance) (v : element) : M Document :=
  emit (EvOrm "Document" "get" src) ;;;
  id <- lift (prep_element v) ;;
  match id with
  | Some id =>
      d <- get_db ;;
      match filter (fun doc => doc_id doc = id) (documents d) with
      | [doc] => ret doc
      | [] => row_missing id
      | _ => raise (OtherException "MultipleObjectsReturned")
      end
  | None => raise DoesNotExist
  end.

Inductive bulk_download_strategy :=
| OriginalAndArchiveStrategy
| OriginalsOnlyStrategy
| ArchiveOnlyStrategy.

Section Serializer_views_with_files.

Variable is_valid : string -> list (string * json) -> result (list (string * json)).
(** [doc_name, doc_data = serializer.validated_data.get("document")]: the
    serializer of [documents/serialisers.py] leaves a pair there *)
Variable document_pair : option json -> result (json * json).
(** [os.makedirs(settings.SCRATCH_DIR, exist_ok=True)], then the file
    [tempfile.mkdtemp(dir=...) / pathvalidate.sanitize_filename(doc_name)]
    written with [doc_data] and its times set: the path of the file *)
Variable write_scratch_file : json -> json -> result string.
(** [consume_file.delay(input_doc, input_doc_overrides)] for the
    [ConsumableDocument] of the scratch file and the overrides, by their
    keyword: the id of the task *)
Variable consume_file_delay : string -> list (string * option json) -> result json.
(** [os.makedirs(settings.SCRATCH_DIR, exist_ok=True)], then
    [tempfile.NamedTemporaryFile(...)] and [zipfile.ZipFile(temp.name, "w",
    compression)] with the strategy made for it *)
Variable zip_archive : Type.
Variable open_zip_archive :
  bulk_download_strategy -> option json -> option json -> result zip_archive.
(** [strategy.add_document(doc)] *)
Variable add_document : zip_archive -> Document -> result zip_archive.
(** closing the archive and reading the file *)
Variable read_zip_archive : zip_archive -> result string.
(** [serializer.save(user=...)] *)
Variable serializer_save :
  list (string * json) -> User -> database -> database * result unit.

Definition PostDocumentView_post (request : request) : M response :=
  validated_data <- validate is_valid "PostDocumentSerializer" request ;;
  document <- lift (document_pair (dict_get "document" validated_data)) ;;
  let '(doc_name, doc_data) := document in
  let correspondent_id := dict_get "correspondent" validated_data in
  let document_type_id := dict_get "document_type" validated_data in
  let tag_ids := dict_get "tags" validated_data in
  let title := dict_get "title" validated_data in
  let created := dict_get "created" validated_data in
  let archive_serial_number := dict_get "archive_serial_number" validated_data in
  let storage_path_id := dict_get "storage_path_id" validated_data in
  let full_path := dict_get "full_path" validated_data in
  let is_large_file := dict_get "is_large_file" validated_data in
  let ocr_specific_pages := dict_get "ocr_specific_pages" validated_data in
  emit (EvLog "storage_path_id") ;;;
  temp_file_path <- lift (write_scratch_file doc_name doc_data) ;;
  let input_doc_overrides :=
    [ ("filename", Some doc_name);
      ("title", title);
      ("correspondent_id", correspondent_id);
      ("document_type_id", document_type_id);
      ("tag_ids", tag_ids);
      ("created", created);
      ("asn", archive_serial_number);
      ("storage_path_id", storage_path_id);
      ("full_path", full_path);
      ("is_large_file", is_large_file);
      ("ocr_specific_pages", ocr_specific_pages) ] in
  async_task_id <- lift (consume_file_delay temp_file_path input_doc_overrides) ;;
  ret (Response async_task_id).

Definition BulkDownloadView_post (request : request) : M response :=
  validated_data <- validate is_valid "BulkDownloadSerializer" request ;;
  let ids := dict_get "documents" validated_data in
  let compression := dict_get "compression" validated_data in
  let content := dict_get "content" validated_data in
  let follow_filename_format := dict_get "follow_formatting" validated_data in
  let strategy_class :=
    match content with
    | Some (JStr c) =>
        if decide (c = "both") then OriginalAndArchiveStrategy
        else if decide (c = "originals") then OriginalsOnlyStrategy
        else ArchiveOnlyStrategy
    | _ => ArchiveOnlyStrategy
    end in
  zipf <- lift (open_zip_archive strategy_class compression follow_filename_format) ;;
  ids <- lift (py_iter ids) ;;
  zipf <- foldl (fun (acc : M zip_archive) id =>
                   zipf <- acc ;;
                   doc <- Document_objects_get_id ValidatedData id ;;
                   lift (add_document zipf doc))
            (ret zipf) ids ;;
  f <- lift (read_zip_archive zipf) ;;
  let response := HttpResponse (FileContent f) (Some "application/zip") in
  ret (set_header "Content-Disposition"
         ("attachment; filename=" +:+ chr dquote +:+ "documents.zip" +:+ chr dquote)
         response).

Definition UiSettingsView_post (request : request) : M response :=
  validated_data <- validate is_valid "UiSettingsViewSerializer" request ;;
  emit (EvOrm "UiSettings" "save" ValidatedData) ;;;
  on_db (serializer_save validated_data (user request)) ;;;
  ret (Response (JDict [("success", JBool true)])).

End Serializer_views_with_files.


(** ** The handlers by name *)

(** Everything the handlers take from outside this module. *)
Record collaborators := {
  co_normalize : string -> string -> string;
  co_GnuPG_decrypted : string -> result string;
  co_cache_control : response -> response;
  co_get_object : request -> string -> database -> result Document;
  co_index_add_or_update_document : Document -> result unit;
  co_index_remove_document_from_index : Document -> result unit;
  co_super_update : request -> string -> M response;
  co_super_destroy : request -> string -> M response;
  co_now : Z;
  co_str : json -> string;
  co_checksum : Document -> json;
  co_archive_checksum : Document -> json;
  co_filename : Document -> json;
  co_archive_filename : Document -> json;
  co_original_filename : Document -> json;
  co_detect : string -> result string;
  co_parser_class : Type;
  co_parser_instance : Type;
  co_get_parser_class_for_mime_type : string -> result (option co_parser_class);
  co_new_parser : co_parser_class -> result co_parser_instance;
  co_extract_metadata : co_parser_instance -> string -> string -> result json;
  co_classifier : Type;
  co_load_classifier : result co_classifier;
  co_parse_date_generator : Document -> nat -> result (list (option Z));
  co_NUMBER_OF_SUGGESTED_DATES : nat;
  co_strftime : Z -> string;
  co_match_correspondents : Document -> co_classifier -> result (list Z);
  co_match_tags : Document -> co_classifier -> result (list Z);
  co_match_document_types : Document -> co_classifier -> result (list Z);
  co_match_storage_paths : Document -> co_classifier -> result (list Z);
  co_Metadata_objects_filter : Document -> database -> json;
  co_Metadata_objects_create :
    Document -> json -> User -> database -> database * result json;
  co_searcher : Type;
  co_open_index_searcher : result co_searcher;
  co_super_list : option co_searcher -> request -> M response;
  co_LOGGING_DIR : string;
  co_decode : string -> result string;
  co_is_valid : string -> list (string * json) -> result (list (string * json));
  co_bulk_edit_method :
    option json -> option json -> option json -> database -> database * result json;
  co_exn_str : exn -> string;
  co_document_pair : option json -> result (json * json);
  co_write_scratch_file : json -> json -> result string;
  co_consume_file_delay : string -> list (string * option json) -> result json;
  co_zip_archive : Type;
  co_open_zip_archive :
    bulk_download_strategy -> option json -> option json -> result co_zip_archive;
  co_add_document : co_zip_archive -> Document -> result co_zip_archive;
  co_read_zip_archive : co_zip_archive -> result string;
  co_serializer_save :
    list (string * json) -> User -> database -> database * result unit;
  co_index_autocomplete : string -> Z -> result json;
  co_version : Type;
  co_parse : string -> result co_version;
  co_version_gt : co_version -> co_version -> bool;
  co_full_version_str : string;
  co_urlopen_read : result string;
  co_json_loads : string -> result json;
  co_StoragePathSerializer : StoragePath -> list (string * json);
  co_DocumentSerializer : Document -> list (string * json);
  co_order_by : string -> list Document -> result (list Document);
  co_istartswith : string -> string -> bool;
  co_User_objects_get : Z -> result user_row;
  co_ENABLE_UPDATE_CHECK : json
}.


(** The methods of the module that answer a request, in the order of
    the file. *)
Inductive handler :=
| DocumentViewSet_update_
| DocumentViewSet_destroy_
| DocumentViewSet_metadata
| DocumentViewSet_suggestions_
| DocumentViewSet_preview
| DocumentViewSet_thumb
| DocumentViewSet_download
| DocumentViewSet_notes
| DocumentViewSet_index_field_metadata
| UnifiedSearchViewSet_list_
| LogViewSet_retrieve_
| LogViewSet_list_
| BulkEditView_post_
| PostDocumentView_post_
| SelectionDataView_post_
| SearchAutoCompleteView_get_
| StatisticsView_get_
| BulkDownloadView_post_
| RemoteVersionView_get_
| FilesAndFoldersViewSet_list_
| UiSettingsView_get_
| UiSettingsView_post_
| AcknowledgeTasksView_post_.

#[global] Instance handler_eq_dec : EqDecision handler.
Proof. solve_decision. Defined.


(** Running a handler on a request; [pk] is the URL keyword argument of
    the detail routes. *)
Definition handle (co : collaborators) (h : handler) (request : request) (pk : string)
  : M response :=
  match h with
  | DocumentViewSet_update_ =>
      DocumentViewSet_update (co_get_object co) (co_index_add_or_update_document co)
        (co_super_update co) request pk
  | DocumentViewSet_destroy_ =>
      DocumentViewSet_destroy (co_get_object co) (co_index_remove_document_from_index co)
        (co_super_destroy co) request pk
  | DocumentViewSet_metadata =>
      metadata_handler (co_checksum co) (co_archive_checksum co) (co_filename co)
        (co_archive_filename co) (co_original_filename co) (co_detect co)
        (co_parser_class co) (co_parser_instance co)
        (co_get_parser_class_for_mime_type co) (co_new_parser co)
        (co_extract_metadata co) request pk
  | DocumentViewSet_suggestions_ =>
      DocumentViewSet_suggestions (co_classifier co) (co_load_classifier co)
        (co_parse_date_generator co) (co_NUMBER_OF_SUGGESTED_DATES co) (co_strftime co)
        (co_match_correspondents co) (co_match_tags co) (co_match_document_types co)
        (co_match_storage_paths co) request pk
  | DocumentViewSet_preview =>
      preview (co_normalize co) (co_GnuPG_decrypted co) request pk
  | DocumentViewSet_thumb =>
      thumb (co_GnuPG_decrypted co) (co_cache_control co) request pk
  | DocumentViewSet_download =>
      download (co_normalize co) (co_GnuPG_decrypted co) request pk
  | DocumentViewSet_notes =>
      notes_handler (co_get_object co) (co_index_add_or_update_document co) (co_now co)
        (co_str co) request pk
  | DocumentViewSet_index_field_metadata =>
      index_field_metadata (co_get_object co) (co_index_add_or_update_document co)
        (co_str co) (co_Metadata_objects_filter co) (co_Metadata_objects_create co)
        request pk
  | UnifiedSearchViewSet_list_ =>
      UnifiedSearchViewSet_list (co_searcher co) (co_open_index_searcher co)
        (co_super_list co) (co_exn_str co) request
  | LogViewSet_retrieve_ =>
      LogViewSet_retrieve (co_LOGGING_DIR co) (co_decode co) request (Some pk)
  | LogViewSet_list_ =>
      LogViewSet_list (co_LOGGING_DIR co) request
  | BulkEditView_post_ =>
      BulkEditView_post (co_is_valid co) (co_bulk_edit_method co) (co_exn_str co) request
  | PostDocumentView_post_ =>
      PostDocumentView_post (co_is_valid co) (co_document_pair co)
        (co_write_scratch_file co) (co_consume_file_delay co) request
  | SelectionDataView_post_ =>
      SelectionDataView_post (co_is_valid co) request
  | SearchAutoCompleteView_get_ =>
      SearchAutoCompleteView_get (co_index_autocomplete co) request
  | StatisticsView_get_ =>
      StatisticsView_get request
  | BulkDownloadView_post_ =>
      BulkDownloadView_post (co_is_valid co) (co_zip_archive co)
        (co_open_zip_archive co) (co_add_document co) (co_read_zip_archive co) request
  | RemoteVersionView_get_ =>
      RemoteVersionView_get (co_version co) (co_parse co) (co_version_gt co)
        (co_full_version_str co) (co_urlopen_read co) (co_json_loads co) request
  | FilesAndFoldersViewSet_list_ =>
      FilesAndFoldersViewSet_list (co_StoragePathSerializer co) (co_DocumentSerializer co)
        (co_order_by co) (co_istartswith co) request
  | UiSettingsView_get_ =>
      UiSettingsView_get (co_is_valid co) (co_User_objects_get co)
        (co_ENABLE_UPDATE_CHECK co) request
  | UiSettingsView_post_ =>
      UiSettingsView_post (co_is_valid co) (co_serializer_save co) request
  | AcknowledgeTasksView_post_ =>
      AcknowledgeTasksView_post (co_is_valid co) request
  end.

(** The serializer class of the view, where the handler calls one. *)
Definition serializer_class (h : handler) : option string :=
  match h with
  | BulkEditView_post_ => Some "BulkEditSerializer"
  | PostDocumentView_post_ => Some "PostDocumentSerializer"
  | SelectionDataView_post_ => Some "DocumentListSerializer"
  | BulkDownloadView_post_ => Some "BulkDownloadSerializer"
  | UiSettingsView_get_ | UiSettingsView_post_ => Some "UiSettingsViewSerializer"
  | AcknowledgeTasksView_post_ => Some "AcknowledgeTasksViewSerializer"
  | _ => None
  end.


(** ** Sample data *)

Definition sample_user : User :=
  {| user_id := 1; username := "ada"; first_name := "Ada"; last_name := "L";
     is_authenticated := true |}.

Definition anonymous_user : User :=
  {| user_id := 0; username := ""; first_name := ""; last_name := "";
     is_authenticated := false |}.

Definition sample_document : Document :=
  {| doc_id := 7; correspondent := Some 1; document_type := None; storage_path := None;
     created := 20; doc_content := "total 12"; mime_type := "text/csv";
     storage_type := STORAGE_TYPE_UNENCRYPTED; has_archive_version := true;
     public_filename := "2023 bill, final.csv";
     public_archive_filename := "2023 bill, final.pdf";
     source_path := "/media/originals/0000007.csv";
     archive_path := "/media/archive/0000007.pdf";
     thumbnail_path := "/media/thumbnails/0000007.webp" |}.

Definition sample_db : database :=
  {| documents := [sample_document];
     documents_tags := [(7, 3)];
     notes := [];
     note_sequence := 0;
     tags := [ {| tag_id := 3; is_inbox_tag := true |};
               {| tag_id := 4; is_inbox_tag := false |} ];
     correspondents := [ {| correspondent_pk := 1 |}; {| correspondent_pk := 2 |} ];
     document_types := [ {| document_type_pk := 1 |} ];
     storage_paths := [ {| storage_path_pk := 1; path := "bills" |};
                        {| storage_path_pk := 2; path := "bills/2023" |} ];
     tasks := [ {| task_pk := 1; task_id := "t-1"; acknowledged := true; date_created := 5 |};
                {| task_pk := 2; task_id := "t-2"; acknowledged := false; date_created := 6 |};
                {| task_pk := 3; task_id := "t-3"; acknowledged := false; date_created := 9 |} ] |}.

Definition sample_world : world :=
  {| db := sample_db;
     files := {[ "/media/originals/0000007.csv" := "a;b";
                 "/media/archive/0000007.pdf" := "%PDF-1.7";
                 "/var/log/paperless/mail.log" := "started" ]};
     trace := [] |}.

Definition sample_request (m : string) (q : QueryDict) (d : list (string * json)) : request :=
  {| method := m; query_params := q; data := d; user := sample_user;
     has_authenticators := true; successful_authenticator := true |}.

Definition anonymous_request : request :=
  {| method := "GET"; query_params := []; data := []; user := anonymous_user;
     has_authenticators := true; successful_authenticator := false |}.

(** A second document, filed under the storage path ["bills"], and a
    note on each of the two documents. *)
Definition second_document : Document :=
  {| doc_id := 8; correspondent := None; document_type := None; storage_path := Some 1;
     created := 25; doc_content := "rappel"; mime_type := "application/pdf";
     storage_type := STORAGE_TYPE_UNENCRYPTED; has_archive_version := false;
     public_filename := "reminder.pdf";
     public_archive_filename := "reminder.pdf";
     source_path := "/media/originals/0000008.pdf";
     archive_path := "/media/archive/0000008.pdf";
     thumbnail_path := "/media/thumbnails/0000008.webp" |}.

Definition sample_notes : list Note :=
  [ {| note_id := 1; note := JStr "paid"; note_created := 30; note_document := 7;
       note_user := sample_user |};
    {| note_id := 2; note := JStr "call them"; note_created := 40; note_document := 8;
       note_user := sample_user |} ].

Definition noted_world : world :=
  {| db := {| documents := [sample_document; second_document];
              documents_tags := documents_tags sample_db;
              notes := sample_notes;
              note_sequence := 2;
              tags := tags sample_db;
              correspondents := correspondents sample_db;
              document_types := document_types sample_db;
              storage_paths := storage_paths sample_db;
              tasks := tasks sample_db |};
     files := <["/media/originals/0000008.pdf" := "%PDF-1.4 x"]> (files sample_world);
     trace := [] |}.

(** The row of the sample user, with settings that already hold an
    ["update_checking"] entry. *)
Definition sample_user_row : user_row :=
  {| row_id := 1; row_username := "ada"; row_is_superuser := false; row_groups := [2];
     row_ui_settings :=
       Some (JDict [ ("language", JStr "en");
                     ("update_checking", JDict [("enabled", JBool true)]) ]);
     row_all_permissions := ["documents.view_document"; "auth.add_user"] |}.

Definition sample_collaborators : collaborators :=
  {| co_normalize := fun _ s => s;
     co_GnuPG_decrypted := Ok;
     co_cache_control := set_header "Cache-Control" "public=False, max-age=315360000";
     co_get_object := fun _ _ _ => Ok sample_document;
     co_index_add_or_update_document := fun _ => Ok tt;
     co_index_remove_document_from_index := fun _ => Ok tt;
     co_super_update := fun _ _ => ret (Response JNull);
     co_super_destroy := fun _ _ => ret (Response JNull);
     co_now := 100;
     co_str := fun _ => "?";
     co_checksum := fun _ => JStr "9f2c";
     co_archive_checksum := fun _ => JNull;
     co_filename := fun doc => JStr (source_path doc);
     co_archive_filename := fun _ => JNull;
     co_original_filename := fun _ => JNull;
     co_detect := fun _ => Raise ValueError;
     co_parser_class := unit;
     co_parser_instance := unit;
     co_get_parser_class_for_mime_type := fun _ => Ok None;
     co_new_parser := fun _ => Ok tt;
     co_extract_metadata := fun _ _ _ => Ok (JList []);
     co_classifier := unit;
     co_load_classifier := Ok tt;
     co_parse_date_generator := fun _ _ => Ok [];
     co_NUMBER_OF_SUGGESTED_DATES := 3%nat;
     co_strftime := fun _ => "2023-01-01";
     co_match_correspondents := fun _ _ => Ok [];
     co_match_tags := fun _ _ => Ok [];
     co_match_document_types := fun _ _ => Ok [];
     co_match_storage_paths := fun _ _ => Ok [];
     co_Metadata_objects_filter := fun _ _ => JList [];
     co_Metadata_objects_create := fun _ v _ d => (d, Ok v);
     co_searcher := unit;
     co_open_index_searcher := Ok tt;
     co_super_list := fun _ _ => ret (Response (JList []));
     co_LOGGING_DIR := "/var/log/paperless";
     co_decode := Ok;
     co_is_valid := fun _ d => Ok d;
     co_bulk_edit_method := fun _ _ _ d => (d, Ok (JStr "OK"));
     co_exn_str := fun _ => "error";
     co_document_pair := fun _ => Raise TypeError;
     co_write_scratch_file := fun _ _ => Ok "/scratch/upload";
     co_consume_file_delay := fun _ _ => Ok (JStr "task");
     co_zip_archive := list Z;
     co_open_zip_archive := fun _ _ _ => Ok [];
     co_add_document := fun z doc => Ok (z ++ [doc_id doc]);
     co_read_zip_archive := fun _ => Ok "PK";
     co_serializer_save := fun _ _ d => (d, Ok tt);
     co_index_autocomplete := fun _ _ => Ok (JList []);
     co_version := Z;
     co_parse := fun s => Ok (Z.of_nat (String.length s));
     co_version_gt := Z.gtb;
     co_full_version_str := "1.14.5";
     co_urlopen_read := Raise URLError;
     co_json_loads := fun _ => Raise ValueError;
     co_StoragePathSerializer := fun s => [("id", JInt (storage_path_pk s))];
     co_DocumentSerializer := fun doc => [("id", JInt (doc_id doc))];
     co_order_by := fun _ l => Ok l;
     co_istartswith := fun s p => String.prefix p s;
     co_User_objects_get := fun _ => Ok sample_user_row;
     co_ENABLE_UPDATE_CHECK := JBool false |}.


(** * Properties *)

(** ** Strings *)

Lemma length_append (a b : string) :
  String.length (a +:+ b) = (String.length a + String.length b)%nat.
Proof. induction a as [|c a IH]; simpl; [done | by rewrite IH]. Qed.

Lemma append_nil_r (a : string) : a +:+ "" = a.
Proof.
  induction a as [|c a IH]; [done |].
  change (String c (a +:+ "") = String c a). by rewrite IH.
Qed.

Lemma length_join_repr_byte q l :
  (length l <= String.length (join_strings (map (repr_byte q) l)))%nat.
Proof.
  induction l as [|c l IH]; simpl; [lia |].
  rewrite length_append.
  assert (1 <= String.length (repr_byte q c))%nat; [| lia].
  unfold repr_byte. repeat case_decide; simpl; try lia.
  destruct (_ || _)%bool; simpl; lia.
Qed.

Lemma length_chars s : length (chars s) = String.length s.
Proof. induction s; simpl; congruence. Qed.

(** The [repr] of a bytes object is at least three characters longer than
    the bytes: the [b] and the two quotes. *)
Lemma bytes_repr_longer b :
  (String.length b + 3 <= String.length (bytes_repr b))%nat.
Proof.
  unfold bytes_repr. simpl. rewrite length_append. simpl.
  pose proof (length_join_repr_byte (repr_quote b) (chars b)) as H.
  rewrite length_chars in H. lia.
Qed.

Lemma content_disposition_longer normalize disposition filename :
  (String.length (content_disposition_spec normalize disposition filename)
   < String.length (content_disposition normalize disposition filename))%nat.
Proof.
  unfold content_disposition, content_disposition_spec. simpl.
  repeat (rewrite !length_append; simpl).
  set (b := encode_ascii_ignore (normalize "NFKD" (replace_char "," "_" filename))).
  pose proof (length_join_repr_byte (repr_quote b) (chars b)) as H.
  rewrite length_chars in H. lia.
Qed.

(** ** QueryDict *)

Lemma qd_contains_get k q :
  qd_contains k q = true <-> is_Some (qd_get k q).
Proof.
  unfold qd_contains, qd_get. rewrite bool_decide_eq_true.
  induction q as [|[k' v] q IH].
  - split; [intros H; inversion H | intros [? H]; discriminate].
  - rewrite fmap_cons, elem_of_cons, IH, filter_cons. cbn [fst].
    case_decide as Hk.
    + subst k'. split; [intros _ | by left].
      rewrite fmap_cons. cbn [snd].
      destruct ((filter (fun kv => kv.1 = k) q).*2) as [|x l]; [by eexists |].
      rewrite last_cons. destruct (last (x :: l)); by eexists.
    + split; [intros [?|?]; [congruence | done] | by right].
Qed.

Lemma original_requested_true request :
  original_requested request = true
  <-> qd_get "original" (query_params request) = Some "true".
Proof.
  unfold original_requested, qd_getitem.
  rewrite andb_true_iff, bool_decide_eq_true, qd_contains_get.
  destruct (qd_get "original" (query_params request)) as [v|]; simpl.
  - split; [intros [_ H]; congruence | intros H; split; [by eexists | congruence]].
  - split; [intros [[? ?] _]; discriminate | discriminate].
Qed.

(** ** file_response *)

Section file_response_facts.

Variable normalize : string -> string -> string.
Variable GnuPG_decrypted : string -> result string.

Lemma Document_objects_get_ok pk w id doc :
  int pk = Ok id ->
  filter (fun d => doc_id d = id) (documents (db w)) = [doc] ->
  Document_objects_get pk w
  = ({| db := db w; files := files w;
        trace := trace w ++ [EvOrm "Document" "get" UrlKwarg] |}, Ok doc).
Proof.
  intros Hid Hdoc. unfold Document_objects_get, bind, emit, lift, get_db. simpl.
  rewrite Hid. simpl. rewrite Hdoc. reflexivity.
Qed.

(** Whatever [Document_objects_get] returns is a row of the table with
    the requested id, and only the lookup was added to the trace. *)
Lemma Document_objects_get_inv pk w w' doc :
  Document_objects_get pk w = (w', Ok doc) ->
  exists id, int pk = Ok id
    /\ filter (fun d => doc_id d = id) (documents (db w)) = [doc]
    /\ w' = {| db := db w; files := files w;
               trace := trace w ++ [EvOrm "Document" "get" UrlKwarg] |}.
Proof.
  unfold Document_objects_get, bind, emit, lift, get_db. simpl.
  destruct (int pk) as [id|e]; simpl; [| discriminate].
  destruct (filter _ _) as [|d [|d' l]] eqn:E; unfold row_missing, ret, raise;
    intros H; [destruct (fits_int64 id); discriminate | | discriminate].
  inversion H; subst. eauto.
Qed.

Lemma file_response_ok pk request disposition w id doc c c' :
  int pk = Ok id ->
  filter (fun d => doc_id d = id) (documents (db w)) = [doc] ->
  files w !! served_path request doc = Some c ->
  decrypted GnuPG_decrypted doc c = Ok c' ->
  file_response normalize GnuPG_decrypted pk request disposition w
  = ({| db := db w; files := files w;
        trace := trace w ++ [EvOrm "Document" "get" UrlKwarg]
                   ++ [EvOpen (served_path request doc)] |},
     Ok (set_header "Content-Disposition"
           (content_disposition normalize disposition (served_filename request doc))
           (HttpResponse (FileContent c')
              (Some (served_content_type request doc disposition))))).
Proof.
  intros Hid Hdoc Hfile Hdec.
  unfold file_response, bind at 1. rewrite (Document_objects_get_ok _ _ _ _ Hid Hdoc).
  unfold served_path, served_filename, served_content_type, decrypted in *.
  destruct (serves_archive request doc) eqn:Ha; unfold serves_archive in Ha;
    rewrite Ha; cbv [bind open emit ret lift]; simpl; rewrite Hfile; simpl;
    case_decide; simpl; rewrite ?Hdec; simpl; rewrite <- ?app_assoc; try reflexivity;
    inversion Hdec; reflexivity.
Qed.

Lemma file_response_inv pk request disposition w w' r :
  file_response normalize GnuPG_decrypted pk request disposition w = (w', Ok r) ->
  exists id doc c c',
    int pk = Ok id
    /\ filter (fun d => doc_id d = id) (documents (db w)) = [doc]
    /\ files w !! served_path request doc = Some c
    /\ decrypted GnuPG_decrypted doc c = Ok c'.
Proof.
  intros H. unfold file_response, bind at 1 in H.
  destruct (Document_objects_get pk w) as [w1 [doc|e]] eqn:E; [| discriminate].
  apply Document_objects_get_inv in E as (id & Hid & Hdoc & ->).
  exists id, doc.
  unfold served_path, decrypted.
  destruct (serves_archive request doc) eqn:Ha; unfold serves_archive in Ha;
    rewrite Ha in H; cbv [bind open emit ret lift] in H; simpl in H.
  - destruct (files w !! archive_path doc) as [c|]; [| discriminate].
    exists c. case_decide; simpl in H.
    + destruct (GnuPG_decrypted c) as [c'|]; [| discriminate]. eauto.
    + eauto.
  - destruct (files w !! source_path doc) as [c|]; [| discriminate].
    exists c. case_decide; simpl in H.
    + destruct (GnuPG_decrypted c) as [c'|]; [| discriminate]. eauto.
    + eauto.
Qed.

End file_response_facts.

(** C8.  [file_response] serves the archive version exactly when the
    document has one and [query_params["original"]] is not ["true"]; the
    archive is served as [application/pdf], and an original of mime type
    [application/csv] or [text/csv] asked for with the [inline] disposition
    is served as [text/plain] (any other original keeps its mime type). *)
Theorem file_response_serves_archive_unless_original
  normalize GnuPG_decrypted pk request disposition w id doc c c' :
  int pk = Ok id ->
  filter (fun d => doc_id d = id) (documents (db w)) = [doc] ->
  files w !! served_path request doc = Some c ->
  decrypted GnuPG_decrypted doc c = Ok c' ->
  exists w' r,
    file_response normalize GnuPG_decrypted pk request disposition w = (w', Ok r)
    /\ content r = FileContent c'
    /\ ((has_archive_version doc = true
         /\ qd_get "original" (query_params request) <> Some "true")
        /\ new_events w w'
           = [EvOrm "Document" "get" UrlKwarg; EvOpen (archive_path doc)]
        /\ content_type r = Some "application/pdf"
        \/
        ~ (has_archive_version doc = true
           /\ qd_get "original" (query_params request) <> Some "true")
        /\ new_events w w'
           = [EvOrm "Document" "get" UrlKwarg; EvOpen (source_path doc)]
        /\ content_type r
           = Some (if bool_decide (mime_type doc ∈ ["application/csv"; "text/csv"])
                      && bool_decide (disposition = "inline")
                   then "text/plain" else mime_type doc)).
Proof.
  intros Hid Hdoc Hfile Hdec.
  eexists _, _. split; [by eapply file_response_ok |].
  split; [reflexivity |].
  unfold new_events. cbn [trace]. rewrite drop_app_length.
  unfold served_path, served_content_type, serves_archive.
  destruct (original_requested request) eqn:Ho; cbn [negb andb].
  - right. apply original_requested_true in Ho.
    split; [intros [_ H]; by apply H | done].
  - assert (qd_get "original" (query_params request) <> Some "true") as Hn.
    { intros H. apply original_requested_true in H. congruence. }
    destruct (has_archive_version doc) eqn:Hav.
    + left. done.
    + right. split; [intros [H _]; discriminate | done].
Qed.

Lemma file_response_serves_archive_unless_original_witness :
  exists w' r,
    file_response (fun _ s => s) Ok "7" (sample_request "GET" [("original", "True")] [])
      "inline" sample_world = (w', Ok r)
    /\ content r = FileContent "%PDF-1.7"
    /\ content_type r = Some "application/pdf".
Proof.
  destruct (file_response_serves_archive_unless_original (fun _ s => s) Ok "7"
              (sample_request "GET" [("original", "True")] []) "inline" sample_world
              7 sample_document "%PDF-1.7" "%PDF-1.7")
    as (w' & r & H & Hc & [(_ & _ & Ht) | (Hn & _)]);
    [reflexivity | reflexivity | reflexivity | reflexivity | |].
  - exists w', r. auto.
  - exfalso. apply Hn. split; [reflexivity | discriminate].
Defined.

(** C1.  What [file_response] puts in [Content-Disposition]: the
    disposition, then a quoted [filename] holding the [repr] of the bytes
    object [filename_normalized] (the letter [b], a quote, the escaped
    bytes, a quote), then [filename*] with the percent-encoded public
    filename.  The quoted filename is therefore never the normalized
    filename itself, and the header never is the one of the
    specification. *)
Theorem file_response_content_disposition_holds_bytes_repr
  normalize GnuPG_decrypted pk request disposition w id doc c c' :
  int pk = Ok id ->
  filter (fun d => doc_id d = id) (documents (db w)) = [doc] ->
  files w !! served_path request doc = Some c ->
  decrypted GnuPG_decrypted doc c = Ok c' ->
  let filename := served_filename request doc in
  let filename_normalized :=
    encode_ascii_ignore (normalize "NFKD" (replace_char "," "_" filename)) in
  exists w' r,
    file_response normalize GnuPG_decrypted pk request disposition w = (w', Ok r)
    /\ get_header "Content-Disposition" r
       = Some (disposition +:+ "; filename=" +:+ chr dquote
               +:+ bytes_repr filename_normalized +:+ chr dquote
               +:+ "; filename*=utf-8''" +:+ quote filename)
    /\ bytes_repr filename_normalized <> filename_normalized
    /\ get_header "Content-Disposition" r
       <> Some (content_disposition_spec normalize disposition filename).
Proof.
  intros Hid Hdoc Hfile Hdec filename filename_normalized.
  eexists _, _. split; [by eapply file_response_ok |].
  assert (forall v r0, get_header "Content-Disposition"
            (set_header "Content-Disposition" v r0) = Some v) as Hget.
  { intros v r0. unfold get_header, set_header. cbn [headers].
    rewrite filter_cons. cbn [fst]. by rewrite decide_True. }
  rewrite Hget. split; [| split].
  - f_equal. unfold content_disposition. fold filename. simpl.
    by rewrite append_nil_r.
  - intros H. pose proof (bytes_repr_longer filename_normalized) as Hl.
    rewrite H in Hl. lia.
  - intros H. injection H as H.
    pose proof (content_disposition_longer normalize disposition filename) as Hl.
    fold filename in H. rewrite H in Hl. lia.
Qed.

Lemma file_response_content_disposition_holds_bytes_repr_witness :
  exists w' r,
    download (fun _ s => s) Ok (sample_request "GET" [("original", "true")] []) "7"
      sample_world = (w', Ok r)
    /\ get_header "Content-Disposition" r
       = Some ("attachment; filename=" +:+ chr dquote +:+ "b'2023 bill_ final.csv'"
               +:+ chr dquote +:+ "; filename*=utf-8''2023%20bill%2C%20final.csv")
    /\ content_disposition_spec (fun _ s => s) "attachment" "2023 bill, final.csv"
       = "attachment; filename=" +:+ chr dquote +:+ "2023 bill_ final.csv"
         +:+ chr dquote +:+ "; filename*=utf-8''2023%20bill%2C%20final.csv".
Proof.
  destruct (file_response_content_disposition_holds_bytes_repr (fun _ s => s) Ok "7"
              (sample_request "GET" [("original", "true")] []) "attachment"
              sample_world 7 sample_document "a;b" "a;b")
    as (w' & r & H & Hh & _);
    [reflexivity | reflexivity | reflexivity | reflexivity |].
  exists w', r. split; [| split].
  - unfold download, try_except. by rewrite H.
  - rewrite Hh. reflexivity.
  - reflexivity.
Defined.

(** ** LogViewSet.retrieve *)

(** C9.  [LogViewSet.retrieve] raises [Http404] for every [pk] other than
    ["paperless"] and ["mail"] and when the log file is absent, leaving
    the world as it was; for any input the only files it opens are
    [LOGGING_DIR/paperless.log] and [LOGGING_DIR/mail.log].  An existing
    log is opened and answered with its lines when its bytes are text in
    the encoding of the locale; the exception of the decoding escapes
    otherwise. *)
Theorem LogViewSet_retrieve_only_fixed_logs LOGGING_DIR decode request pk w :
  exists w' r,
    LogViewSet_retrieve LOGGING_DIR decode request pk w = (w', r)
    /\ (pk <> Some "paperless" -> pk <> Some "mail" -> r = Raise Http404 /\ w' = w)
    /\ (forall log, pk = Some log ->
          files w !! path_join LOGGING_DIR (log +:+ ".log") = None ->
          r = Raise Http404 /\ w' = w)
    /\ (forall log content, pk = Some log -> log ∈ ["paperless"; "mail"] ->
          files w !! path_join LOGGING_DIR (log +:+ ".log") = Some content ->
          new_events w w' = [EvOpen (path_join LOGGING_DIR (log +:+ ".log"))]
          /\ r = match decode content with
                 | Ok text =>
                     Ok (Response (JList ((fun line => JStr (of_chars (rstrip line)))
                                          <$> readlines text)))
                 | Raise e => Raise e
                 end)
    /\ (forall f, EvOpen f ∈ new_events w w' ->
          f = path_join LOGGING_DIR "paperless.log"
          \/ f = path_join LOGGING_DIR "mail.log").
Proof.
  unfold LogViewSet_retrieve, new_events.
  assert (forall log, log ∈ log_files -> log = "paperless" \/ log = "mail") as Hfixed.
  { intros l Hl. unfold log_files in Hl. rewrite !elem_of_cons in Hl.
    destruct Hl as [?|[?|Hl]]; [by left | by right | inversion Hl]. }
  destruct pk as [log|].
  2:{ eexists _, _. split; [reflexivity |]. cbv [raise]. rewrite drop_all.
      repeat split; intros; simplify_eq; try done.
      match goal with H : _ ∈ [] |- _ => inversion H end. }
  destruct (bool_decide (log ∈ log_files)) eqn:Hin.
  2:{ eexists _, _. split; [reflexivity |]. cbv [raise]. rewrite drop_all.
      apply bool_decide_eq_false in Hin.
      repeat split; intros; simplify_eq; try done.
      match goal with H : _ ∈ [] |- _ => inversion H end. }
  apply bool_decide_eq_true in Hin.
  assert (get_log_filename LOGGING_DIR log = path_join LOGGING_DIR "paperless.log"
          \/ get_log_filename LOGGING_DIR log = path_join LOGGING_DIR "mail.log") as Hname.
  { destruct (Hfixed _ Hin) as [->| ->]; [by left | by right]. }
  cbv [bind isfile open emit ret raise lift]. cbn [files trace db].
  unfold get_log_filename in *. cbn [format_value] in *.
  destruct (files w !! path_join LOGGING_DIR (log +:+ ".log")) as [content|] eqn:Hf.
  - rewrite bool_decide_eq_true_2 by (by eexists). cbn [negb files]. rewrite Hf.
    destruct (decode content) as [text|e] eqn:Hdec.
    + eexists _, _. split; [reflexivity |]. cbn [trace]. rewrite drop_app_length.
      repeat split; intros; simplify_eq; try done;
        try (destruct (Hfixed _ Hin); congruence).
      * by rewrite Hdec.
      * match goal with H : _ ∈ [_] |- _ =>
          apply list_elem_of_singleton in H; by simplify_eq end.
    + eexists _, _. split; [reflexivity |]. cbn [trace]. rewrite drop_app_length.
      repeat split; intros; simplify_eq; try done;
        try (destruct (Hfixed _ Hin); congruence).
      * by rewrite Hdec.
      * match goal with H : _ ∈ [_] |- _ =>
          apply list_elem_of_singleton in H; by simplify_eq end.
  - rewrite bool_decide_eq_false_2 by (intros [? ?]; discriminate). cbn [negb].
    eexists _, _. split; [reflexivity |]. rewrite drop_all.
    repeat split; intros; simplify_eq; try done.
    match goal with H : _ ∈ [] |- _ => inversion H end.
Qed.

(** ** Ordering *)

Section sort_by_facts.

Context {A : Type} (le : A -> A -> bool).
Hypothesis le_total : forall a b, le a b = true \/ le b a = true.

Lemma insert_by_perm x l : insert_by le x l ≡ₚ x :: l.
Proof.
  induction l as [|y l IH]; simpl; [done |].
  destruct (le x y); [done |]. rewrite IH. apply Permutation_swap.
Qed.

Lemma sort_by_perm l : sort_by le l ≡ₚ l.
Proof.
  induction l as [|x l IH]; simpl; [done |].
  rewrite insert_by_perm. by rewrite IH.
Qed.

Lemma insert_by_HdRel a x l :
  le a x = true -> HdRel (fun u v => le u v = true) a l ->
  HdRel (fun u v => le u v = true) a (insert_by le x l).
Proof.
  intros Hax Hl. destruct l as [|y l]; simpl; [by constructor |].
  destruct (le x y); constructor; [done |]. by inversion Hl.
Qed.

Lemma insert_by_sorted x l :
  Sorted (fun u v => le u v = true) l ->
  Sorted (fun u v => le u v = true) (insert_by le x l).
Proof.
  induction 1 as [|y l Hs IH Hd]; simpl; [by repeat constructor |].
  destruct (le x y) eqn:E.
  - constructor; [by constructor | by constructor].
  - constructor; [done |]. apply insert_by_HdRel; [| done].
    destruct (le_total x y); congruence.
Qed.

Lemma sort_by_sorted l : Sorted (fun u v => le u v = true) (sort_by le l).
Proof.
  induction l as [|x l IH]; simpl; [constructor | by apply insert_by_sorted].
Qed.

End sort_by_facts.

Lemma Sorted_weaken {A} (R R' : A -> A -> Prop) l :
  (forall a b, R a b -> R' a b) -> Sorted R l -> Sorted R' l.
Proof.
  intros HR. induction 1 as [|a l Hs IH Hd]; constructor; [done |].
  destruct Hd; constructor. by apply HR.
Qed.

(** ** TasksViewSet.get_queryset *)

(** C10.  Without a [task_id] parameter the queryset holds the tasks that
    are not acknowledged, by [date_created] descending; with one it is a
    fresh query on [task_id] alone: no filter on [acknowledged], no
    ordering, so it returns every task of that id, acknowledged or not. *)
Theorem TasksViewSet_get_queryset_unacknowledged_or_by_task_id request d :
  match qd_get "task_id" (query_params request) with
  | None =>
      evaluate d (TasksViewSet_get_queryset request)
        ≡ₚ filter (fun t => acknowledged t = false) (tasks d)
      /\ Sorted (fun a b => date_created b <= date_created a)
           (evaluate d (TasksViewSet_get_queryset request))
  | Some t =>
      where_acknowledged (TasksViewSet_get_queryset request) = None
      /\ ordering (TasksViewSet_get_queryset request) = None
      /\ evaluate d (TasksViewSet_get_queryset request)
         = filter (fun x => task_id x = t) (tasks d)
  end.
Proof.
  unfold TasksViewSet_get_queryset.
  destruct (qd_get "task_id" (query_params request)) as [t|].
  - split; [done |]. split; [done |].
    unfold evaluate. cbn [ordering filter_task_id PaperlessTask_objects].
    apply list_filter_iff. intros x. unfold where_clause. cbn.
    by rewrite bool_decide_eq_true.
  - unfold evaluate.
    cbn [ordering standard_ordering qs_reverse qs_order_by filter_acknowledged
           PaperlessTask_objects negb].
    assert (filter (fun t => where_clause
              (qs_reverse (qs_order_by "date_created"
                 (filter_acknowledged false PaperlessTask_objects))) t = true) (tasks d)
            = filter (fun t => acknowledged t = false) (tasks d)) as ->.
    { apply list_filter_iff. intros x. unfold where_clause. cbn.
      by rewrite andb_true_r, bool_decide_eq_true. }
    split.
    + apply sort_by_perm.
    + eapply Sorted_weaken;
        [| apply (sort_by_sorted (fun a b => date_created b <=? date_created a))].
      * intros a b H. cbn beta in H. by apply Z.leb_le.
      *         intros a b. rewrite !Z.leb_le. lia.
Qed.

(** ** Dicts *)

Lemma dict_get_cons {V} k k' (v : V) d :
  dict_get k ((k', v) :: d) = if decide (k' = k) then Some v else dict_get k d.
Proof. unfold dict_get. rewrite filter_cons. cbn [fst]. by case_decide. Qed.

(** Looks a literal key up in a dict given by its entries. *)
Ltac dict_lookup :=
  repeat (rewrite dict_get_cons; case_decide; [try discriminate | try congruence]).

(** ** StatisticsView *)

Lemma elem_of_Document_filter_inbox d doc :
  doc ∈ Document_filter_inbox d <-> doc ∈ documents d /\ carries_inbox_tag d doc.
Proof.
  unfold Document_filter_inbox, carries_inbox_tag.
  rewrite list_elem_of_bind, Exists_exists. split.
  - intros (doc' & H & Hdoc). apply list_elem_of_bind in H as ([i j] & H & Hp).
    apply list_elem_of_bind in H as (t & H & Ht).
    apply list_elem_of_singleton in H as ->.
    apply list_elem_of_filter in Hp as [Hi Hp]. cbn in Hi. subst i.
    apply list_elem_of_filter in Ht as [[Hj Hinbox] Ht]. cbn in Hj. subst j.
    split; [done |]. exists t. auto.
  - intros (Hdoc & t & Ht & Hinbox & Hp). exists doc. split; [| done].
    apply list_elem_of_bind. exists (doc_id doc, tag_id t). split.
    + apply list_elem_of_bind. exists t. split; [by apply list_elem_of_singleton |].
      apply list_elem_of_filter. auto.
    + apply list_elem_of_filter. auto.
Qed.

(** C6.  [StatisticsView] answers with [documents_total] the number of
    stored documents, and with [documents_inbox] the number of distinct
    documents carrying at least one inbox tag when an inbox tag exists,
    null otherwise. *)
Theorem StatisticsView_documents_total_and_inbox request w :
  exists w' body,
    StatisticsView_get request w = (w', Ok (Response (JDict body)))
    /\ dict_get "documents_total" body
       = Some (JInt (Z.of_nat (length (documents (db w)))))
    /\ dict_get "documents_inbox" body
       = Some (option_json (documents_inbox_spec (db w))).
Proof.
  unfold StatisticsView_get. cbv [bind emit get_db ret]. cbn [db].
  eexists _, _. split; [reflexivity |]. split; [by dict_lookup |].
  dict_lookup. do 2 f_equal.
  unfold documents_inbox_spec. set (d := db w).
  destruct (decide (Exists (fun t => is_inbox_tag t = true) (tags d))) as [He|He].
  - rewrite bool_decide_eq_false_2.
    2:{ intros Hnil. apply Exists_exists in He as (t & Ht & Hinbox).
        assert (t ∈ filter (fun t => is_inbox_tag t = true) (tags d)) as Hin
          by (apply list_elem_of_filter; auto).
        rewrite Hnil in Hin. inversion Hin. }
    cbn [negb]. do 2 f_equal. apply Permutation_length.
    apply NoDup_Permutation; [apply NoDup_remove_dups | apply NoDup_remove_dups |].
    intros doc. unfold distinct.
    rewrite !elem_of_remove_dups, elem_of_Document_filter_inbox, list_elem_of_filter.
    tauto.
  - rewrite bool_decide_eq_true_2; [done |].
    destruct (filter (fun t => is_inbox_tag t = true) (tags d)) as [|t l] eqn:E; [done |].
    exfalso. apply He, Exists_exists. exists t.
    assert (t ∈ filter (fun t => is_inbox_tag t = true) (tags d)) as Hin
      by (rewrite E; left).
    apply list_elem_of_filter in Hin. tauto.
Qed.

(** ** SelectionDataView *)

Lemma Count_Case_When ids (l : list Document) :
  Count (Case_When_id_in ids <$> (Some <$> l))
  = Z.of_nat (length (filter (fun doc => doc_id doc ∈ ids) l)).
Proof.
  unfold Count. f_equal. induction l as [|doc l IH]; [done |].
  rewrite !fmap_cons, !filter_cons. cbn [Case_When_id_in].
  destruct (bool_decide (doc_id doc ∈ ids)) eqn:E.
  - apply bool_decide_eq_true in E.
    rewrite decide_True by (by eexists). rewrite decide_True by done.
    cbn [length]. by rewrite IH.
  - apply bool_decide_eq_false in E.
    rewrite decide_False by (intros [? ?]; discriminate).
    by rewrite decide_False by done.
Qed.

(** The annotation counts the related documents whose id was submitted;
    the [NULL] row of an entity without documents counts for nothing. *)
Lemma annotate_document_count_filter ids related :
  annotate_document_count ids related
  = Z.of_nat (length (filter (fun doc => doc_id doc ∈ ids) related)).
Proof.
  unfold annotate_document_count, left_outer_join.
  destruct related as [|doc l]; [done |].
  apply (Count_Case_When ids (doc :: l)).
Qed.

Lemma annotate_document_count_linked ids (linked : Document -> Prop)
  `{forall doc, Decision (linked doc)} d :
  annotate_document_count ids (filter linked (documents d))
  = linked_documents_count ids linked d.
Proof.
  rewrite annotate_document_count_filter. unfold linked_documents_count.
  by rewrite list_filter_filter.
Qed.

Lemma tag_documents_perm d t :
  NoDup (documents_tags d) -> NoDup (doc_id <$> documents d) ->
  tag_documents d t
  ≡ₚ filter (fun doc => (doc_id doc, tag_id t) ∈ documents_tags d) (documents d).
Proof.
  intros Hthrough Hids. apply NoDup_fmap_1 in Hids as Hdocs.
  apply NoDup_Permutation.
  - unfold tag_documents. apply NoDup_bind.
    + intros [i1 j1] [i2 j2] doc H1 H2 Hd1 Hd2.
      apply list_elem_of_filter in H1 as [E1 _], H2 as [E2 _].
      apply list_elem_of_filter in Hd1 as [F1 _], Hd2 as [F2 _].
      cbn in *. congruence.
    + intros p _. by apply NoDup_filter.
    + by apply NoDup_filter.
  - by apply NoDup_filter.
  - intros doc. unfold tag_documents.
    rewrite list_elem_of_bind, list_elem_of_filter. split.
    + intros ([i j] & Hd & Hp).
      apply list_elem_of_filter in Hd as [E Hd], Hp as [F Hp]. cbn in *.
      subst. auto.
    + intros [Hp Hd]. exists (doc_id doc, tag_id t).
      rewrite !list_elem_of_filter. auto.
Qed.

Lemma annotate_document_count_tag ids d t :
  NoDup (documents_tags d) -> NoDup (doc_id <$> documents d) ->
  annotate_document_count ids (tag_documents d t)
  = linked_documents_count ids
      (fun doc => (doc_id doc, tag_id t) ∈ documents_tags d) d.
Proof.
  intros Hthrough Hids.
  rewrite annotate_document_count_filter. unfold linked_documents_count.
  rewrite (tag_documents_perm d t Hthrough Hids).
  by rewrite list_filter_filter.
Qed.

(** A list of integers is read as it is, and the database takes the
    ids that fit in 64 bits. *)
Lemma json_ints_of_ints (ids : list Z) :
  json_ints (Some (JList (JInt <$> ids))) = Ok ids.
Proof.
  unfold json_ints, py_iter. induction ids as [|z ids IH]; [done |].
  rewrite !fmap_cons. cbn [prep_ids prep_element prep_id]. by rewrite IH.
Qed.

Lemma bind_ids_ok ids w :
  Forall (fun i => fits_int64 i = true) ids -> bind_ids ids w = (w, Ok tt).
Proof.
  intros H. unfold bind_ids.
  replace (forallb fits_int64 ids) with true; [done |].
  induction H as [|i l Hi _ IH]; [done |]. cbn [forallb]. by rewrite Hi.
Qed.

(** C5.  For the validated list of document ids (integers the database
    can hold), [SelectionDataView] lists every correspondent, tag,
    document type and storage path of the database, each as a dict of its
    [id] and a [document_count] that is the number of documents of that
    list linked to it; an entity linked to none of them is listed with
    0.  The tables are as the database keeps them: a document and a tag
    are linked at most once, and no two documents share an id. *)
Theorem SelectionDataView_document_count_per_entity
  is_valid request w validated_data ids :
  is_valid "DocumentListSerializer" (data request) = Ok validated_data ->
  dict_get "documents" validated_data = Some (JList (JInt <$> ids)) ->
  Forall (fun i => fits_int64 i = true) ids ->
  NoDup (documents_tags (db w)) ->
  NoDup (doc_id <$> documents (db w)) ->
  let d := db w in
  let entry (id : Z) (linked : Document -> Prop)
        `{forall doc, Decision (linked doc)} :=
    JDict [ ("id", JInt id);
            ("document_count", JInt (linked_documents_count ids linked d)) ] in
  exists w' body,
    SelectionDataView_post is_valid request w = (w', Ok (Response (JDict body)))
    /\ db w' = d
    /\ dict_get "selected_correspondents" body
       = Some (JList ((fun c => entry (correspondent_pk c)
                                 (fun doc => correspondent doc = Some (correspondent_pk c)))
                      <$> correspondents d))
    /\ dict_get "selected_tags" body
       = Some (JList ((fun t => entry (tag_id t)
                                 (fun doc => (doc_id doc, tag_id t) ∈ documents_tags d))
                      <$> tags d))
    /\ dict_get "selected_document_types" body
       = Some (JList ((fun t => entry (document_type_pk t)
                                 (fun doc => document_type doc = Some (document_type_pk t)))
                      <$> document_types d))
    /\ dict_get "selected_storage_paths" body
       = Some (JList ((fun s => entry (storage_path_pk s)
                                 (fun doc => storage_path doc = Some (storage_path_pk s)))
                      <$> storage_paths d))
    /\ (forall (linked : Document -> Prop) (Hdec : forall doc, Decision (linked doc)),
          (forall doc, doc ∈ documents d -> doc_id doc ∈ ids -> ~ linked doc) ->
          linked_documents_count ids linked d = 0).
Proof.
  intros Hvalid Hdocs Hfit Hthrough Hids d entry.
  unfold SelectionDataView_post, validate.
  cbv [bind emit lift get_db ret]. cbn [db files trace]. rewrite Hvalid.
  cbn [db files trace]. rewrite Hdocs, json_ints_of_ints. cbn [db files trace].
  rewrite (bind_ids_ok ids _ Hfit). cbn [db files trace].
  eexists _, _. split; [reflexivity |]. split; [reflexivity |].
  fold d. unfold entry, selection_entry.
  split; [| split; [| split; [| split]]].
  - dict_lookup. do 2 f_equal. apply list_fmap_ext. intros _ c _.
    do 5 f_equal. apply annotate_document_count_linked.
  - dict_lookup. do 2 f_equal. apply list_fmap_ext. intros _ t _.
    do 5 f_equal. by apply annotate_document_count_tag.
  - dict_lookup. do 2 f_equal. apply list_fmap_ext. intros _ t _.
    do 5 f_equal. apply annotate_document_count_linked.
  - dict_lookup. do 2 f_equal. apply list_fmap_ext. intros _ s _.
    do 5 f_equal. apply annotate_document_count_linked.
  - intros linked Hdec Hnone. unfold linked_documents_count.
    replace (filter _ (documents d)) with (@nil Document); [done |].
    symmetry. apply elem_of_nil_inv. intros doc Hdoc.
    apply list_elem_of_filter in Hdoc as [[Hid Hl] Hdoc]. by eapply Hnone.
Qed.

(** ** FilesAndFoldersViewSet.list *)

Lemma omap_lookup_seqZ {A} (l : list A) (n a : nat) :
  omap (fun i : Z => if decide (0 <= i) then l !! Z.to_nat i else None)
    (seqZ (Z.of_nat a) (Z.of_nat n))
  = take n (drop a l).
Proof.
  revert a. induction n as [|n IH]; intros a.
  - by rewrite seqZ_nil, take_0 by lia.
  - rewrite seqZ_cons by lia.
    replace (Z.succ (Z.of_nat a)) with (Z.of_nat (S a)) by lia.
    replace (Z.pred (Z.of_nat (S n))) with (Z.of_nat n) by lia.
    csimpl. rewrite decide_True by lia. rewrite Nat2Z.id, IH.
    destruct (l !! a) as [x|] eqn:E.
    + by rewrite (drop_S _ _ _ E).
    + apply lookup_ge_None in E. rewrite !drop_ge by lia. by rewrite !take_nil.
Qed.

(** From index 0 on, a slice holds the elements at the indices [start]
    through [stop - 1]. *)
Lemma slice_elements_at_indices {A} (l : list A) (start stop : Z) :
  0 <= start -> start <= stop ->
  slice l start stop = elements_at_indices l start (stop - 1).
Proof.
  intros H0 Hle. unfold elements_at_indices, slice, slice_bound.
  replace (seqZ start (stop - 1 - start + 1))
    with (seqZ (Z.of_nat (Z.to_nat start)) (Z.of_nat (Z.to_nat (stop - start))))
    by (f_equal; lia).
  rewrite omap_lookup_seqZ.
  rewrite (proj2 (Z.ltb_ge _ _)) by lia. rewrite (proj2 (Z.ltb_ge _ _)) by lia.
  destruct (decide (Z.of_nat (length l) <= start)) as [Hlen|Hlen].
  - rewrite !drop_ge by lia. by rewrite !take_nil.
  - rewrite (Z.min_l start) by lia.
    destruct (decide (stop <= Z.of_nat (length l))) as [Hs|Hs].
    + by rewrite (Z.min_l stop) by lia.
    + rewrite (Z.min_r stop) by lia.
      rewrite !take_ge; [done | |]; rewrite length_drop; lia.
Qed.

(** C4, as the code has it.  The results of [FilesAndFoldersViewSet.list]
    are the slice [combined[(p-1)*s : p*s]] of the folders followed by the
    files, with Python's reading of the bounds; for a page number [p >= 1]
    and a page size [s >= 0] these are exactly the elements at the indices
    [(p-1)*s] through [p*s-1].  [count] is the number of folders plus
    files, [next] and [previous] are null. *)
Theorem FilesAndFoldersViewSet_list_page
  StoragePathSerializer DocumentSerializer order_by istartswith
  request w p s w1 folders files parent :
  int_param "page" 1 (query_params request) = Ok p ->
  int_param "page_size" 100 (query_params request) = Ok s ->
  select_folders_files order_by istartswith request w
  = (w1, Ok (folders, files, parent)) ->
  let combined := (Folder <$> folders) ++ (File <$> files) in
  let serialize := serialize_item StoragePathSerializer DocumentSerializer in
  exists body,
    FilesAndFoldersViewSet_list StoragePathSerializer DocumentSerializer
      order_by istartswith request w = (w1, Ok (Response (JDict body)))
    /\ dict_get "results" body
       = Some (JList (serialize <$> slice combined ((p - 1) * s) (p * s)))
    /\ (1 <= p -> 0 <= s ->
        dict_get "results" body
        = Some (JList (serialize
                       <$> elements_at_indices combined ((p - 1) * s) (p * s - 1))))
    /\ dict_get "count" body
       = Some (JInt (Z.of_nat (length folders + length files)))
    /\ dict_get "next" body = Some JNull
    /\ dict_get "previous" body = Some JNull.
Proof.
  intros Hp Hs Hsel combined serialize.
  unfold FilesAndFoldersViewSet_list. cbv [bind lift ret].
  rewrite Hp, Hs, Hsel.
  eexists. split; [reflexivity |].
  fold combined serialize.
  split; [by dict_lookup |]. split; [| split; [| split]].
  - intros H1 H0. dict_lookup. do 3 f_equal.
    apply slice_elements_at_indices; nia.
  - dict_lookup. do 3 f_equal. unfold combined.
    by rewrite length_app, !length_fmap.
  - by dict_lookup.
  - by dict_lookup.
Qed.

Lemma FilesAndFoldersViewSet_list_page_witness :
  exists w' body,
    FilesAndFoldersViewSet_list (co_StoragePathSerializer sample_collaborators)
      (co_DocumentSerializer sample_collaborators) (fun _ l => Ok l)
      (fun s p => String.prefix p s)
      (sample_request "GET" [("page", "2"); ("page_size", "1")] []) sample_world
    = (w', Ok (Response (JDict body)))
    /\ dict_get "results" body
       = Some (JList [JDict [("id", JInt 7); ("type", JStr "file")]])
    /\ dict_get "count" body = Some (JInt 2).
Proof.
  destruct (FilesAndFoldersViewSet_list_page
              (co_StoragePathSerializer sample_collaborators)
              (co_DocumentSerializer sample_collaborators) (fun _ l => Ok l)
              (fun s p => String.prefix p s)
              (sample_request "GET" [("page", "2"); ("page_size", "1")] [])
              sample_world 2 1
              {| db := sample_db; files := files sample_world;
                 trace := [EvOrm "StoragePath" "exclude" NoRequestData;
                           EvOrm "Document" "filter" RawRequestData] |}
              [ {| storage_path_pk := 1; path := "bills" |} ] [sample_document] None)
    as (body & H & _ & Hr & Hc & _); [reflexivity | reflexivity | reflexivity |].
  eexists _, body. split; [exact H |]. split.
  - rewrite Hr by lia. reflexivity.
  - rewrite Hc. reflexivity.
Defined.

(** C4 fails as stated: with [page_size=-1] the slice is [combined[0:-1]],
    all elements but the last, although no index lies between 0 and -2. *)
Lemma FilesAndFoldersViewSet_list_negative_page_size :
  let request := sample_request "GET" [("page_size", "-1")] [] in
  let combined := [ Folder {| storage_path_pk := 1; path := "bills" |};
                    File sample_document ] in
  let serialize := serialize_item (co_StoragePathSerializer sample_collaborators)
                     (co_DocumentSerializer sample_collaborators) in
  exists w' body,
    handle sample_collaborators FilesAndFoldersViewSet_list_ request "" sample_world
    = (w', Ok (Response (JDict body)))
    /\ int_param "page" 1 (query_params request) = Ok 1
    /\ int_param "page_size" 100 (query_params request) = Ok (-1)
    /\ dict_get "results" body
       = Some (JList [JDict [("id", JInt 1); ("type", JStr "folder")]])
    /\ serialize <$> elements_at_indices combined ((1 - 1) * -1) (1 * -1 - 1) = []
    /\ dict_get "results" body
       <> Some (JList (serialize
                       <$> elements_at_indices combined ((1 - 1) * -1) (1 * -1 - 1))).
Proof.
  eexists _, _. split; [vm_compute; reflexivity |].
  repeat split; try reflexivity. discriminate.
Qed.

Lemma SelectionDataView_document_count_per_entity_witness :
  exists w' body,
    SelectionDataView_post (fun _ d => Ok d)
      (sample_request "POST" [] [("documents", JList [JInt 7])]) sample_world
    = (w', Ok (Response (JDict body)))
    /\ dict_get "selected_correspondents" body
       = Some (JList [ JDict [("id", JInt 1); ("document_count", JInt 1)];
                       JDict [("id", JInt 2); ("document_count", JInt 0)] ])
    /\ dict_get "selected_tags" body
       = Some (JList [ JDict [("id", JInt 3); ("document_count", JInt 1)];
                       JDict [("id", JInt 4); ("document_count", JInt 0)] ]).
Proof.
  destruct (SelectionDataView_document_count_per_entity (fun _ d => Ok d)
              (sample_request "POST" [] [("documents", JList [JInt 7])]) sample_world
              [("documents", JList [JInt 7])] [7])
    as (w' & body & H & _ & Hc & Ht & _).
  - reflexivity.
  - reflexivity.
  - by repeat constructor.
  - apply NoDup_singleton.
  - apply NoDup_singleton.
  - exists w', body. split; [exact H |]. split.
    + rewrite Hc. reflexivity.
    + rewrite Ht. reflexivity.
Defined.

(** ** Permissions *)

Section permission_facts.

Variable DEFAULT_PERMISSION_CLASSES : list permission_class.
Variable documents_has_permission : permission_class -> request -> bool.

Local Abbreviation check := (check_permissions documents_has_permission).

Lemma check_permissions_result ps request :
  check ps request = Ok tt
  \/ check ps request = Raise (permission_denied request).
Proof.
  induction ps as [|p ps IH]; simpl; [by left |].
  destruct (has_permission _ p request); [done | by right].
Qed.

Lemma check_permissions_denied ps request :
  Exists (fun p => has_permission documents_has_permission p request = false) ps ->
  check ps request = Raise (permission_denied request).
Proof.
  induction 1 as [p ps Hp | p ps _ IH]; simpl.
  - by rewrite Hp.
  - destruct (has_permission _ p request); done.
Qed.

Lemma dispatch_denied {A} v request (handler : M A) w :
  Exists (fun p => has_permission documents_has_permission p request = false)
    (get_permissions DEFAULT_PERMISSION_CLASSES v) ->
  dispatch DEFAULT_PERMISSION_CLASSES documents_has_permission v request handler w
  = (w, Raise (permission_denied request)).
Proof.
  intros H. unfold dispatch, bind, lift. by rewrite check_permissions_denied.
Qed.

End permission_facts.

(** C7, as the code has it.  Every API view of the module other than
    [RemoteVersionView] sets [permission_classes] and lists
    [IsAuthenticated] first.  For such a view a request of an
    unauthenticated user is rejected before the handler runs (the world
    is unchanged), whatever the project defaults; and whenever one of the
    permission classes denies a request that was authenticated, the
    rejection is [PermissionDenied], answered with status 403. *)
Theorem permission_check_runs_before_handler
  DEFAULT_PERMISSION_CLASSES documents_has_permission v request
  (A : Type) (handler : M A) w :
  v <> RemoteVersionView ->
  (exists rest, permission_classes v = Some (IsAuthenticated :: rest))
  /\ (is_authenticated (user request) = false ->
      dispatch DEFAULT_PERMISSION_CLASSES documents_has_permission v request handler w
      = (w, Raise (permission_denied request)))
  /\ (Exists (fun p => has_permission documents_has_permission p request = false)
        (get_permissions DEFAULT_PERMISSION_CLASSES v) ->
      successful_authenticator request = true ->
      dispatch DEFAULT_PERMISSION_CLASSES documents_has_permission v request handler w
      = (w, Raise PermissionDenied)
      /\ exception_status PermissionDenied = Some 403).
Proof.
  intros Hv.
  assert (exists rest, permission_classes v = Some (IsAuthenticated :: rest)) as Hfirst.
  { destruct v; try (eexists; reflexivity). done. }
  split; [exact Hfirst |]. split.
  - intros Hanon. apply dispatch_denied.
    destruct Hfirst as [rest Hrest]. unfold get_permissions. rewrite Hrest.
    by left.
  - intros Hdeny Hauth. split; [| done].
    rewrite dispatch_denied by done.
    unfold permission_denied. rewrite Hauth. by rewrite andb_false_r.
Qed.

Lemma permission_check_runs_before_handler_witness :
  dispatch [AllowAny] (fun _ _ => true) LogViewSet anonymous_request
    (LogViewSet_retrieve "/var/log/paperless" Ok anonymous_request (Some "mail"))
    sample_world
  = (sample_world, Raise NotAuthenticated).
Proof.
  destruct (permission_check_runs_before_handler [AllowAny] (fun _ _ => true)
              LogViewSet anonymous_request response
              (LogViewSet_retrieve "/var/log/paperless" Ok anonymous_request
                 (Some "mail"))
              sample_world) as (_ & H & _); [discriminate |].
  apply H. reflexivity.
Defined.

(** C7 fails as stated: [RemoteVersionView] sets no [permission_classes];
    under the framework's default [[AllowAny]] the handler runs for an
    unauthenticated request. *)
Lemma RemoteVersionView_runs_unauthenticated :
  RemoteVersionView ∈ api_views
  /\ permission_classes RemoteVersionView = None
  /\ is_authenticated (user anonymous_request) = false
  /\ (let '(w', r) :=
        dispatch [AllowAny] (fun _ _ => false) RemoteVersionView anonymous_request
          (emit (EvLog "RemoteVersionView.get")) sample_world in
      r = Ok tt /\ trace w' = [EvLog "RemoteVersionView.get"]).
Proof.
  split; [| by repeat split].
  unfold api_views. rewrite !elem_of_cons. tauto.
Qed.

Lemma qd_contains_false k q : qd_get k q = None -> qd_contains k q = false.
Proof.
  intros H. destruct (qd_contains k q) eqn:E; [| done].
  apply qd_contains_get in E as [v Hv]. congruence.
Qed.

Lemma qd_contains_true k q v : qd_get k q = Some v -> qd_contains k q = true.
Proof. intros H. apply qd_contains_get. by exists v. Qed.

(** ** Which data the handlers act on *)








(** ** How errors are reported *)













(** ** The theorems on the sample data *)



Lemma StatisticsView_documents_total_and_inbox_witness :
  exists w' body,
    StatisticsView_get (sample_request "GET" [] []) sample_world
    = (w', Ok (Response (JDict body)))
    /\ dict_get "documents_total" body = Some (JInt 1)
    /\ dict_get "documents_inbox" body = Some (JInt 1).
Proof.
  destruct (StatisticsView_documents_total_and_inbox (sample_request "GET" [] [])
              sample_world) as (w' & body & H & Ht & Hi).
  exists w', body. split; [exact H |]. split.
  - rewrite Ht. reflexivity.
  - rewrite Hi. reflexivity.
Defined.

Lemma LogViewSet_retrieve_only_fixed_logs_witness :
  (LogViewSet_retrieve "/var/log/paperless" Ok (sample_request "GET" [] [])
     (Some "../../etc/passwd") sample_world).2 = Raise Http404
  /\ (LogViewSet_retrieve "/var/log/paperless" Ok (sample_request "GET" [] [])
        (Some "mail") sample_world).2 = Ok (Response (JList [JStr "started"])).
Proof.
  split.
  - destruct (LogViewSet_retrieve_only_fixed_logs "/var/log/paperless" Ok
                (sample_request "GET" [] []) (Some "../../etc/passwd") sample_world)
      as (w' & r & E & H & _).
    rewrite E. cbn [snd]. by destruct H.
  - destruct (LogViewSet_retrieve_only_fixed_logs "/var/log/paperless" Ok
                (sample_request "GET" [] []) (Some "mail") sample_world)
      as (w' & r & E & _ & _ & H & _).
    rewrite E. cbn [snd].
    destruct (H "mail" "started" eq_refl) as [_ ->]; [| reflexivity | reflexivity].
    unfold log_files. rewrite !elem_of_cons. tauto.
Defined.

Lemma TasksViewSet_get_queryset_unacknowledged_or_by_task_id_witness :
  Sorted (fun a b => date_created b <= date_created a)
    (evaluate sample_db (TasksViewSet_get_queryset (sample_request "GET" [] [])))
  /\ evaluate sample_db
       (TasksViewSet_get_queryset (sample_request "GET" [("task_id", "t-1")] []))
     = [ {| task_pk := 1; task_id := "t-1"; acknowledged := true; date_created := 5 |} ].
Proof.
  split.
  - exact (proj2 (TasksViewSet_get_queryset_unacknowledged_or_by_task_id
                    (sample_request "GET" [] []) sample_db)).
  - pose proof (TasksViewSet_get_queryset_unacknowledged_or_by_task_id
                  (sample_request "GET" [("task_id", "t-1")] []) sample_db) as H.
    cbn [qd_get] in H. destruct H as (_ & _ & H). rewrite H. reflexivity.
Defined.

(** * Further properties of the handlers *)

(** ** getNotes *)

(** X1.  [getNotes] lists exactly the notes of the document, the newest
    first, and changes nothing but the trace. *)
Theorem getNotes_lists_the_notes_of_the_document_newest_first doc w :
  exists l,
    getNotes doc w
    = ({| db := db w; files := files w;
          trace := trace w ++ [EvOrm "Note" "filter" NoRequestData] |},
       Ok (note_json <$> l))
    /\ l ≡ₚ filter (fun c => note_document c = doc_id doc) (notes (db w))
    /\ Sorted (fun a b => note_created b <= note_created a) l.
Proof.
  eexists. split; [reflexivity |]. split.
  - apply sort_by_perm.
  - eapply Sorted_weaken;
      [| apply (sort_by_sorted (fun a b => note_created b <=? note_created a))].
    + intros a b H. cbn beta in H. by apply Z.leb_le.
    + intros a b. rewrite !Z.leb_le. lia.
Qed.

(** ** notes: POST and DELETE *)


(** X3.  A [DELETE] removes the note of the given id, whichever document it
    belongs to and whatever the reindexing does afterwards; every other
    note stays. *)
Theorem notes_delete_removes_the_note_of_any_document
  get_object index_add_or_update_document now str_ request pk w id doc s i c :
  method request = "DELETE" ->
  int pk = Ok id ->
  filter (fun d => doc_id d = id) (documents (db w)) = [doc] ->
  qd_get "id" (query_params request) = Some s ->
  int s = Ok i ->
  filter (fun c' => note_id c' = i) (notes (db w)) = [c] ->
  exists w' o,
    notes_handler get_object index_add_or_update_document now str_ request pk w
    = (w', o)
    /\ notes (db w') = filter (fun c' => note_id c' <> i) (notes (db w))
    /\ (c ∉ notes (db w'))
    /\ (forall c', c' ∈ notes (db w) -> note_id c' <> i -> c' ∈ notes (db w')).
Proof.
  intros Hm Hid Hdoc Hs Hi Hc. unfold notes_handler.
  unfold bind at 1, try_except at 1.
  rewrite (Document_objects_get_ok _ _ _ _ Hid Hdoc).
  rewrite Hm. do 2 rewrite decide_False by discriminate. rewrite decide_True by done.
  rewrite Hs, Hi. unfold Note_objects_get, Note_delete, reindex, getNotes.
  cbv [bind emit lift get_db put_db ret]. cbn [db files trace]. rewrite Hc.
  cbn [db files trace].
  assert (note_id c = i) as Hci.
  { assert (c ∈ filter (fun c' => note_id c' = i) (notes (db w))) as Hin
      by (rewrite Hc; left).
    by apply list_elem_of_filter in Hin as [? _]. }
  rewrite Hci.
  assert (c ∉ filter (fun c' => note_id c' <> i) (notes (db w))) as Hgone.
  { intros Hin. apply list_elem_of_filter in Hin as [Hne _]. done. }
  assert (forall c', c' ∈ notes (db w) -> note_id c' <> i ->
            c' ∈ filter (fun c' => note_id c' <> i) (notes (db w))) as Hkept.
  { intros c' Hin Hne. by apply list_elem_of_filter. }
  destruct (get_object request pk _) as [o|e]; cbn [db files trace].
  - destruct (index_add_or_update_document o) as [[]|e]; cbn [db files trace];
      eexists _, _; (split; [reflexivity |]); done.
  - eexists _, _. split; [reflexivity |]. done.
Qed.



(** ** LogViewSet.list *)


(** ** SearchAutoCompleteView.get *)

(** X6.  The index is asked at most once, and only with the term of the
    request and a positive limit, 10 when the request gives none; a limit
    that is not an integer lets [ValueError] escape before the index is
    asked. *)
Theorem SearchAutoCompleteView_get_asks_with_a_positive_limit
  index_autocomplete request w :
  exists w' o,
    SearchAutoCompleteView_get index_autocomplete request w = (w', o)
    /\ db w' = db w
    /\ (new_events w w' = []
        \/ new_events w w' = [EvIndex "autocomplete" RawRequestData])
    /\ (new_events w w' <> [] ->
        exists term limit,
          qd_get "term" (query_params request) = Some term
          /\ 0 < limit
          /\ (qd_get "limit" (query_params request) = None -> limit = 10)
          /\ (forall s, qd_get "limit" (query_params request) = Some s ->
                int s = Ok limit)
          /\ o = match index_autocomplete term limit with
                 | Ok j => Ok (Response j)
                 | Raise e => Raise e
                 end)
    /\ (forall s, qd_get "limit" (query_params request) = Some s ->
          is_Some (qd_get "term" (query_params request)) ->
          int s = Raise ValueError ->
          o = Raise ValueError /\ new_events w w' = []).
Proof.
  unfold SearchAutoCompleteView_get, new_events.
  destruct (qd_get "term" (query_params request)) as [term|] eqn:Hterm.
  2:{ rewrite (qd_contains_false _ _ Hterm). eexists _, _. split; [reflexivity |].
      cbv [ret]. rewrite drop_all. split; [done |]. split; [by left |].
      split; [done |]. intros s _ [? ?]. discriminate. }
  rewrite (qd_contains_true _ _ _ Hterm). unfold qd_getitem. rewrite Hterm.
  destruct (qd_get "limit" (query_params request)) as [s|] eqn:Hlimit.
  - rewrite (qd_contains_true _ _ _ Hlimit).
    cbv [bind lift ret emit]. cbn [db files trace].
    destruct (int s) as [limit|e] eqn:Hs.
    + destruct (limit <=? 0) eqn:Hle.
      * eexists _, _. split; [reflexivity |]. rewrite drop_all.
        split; [done |]. split; [by left |]. split; [done |].
        intros s' [= <-] _ Hs'. congruence.
      * apply Z.leb_gt in Hle.
        destruct (index_autocomplete term limit) as [j|e] eqn:Hix;
          (eexists _, _; split; [reflexivity |]); cbn [trace db];
          rewrite drop_app_length; (split; [done |]); (split; [by right |]);
          (split; [| intros s' [= <-] _ Hs'; congruence]);
          intros _; exists term, limit; rewrite Hix;
          (repeat split; try done); intros s' [= <-]; done.
    + eexists _, _. split; [reflexivity |]. rewrite drop_all.
      split; [done |]. split; [by left |]. split; [done |].
      intros s' [= <-] _ Hs'. rewrite Hs in Hs'. by injection Hs' as <-.
  - rewrite (qd_contains_false _ _ Hlimit).
    cbv [bind lift ret emit]. cbn [db files trace].
    destruct (index_autocomplete term 10) as [j|e] eqn:Hix;
      (eexists _, _; split; [reflexivity |]); cbn [trace db];
      rewrite drop_app_length; (split; [done |]); (split; [by right |]);
      (split; [| intros s' Hs'; discriminate]);
      intros _; exists term, 10; rewrite Hix;
      (repeat split; try done); intros s' Hs'; discriminate.
Qed.

(** ** StatisticsView: the other fields *)

Lemma sum_indicator_NoDup {K} `{EqDecision K} (x : K) (D : list K) :
  NoDup D ->
  foldr Z.add 0 ((fun m => if decide (m = x) then 1 else 0) <$> D)
  = if decide (x ∈ D) then 1 else 0.
Proof.
  induction 1 as [|m D Hm _ IH]; [done |].
  rewrite fmap_cons. cbn [foldr]. rewrite IH.
  destruct (decide (m = x)) as [->|Hne].
  - rewrite decide_False by done. rewrite decide_True by left. done.
  - destruct (decide (x ∈ D)) as [Hin|Hin].
    + rewrite decide_True by (by right). done.
    + rewrite decide_False; [done |]. intros [?|?]%elem_of_cons; congruence.
Qed.

(** Counting a list by its distinct values counts every element once. *)
Lemma sum_counts_by_value {K} `{EqDecision K} (l D : list K) :
  NoDup D -> (forall x, x ∈ l -> x ∈ D) ->
  foldr Z.add 0 ((fun m => Z.of_nat (length (filter (fun x => x = m) l))) <$> D)
  = Z.of_nat (length l).
Proof.
  intros HD. induction l as [|x l IH]; intros Hsub.
  - induction D as [|m D IHD]; [done |]. rewrite fmap_cons. cbn [foldr].
    rewrite IHD; [done | by inversion HD | intros ? H; inversion H].
  - transitivity
      (foldr Z.add 0 ((fun m => if decide (m = x) then 1 else 0) <$> D)
       + foldr Z.add 0
           ((fun m => Z.of_nat (length (filter (fun x => x = m) l))) <$> D)).
    + clear. induction D as [|m D IHD]; [done |].
      rewrite !fmap_cons. cbn [foldr]. rewrite IHD, filter_cons.
      destruct (decide (m = x)) as [->|Hne].
      * rewrite decide_True by done. cbn [length]. lia.
      * rewrite decide_False by congruence. lia.
    + rewrite IH by (intros y Hy; apply Hsub; by right).
      rewrite sum_indicator_NoDup by done.
      rewrite decide_True by (apply Hsub; left). cbn [length]. lia.
Qed.

Lemma filter_fmap_length {A K} `{EqDecision K} (f : A -> K) (l : list A) m :
  length (filter (fun x => x = m) (f <$> l)) = length (filter (fun a => f a = m) l).
Proof.
  induction l as [|a l IH]; [done |].
  rewrite fmap_cons, !filter_cons. destruct (decide (f a = m)); cbn [length]; lia.
Qed.

Lemma foldr_add_perm (l k : list Z) : l ≡ₚ k -> foldr Z.add 0 l = foldr Z.add 0 k.
Proof. induction 1; cbn [foldr]; lia. Qed.

(** X7.  [document_file_type_counts] names every mime type once, with the
    number of documents of that type, the most frequent first; its counts
    add up to [documents_total].  Without documents the field is the
    number 0, not an empty list. *)
Theorem StatisticsView_file_type_counts_add_up request w :
  let docs := documents (db w) in
  exists w' body,
    StatisticsView_get request w = (w', Ok (Response (JDict body)))
    /\ dict_get "document_file_type_counts" body
       = Some (if decide (docs = []) then JInt 0
               else JList ((fun mc => JDict [("mime_type", JStr mc.1);
                                             ("mime_type_count", JInt mc.2)])
                           <$> mime_type_counts docs))
    /\ NoDup (mime_type_counts docs).*1
    /\ (forall m n, (m, n) ∈ mime_type_counts docs ->
          n = Z.of_nat (length (filter (fun doc => mime_type doc = m) docs)) /\ 0 < n)
    /\ Sorted (fun a b => b.2 <= a.2) (mime_type_counts docs)
    /\ foldr Z.add 0 (mime_type_counts docs).*2 = Z.of_nat (length docs).
Proof.
  intros docs. unfold StatisticsView_get. cbv [bind emit get_db ret]. cbn [db].
  fold docs. eexists _, _. split; [reflexivity |].
  set (raw := (fun m => (m, Z.of_nat (length (filter (fun doc => mime_type doc = m) docs))))
              <$> remove_dups (mime_type <$> docs)).
  assert (mime_type_counts docs ≡ₚ raw) as Hperm by apply sort_by_perm.
  split; [| split; [| split; [| split]]].
  - dict_lookup. f_equal. destruct docs as [|doc l]; [done |].
    rewrite decide_False by discriminate.
    replace (0 <? Z.of_nat (length (doc :: l))) with true; [done |].
    symmetry. apply Z.ltb_lt. cbn [length]. lia.
  - rewrite Hperm. unfold raw. rewrite <- list_fmap_compose.
    replace (fst ∘ _ <$> remove_dups (mime_type <$> docs))
      with (remove_dups (mime_type <$> docs)); [apply NoDup_remove_dups |].
    rewrite <- (list_fmap_id (remove_dups (mime_type <$> docs))) at 1.
    by apply list_fmap_ext.
  - intros m n Hin. rewrite Hperm in Hin. unfold raw in Hin.
    apply list_elem_of_fmap in Hin as (m' & [= -> ->] & Hm).
    split; [done |]. apply elem_of_remove_dups, list_elem_of_fmap in Hm as (doc & -> & Hdoc).
    assert (doc ∈ filter (fun d => mime_type d = mime_type doc) docs) as Hin
      by (by apply list_elem_of_filter).
    destruct (filter _ docs); [inversion Hin | cbn [length]; lia].
  - eapply Sorted_weaken; [| apply (sort_by_sorted (fun a b => b.2 <=? a.2))].
    + intros a b H. cbn beta in H. by apply Z.leb_le.
    + intros a b. rewrite !Z.leb_le. lia.
  - rewrite (foldr_add_perm _ (raw.*2)) by (by rewrite Hperm). unfold raw.
    rewrite <- list_fmap_compose.
    rewrite <- (length_fmap mime_type docs).
    rewrite <- (sum_counts_by_value (mime_type <$> docs)
                  (remove_dups (mime_type <$> docs)));
      [| apply NoDup_remove_dups | intros x Hx; by apply elem_of_remove_dups].
    f_equal. apply list_fmap_ext. intros _ m _. cbn. by rewrite filter_fmap_length.
Qed.

Lemma sort_by_leb_head (l : list Z) :
  match head (sort_by Z.leb l) with
  | Some h => h ∈ l /\ forall x, x ∈ l -> h <= x
  | None => l = []
  end.
Proof.
  pose proof (sort_by_perm Z.leb l) as Hperm.
  pose proof (sort_by_sorted Z.leb (fun a b => ltac:(rewrite !Z.leb_le; lia)) l) as Hs.
  destruct (sort_by Z.leb l) as [|h k] eqn:E; cbn [head].
  - symmetry in Hperm. by apply Permutation_nil_r in Hperm.
  - split; [rewrite <- Hperm; left |].
    apply Sorted_StronglySorted in Hs.
    2:{ intros a b c Hab Hbc. apply Z.leb_le in Hab, Hbc. apply Z.leb_le. lia. }
    apply StronglySorted_inv in Hs as [_ Hall].
    intros x Hx. rewrite <- Hperm in Hx. apply elem_of_cons in Hx as [->|Hx]; [lia |].
    rewrite Forall_forall in Hall. apply Z.leb_le, Hall, Hx.
Qed.

(** X8.  [inbox_tag] is the primary key of an inbox tag, and null exactly
    when no tag is an inbox tag; [documents_inbox] is null exactly when
    [inbox_tag] is.  [character_count] is null exactly when there is no
    document. *)
Theorem StatisticsView_inbox_tag_is_an_inbox_tag request w :
  exists w' body inbox_tag documents_inbox character_count,
    StatisticsView_get request w = (w', Ok (Response (JDict body)))
    /\ dict_get "inbox_tag" body = Some (option_json inbox_tag)
    /\ dict_get "documents_inbox" body = Some (option_json documents_inbox)
    /\ dict_get "character_count" body = Some (option_json character_count)
    /\ match inbox_tag with
       | Some pk =>
           exists t, t ∈ tags (db w) /\ is_inbox_tag t = true /\ tag_id t = pk
       | None => forall t, t ∈ tags (db w) -> is_inbox_tag t = false
       end
    /\ (inbox_tag = None <-> documents_inbox = None)
    /\ (character_count = None <-> documents (db w) = []).
Proof.
  unfold StatisticsView_get. cbv [bind emit get_db ret]. cbn [db].
  set (inbox := filter (fun t => is_inbox_tag t = true) (tags (db w))).
  eexists _, _, _, _, _. split; [reflexivity |].
  split; [by dict_lookup |]. split; [by dict_lookup |]. split; [by dict_lookup |].
  destruct inbox as [|t0 l] eqn:E.
  - rewrite bool_decide_eq_true_2 by done. cbn [negb].
    split; [| split; [done |]].
    + intros t Ht. destruct (is_inbox_tag t) eqn:Hi; [| done].
      assert (t ∈ inbox) as Hin by (by apply list_elem_of_filter).
      rewrite E in Hin. inversion Hin.
    + destruct (documents (db w)); [done |]. split; discriminate.
  - rewrite bool_decide_eq_false_2 by discriminate. cbn [negb].
    pose proof (sort_by_leb_head (tag_id <$> t0 :: l)) as Hhead.
    destruct (head (sort_by Z.leb (tag_id <$> t0 :: l))) as [pk|]; [| discriminate].
    destruct Hhead as [Hin _]. split; [| split; [split; discriminate |]].
    + apply list_elem_of_fmap in Hin as (t & -> & Ht). rewrite <- E in Ht.
      apply list_elem_of_filter in Ht as [? ?]. eauto.
    + destruct (documents (db w)); [done |]. split; discriminate.
Qed.

(** ** AcknowledgeTasksView.post *)






(** ** FilesAndFoldersViewSet.list: paging *)

Lemma slice_take_drop {A} (l : list A) (start stop : Z) :
  0 <= start -> start <= stop ->
  slice l start stop = take (Z.to_nat (stop - start)) (drop (Z.to_nat start) l).
Proof.
  intros H0 Hle. unfold slice, slice_bound.
  rewrite (proj2 (Z.ltb_ge _ _)) by lia. rewrite (proj2 (Z.ltb_ge _ _)) by lia.
  destruct (decide (Z.of_nat (length l) <= start)) as [Hlen|Hlen].
  - rewrite !drop_ge by lia. by rewrite !take_nil.
  - rewrite (Z.min_l start) by lia.
    destruct (decide (stop <= Z.of_nat (length l))) as [Hs|Hs].
    + by rewrite (Z.min_l stop) by lia.
    + rewrite (Z.min_r stop) by lia.
      rewrite !take_ge; [done | |]; rewrite length_drop; lia.
Qed.

(** X11.  Paging through the combined list: the slices the handler cuts for the
    pages 1 to [n] of a positive size [s], one after the other, are the
    first [n * s] elements, each once and in order; once [n * s] reaches
    the length, they are the whole list. *)
Theorem FilesAndFolders_pages_partition_the_list {A} (combined : list A) (s : Z) (n : nat) :
  0 < s ->
  let pages := (fun p => slice combined ((p - 1) * s) (p * s)) <$> seqZ 1 (Z.of_nat n) in
  mjoin pages = take (Z.to_nat (Z.of_nat n * s)) combined
  /\ (Z.of_nat (length combined) <= Z.of_nat n * s -> mjoin pages = combined).
Proof.
  intros Hs pages.
  assert (mjoin pages = take (Z.to_nat (Z.of_nat n * s)) combined) as Hjoin.
  { subst pages. induction n as [|n IH]; [by rewrite seqZ_nil by lia |].
    replace (Z.of_nat (S n)) with (Z.of_nat n + 1) by lia.
    rewrite seqZ_app by lia. rewrite fmap_app, join_app, IH.
    rewrite (seqZ_cons (1 + Z.of_nat n)) by lia. rewrite seqZ_nil by lia.
    cbn [fmap list_fmap mjoin list_join]. rewrite app_nil_r.
    rewrite slice_take_drop by nia.
    replace (Z.to_nat ((1 + Z.of_nat n - 1) * s)) with (Z.to_nat (Z.of_nat n * s))
      by (f_equal; lia).
    rewrite take_take_drop. f_equal. nia. }
  split; [done |]. intros Hlen. rewrite Hjoin. apply take_ge. lia.
Qed.

(** ** FilesAndFoldersViewSet.list: the parent folder *)


(** ** The Content-Disposition header is printable *)

Lemma chars_append a b : chars (a +:+ b) = chars a ++ chars b.
Proof.
  induction a as [|c a IH]; [done |].
  change (c :: chars (a +:+ b) = c :: chars a ++ chars b). by rewrite IH.
Qed.

Lemma printable_append a b : printable a -> printable b -> printable (a +:+ b).
Proof. unfold printable. rewrite chars_append. apply Forall_app_2. Qed.

Lemma printable_join (f : ascii -> string) (l : list ascii) :
  (forall c, printable (f c)) -> printable (join_strings (map f l)).
Proof.
  intros Hf. induction l as [|c l IH]; [constructor |].
  cbn [map join_strings]. by apply printable_append.
Qed.

Lemma printable_forallb s :
  forallb is_printable (chars s) = true -> printable s.
Proof.
  unfold printable. induction (chars s) as [|c l IH]; [constructor |].
  cbn [forallb]. intros [? ?]%andb_true_iff. constructor; auto.
Qed.

Lemma repr_byte_printable q c :
  q = squote \/ q = dquote -> printable (repr_byte q c).
Proof.
  intros [-> | ->]; apply printable_forallb;
    destruct c as [[] [] [] [] [] [] [] []]; reflexivity.
Qed.

Lemma bytes_repr_printable b : printable (bytes_repr b).
Proof.
  unfold bytes_repr.
  assert (repr_quote b = squote \/ repr_quote b = dquote) as Hq.
  { unfold repr_quote. destruct (_ && _)%bool; auto. }
  assert (is_printable (repr_quote b) = true) as Hqp by (by destruct Hq as [-> | ->]).
  constructor; [done |]. constructor; [done |].
  apply (printable_append _ (chr (repr_quote b))).
  - apply printable_join. intros c. by apply repr_byte_printable.
  - by constructor.
Qed.

Lemma quote_printable s : printable (quote s).
Proof.
  unfold quote. apply printable_join. intros c. apply printable_forallb.
  destruct c as [[] [] [] [] [] [] [] []]; reflexivity.
Qed.

(** X13.  Whatever the filename (and whatever [normalize] returns), the header
    [file_response] sets holds printable ASCII only when the disposition
    does: no line break and no control or non-ASCII character of a
    filename reaches the header. *)
Theorem content_disposition_is_printable normalize disposition filename :
  printable disposition ->
  printable (content_disposition normalize disposition filename)
  /\ Forall (fun c => c <> "010"%char /\ c <> "013"%char)
       (chars (content_disposition normalize disposition filename)).
Proof.
  intros Hd.
  assert (printable (content_disposition normalize disposition filename)) as H.
  { unfold content_disposition. cbn [join_strings format_value].
    repeat (apply printable_append;
            [first [ exact Hd | apply bytes_repr_printable | apply quote_printable
                   | by apply printable_forallb ] |]).
    constructor. }
  split; [done |]. eapply Forall_impl; [exact H |].
  intros c Hc. split; intros ->; discriminate.
Qed.

(** ** thumb *)

(** X14.  For an existing document [thumb] opens the thumbnail file and nothing
    else; a missing thumbnail is "not found", an existing one is served,
    decrypted where the document is encrypted, as [image/webp], with the
    cache control of the decorator applied to the response. *)
Theorem thumb_serves_the_thumbnail_only
  GnuPG_decrypted cache_control request pk w id doc :
  int pk = Ok id ->
  filter (fun d => doc_id d = id) (documents (db w)) = [doc] ->
  exists w' o,
    thumb GnuPG_decrypted cache_control request pk w = (w', o)
    /\ new_events w w'
       = [EvOrm "Document" "get" UrlKwarg; EvOpen (thumbnail_path doc)]
    /\ db w' = db w
    /\ (files w !! thumbnail_path doc = None -> o = Raise Http404)
    /\ (forall c c', files w !! thumbnail_path doc = Some c ->
          decrypted GnuPG_decrypted doc c = Ok c' ->
          o = Ok (cache_control (HttpResponse (FileContent c') (Some "image/webp")))).
Proof.
  intros Hid Hdoc. unfold thumb, thumb_undecorated, bind at 1, try_except, bind at 1.
  rewrite (Document_objects_get_ok _ _ _ _ Hid Hdoc). unfold new_events, decrypted.
  destruct (decide (storage_type doc = STORAGE_TYPE_GPG)) as [Hg|Hg];
    cbv [bind open emit lift ret raise]; cbn [db files trace];
    destruct (files w !! thumbnail_path doc) as [c|] eqn:Hf; cbn [db files trace].
  - destruct (GnuPG_decrypted c) as [c'|e] eqn:Hd.
    + eexists _, _. split; [reflexivity |]. cbn [trace].
      rewrite <- app_assoc, drop_app_length. repeat split; try done.
      intros c0 c0' [= <-] Hc. rewrite Hd in Hc. by injection Hc as <-.
    + destruct (not_found_errors e); eexists _, _; (split; [reflexivity |]);
        cbn [trace]; rewrite <- app_assoc, drop_app_length; repeat split; try done;
        intros c0 c0' [= <-] Hc; rewrite Hd in Hc; discriminate.
  - eexists _, _. split; [reflexivity |]. cbn [trace].
    rewrite <- app_assoc, drop_app_length. repeat split; try done.
  - eexists _, _. split; [reflexivity |]. cbn [trace].
    rewrite <- app_assoc, drop_app_length. repeat split; try done.
    intros c0 c0' [= <-] [= <-]. done.
  - eexists _, _. split; [reflexivity |]. cbn [trace].
    rewrite <- app_assoc, drop_app_length. repeat split; try done.
Qed.

(** ** UnifiedSearchViewSet *)

Lemma params_setitem_filter_same k v q :
  filter (fun kv => kv.1 = k) (params_setitem k v q) = [(k, v)].
Proof.
  induction q as [|kv q IH]; cbn [params_setitem].
  - rewrite filter_cons, decide_True by done. done.
  - destruct (decide (kv.1 = k)) as [Hk|Hk].
    + rewrite filter_cons, decide_True by done. f_equal.
      apply elem_of_nil_inv. intros x Hx.
      apply list_elem_of_filter in Hx as [Hx1 Hx].
      apply list_elem_of_filter in Hx as [Hx2 _]. done.
    + rewrite filter_cons, decide_False by done. done.
Qed.

Lemma params_setitem_filter_other k k' v q :
  k' <> k ->
  filter (fun kv => kv.1 = k') (params_setitem k v q) = filter (fun kv => kv.1 = k') q.
Proof.
  intros Hne. induction q as [|kv q IH]; cbn [params_setitem].
  - rewrite filter_cons, decide_False by (cbn; congruence). done.
  - destruct (decide (kv.1 = k)) as [Hk|Hk].
    + rewrite !filter_cons. rewrite !decide_False by (cbn; congruence).
      rewrite list_filter_filter. apply list_filter_iff. intros x. split; [tauto |].
      intros Hx. split; [done | congruence].
    + rewrite !filter_cons. destruct (decide (kv.1 = k')); by rewrite IH.
Qed.

Lemma params_contains_filter k q :
  params_contains k q = negb (bool_decide (filter (fun kv => kv.1 = k) q = [])).
Proof.
  unfold params_contains. apply eq_true_iff_eq.
  rewrite negb_true_iff, bool_decide_eq_true, bool_decide_eq_false. split.
  - intros Hin Hnil. apply list_elem_of_fmap in Hin as (kv & -> & Hkv).
    assert (kv ∈ filter (fun kv0 => kv0.1 = kv.1) q) as H
      by (by apply list_elem_of_filter).
    rewrite Hnil in H. inversion H.
  - intros Hne. destruct (filter (fun kv => kv.1 = k) q) as [|kv l] eqn:E; [done |].
    assert (kv ∈ filter (fun kv => kv.1 = k) q) as H by (rewrite E; left).
    apply list_elem_of_filter in H as [<- H]. by apply list_elem_of_fmap_2.
Qed.

Lemma filter_key_fmap_PStr k (q : QueryDict) :
  filter (fun kv => kv.1 = k) ((fun kv => (kv.1, PStr kv.2)) <$> q)
  = (fun kv => (kv.1, PStr kv.2)) <$> filter (fun kv => kv.1 = k) q.
Proof.
  induction q as [|kv q IH]; [done |].
  rewrite fmap_cons, !filter_cons. cbn [fst].
  destruct (decide (kv.1 = k)); by rewrite ?fmap_cons, IH.
Qed.

Lemma qd_contains_filter k (q : QueryDict) :
  qd_contains k q = negb (bool_decide (filter (fun kv => kv.1 = k) q = [])).
Proof.
  unfold qd_contains. apply eq_true_iff_eq.
  rewrite negb_true_iff, bool_decide_eq_true, bool_decide_eq_false. split.
  - intros Hin Hnil. apply list_elem_of_fmap in Hin as (kv & -> & Hkv).
    assert (kv ∈ filter (fun kv0 => kv0.1 = kv.1) q) as H
      by (by apply list_elem_of_filter).
    rewrite Hnil in H. inversion H.
  - intros Hne. destruct (filter (fun kv => kv.1 = k) q) as [|kv l] eqn:E; [done |].
    assert (kv ∈ filter (fun kv => kv.1 = k) q) as H by (rewrite E; left).
    apply list_elem_of_filter in H as [<- H]. by apply list_elem_of_fmap_2.
Qed.

(** X15.  For a search request [filter_queryset] always builds a query (the
    [ValueError] branch is never taken), a full-text query exactly when
    [query] is given, also beside [more_like_id].  Its parameters hold
    one [user] entry, the id of the requesting user, whatever [user]
    values the request carried; every other parameter is as sent. *)
Theorem UnifiedSearchViewSet_filter_queryset_sets_the_user
  (searcher queryset : Type) super_filter_queryset get_page_size
  (self_searcher : option searcher) request (qs : queryset) :
  _is_search_request request = true ->
  exists q,
    UnifiedSearchViewSet_filter_queryset searcher queryset super_filter_queryset
      get_page_size self_searcher request qs = Ok (inl q)
    /\ filter (fun kv => kv.1 = "user") (q_params searcher q)
       = [("user", PInt (user_id (user request)))]
    /\ params_get "user" (q_params searcher q) = Some (PInt (user_id (user request)))
    /\ (forall k, k <> "user" ->
          params_get k (q_params searcher q) = PStr <$> qd_get k (query_params request))
    /\ (q_class searcher q = DelayedFullTextQuery
        <-> qd_contains "query" (query_params request) = true)
    /\ q_searcher searcher q = self_searcher
    /\ q_page_size searcher q = get_page_size request.
Proof.
  intros Hsearch. unfold UnifiedSearchViewSet_filter_queryset. rewrite Hsearch.
  set (qp := params_setitem "user" _ _).
  assert (forall k, k <> "user" ->
            params_contains k qp = qd_contains k (query_params request)) as Hcontains.
  { intros k Hk. rewrite params_contains_filter, qd_contains_filter. subst qp.
    rewrite params_setitem_filter_other, filter_key_fmap_PStr by done.
    by destruct (filter (fun kv => kv.1 = k) (query_params request)). }
  rewrite !Hcontains by discriminate.
  unfold _is_search_request in Hsearch.
  assert (forall cls, (q_class searcher
            {| q_class := cls; q_searcher := self_searcher; q_params := qp;
               q_page_size := get_page_size request |}) = cls) as Hcls by done.
  assert (filter (fun kv => kv.1 = "user") qp = [("user", PInt (user_id (user request)))])
    as Huser by apply params_setitem_filter_same.
  assert (forall k, k <> "user" ->
            params_get k qp = PStr <$> qd_get k (query_params request)) as Hother.
  { intros k Hk. unfold params_get, qd_get. subst qp.
    rewrite params_setitem_filter_other, filter_key_fmap_PStr by done.
    rewrite <- fmap_last. f_equal. by rewrite <- !list_fmap_compose. }
  destruct (qd_contains "query" (query_params request)) eqn:Hq.
  - eexists. split; [reflexivity |]. cbn [q_params q_class q_searcher q_page_size].
    split; [done |]. split; [unfold params_get; by rewrite Huser |].
    split; [done |]. done.
  - cbn [orb] in Hsearch. rewrite Hsearch.
    eexists. split; [reflexivity |]. cbn [q_params q_class q_searcher q_page_size].
    split; [done |]. split; [unfold params_get; by rewrite Huser |].
    split; [done |]. split; [| done]. split; discriminate.
Qed.

(** X16.  For a search request [list] lets no exception escape but [NotFound]:
    every other one, from opening the index or from the listing itself,
    is answered with "bad request" and the text of the exception; what
    the listing returns is passed on.  A request that is no search goes
    to the listing as it is, without a searcher. *)
Theorem UnifiedSearchViewSet_list_answers_errors_with_bad_request
  (searcher : Type) open_index_searcher super_list exn_str request w :
  (_is_search_request request = false ->
   UnifiedSearchViewSet_list searcher open_index_searcher super_list exn_str request w
   = super_list None request w)
  /\ (_is_search_request request = true ->
      exists w' o,
        UnifiedSearchViewSet_list searcher open_index_searcher super_list exn_str
          request w = (w', o)
        /\ (forall e, o = Raise e -> e = NotFound)
        /\ (forall e, open_index_searcher = Raise e ->
              w' = w
              /\ o = if decide (e = NotFound) then Raise NotFound
                     else Ok (HttpResponseBadRequest (exn_str e)))
        /\ (forall s, open_index_searcher = Ok s ->
              w' = (super_list (Some s) request w).1
              /\ o = match (super_list (Some s) request w).2 with
                     | Ok r => Ok r
                     | Raise e => if decide (e = NotFound) then Raise NotFound
                                  else Ok (HttpResponseBadRequest (exn_str e))
                     end)).
Proof.
  unfold UnifiedSearchViewSet_list. split; intros Hs; rewrite Hs; [done |].
  cbv [try_except bind lift Exception raise ret].
  destruct open_index_searcher as [s|e].
  - destruct (super_list (Some s) request w) as [w1 [r|e]] eqn:E.
    + eexists _, _. split; [reflexivity |]. split; [discriminate |].
      split; [discriminate |]. intros s' [= <-]. by rewrite E.
    + destruct (decide (e = NotFound)) as [->|Hne];
        (eexists _, _; split; [reflexivity |]).
      * split; [by intros e [= <-] |]. split; [discriminate |].
        intros s' [= <-]. by rewrite E.
      * split; [discriminate |]. split; [discriminate |].
        intros s' [= <-]. rewrite E. cbn [fst snd]. by rewrite decide_False.
  - destruct (decide (e = NotFound)) as [->|Hne];
      (eexists _, _; split; [reflexivity |]).
    + split; [by intros e [= <-] |]. split; [| discriminate].
      intros e [= <-]. by rewrite decide_True.
    + split; [discriminate |]. split; [| discriminate].
      intros e' [= <-]. by rewrite decide_False.
Qed.

(** ** DocumentViewSet.get_serializer *)

Lemma of_chars_app a b : of_chars (a ++ b) = of_chars a +:+ of_chars b.
Proof.
  induction a as [|c a IH]; [done |].
  change (String c (of_chars (a ++ b)) = String c (of_chars a +:+ of_chars b)).
  by rewrite IH.
Qed.

Lemma of_chars_chars s : of_chars (chars s) = s.
Proof. induction s as [|c s IH]; [done |]. cbn. by rewrite IH. Qed.

Lemma chars_of_chars l : chars (of_chars l) = l.
Proof. induction l as [|c l IH]; [done |]. cbn. by rewrite IH. Qed.

Lemma split_aux_nonempty sep cur l : split_aux sep cur l <> [].
Proof.
  revert cur. induction l as [|c l IH]; intros cur; cbn [split_aux]; [done |].
  destruct (decide (c = sep)); [done | apply IH].
Qed.

Lemma join_with_cons sep s l :
  l <> [] -> join_with sep (s :: l) = s +:+ sep +:+ join_with sep l.
Proof. by destruct l. Qed.

Lemma join_split_aux sep cur l :
  join_with (chr sep) (split_aux sep cur l) = of_chars (rev cur ++ l).
Proof.
  revert cur. induction l as [|c l IH]; intros cur; cbn [split_aux].
  - by rewrite app_nil_r.
  - destruct (decide (c = sep)) as [->|Hne].
    + rewrite join_with_cons by apply split_aux_nonempty.
      rewrite IH. cbn [rev app]. by rewrite of_chars_app.
    + rewrite IH. cbn [rev]. by rewrite <- app_assoc.
Qed.

Lemma split_aux_no_sep sep cur l :
  sep ∉ cur -> Forall (fun p => sep ∉ chars p) (split_aux sep cur l).
Proof.
  revert cur. induction l as [|c l IH]; intros cur Hcur; cbn [split_aux].
  - constructor; [| constructor]. rewrite chars_of_chars.
    intros H. apply Hcur. by apply list_elem_of_In, in_rev, list_elem_of_In in H.
  - destruct (decide (c = sep)) as [->|Hne].
    + constructor; [| apply IH; by intros H; inversion H].
      rewrite chars_of_chars.
      intros H. apply Hcur. by apply list_elem_of_In, in_rev, list_elem_of_In in H.
    + apply IH. intros [?|?]%elem_of_cons; [congruence | done].
Qed.

(** X17.  [fields] is absent exactly when the [fields] parameter is missing or
    empty.  Otherwise it holds the pieces between the commas: at least
    one, none containing a comma, and joined by commas they give the
    parameter back. *)
Theorem get_serializer_fields_are_the_comma_separated_names request :
  (kw_fields (DocumentViewSet_get_serializer_kwargs request) = None
   <-> qd_get "fields" (query_params request) = None
       \/ qd_get "fields" (query_params request) = Some "")
  /\ (forall fields,
        kw_fields (DocumentViewSet_get_serializer_kwargs request) = Some fields ->
        fields <> []
        /\ Forall (fun f => ","%char ∉ chars f) fields
        /\ Some (join_with "," fields) = qd_get "fields" (query_params request)).
Proof.
  unfold DocumentViewSet_get_serializer_kwargs. cbn [kw_fields].
  destruct (qd_get "fields" (query_params request)) as [[|c s]|].
  - split; [split; auto |]. discriminate.
  - split; [split; [discriminate | intros [?|?]; discriminate] |].
    intros fields [= <-]. unfold split. split; [apply split_aux_nonempty |].
    split; [apply split_aux_no_sep; by intros H; inversion H |].
    f_equal. change "," with (chr ","). rewrite join_split_aux. cbn [rev app].
    apply of_chars_chars.
  - split; [split; auto |]. discriminate.
Qed.

(** ** UiSettingsView.get *)

Lemma dict_get_setitem_same {V} k (v : V) d : dict_get k (dict_setitem k v d) = Some v.
Proof.
  induction d as [|[k' v'] d IH]; cbn [dict_setitem fst].
  - rewrite dict_get_cons. by rewrite decide_True.
  - destruct (decide (k' = k)); rewrite dict_get_cons.
    + by rewrite decide_True.
    + by rewrite decide_False.
Qed.

Lemma dict_get_setitem_other {V} k k' (v : V) d :
  k' <> k -> dict_get k' (dict_setitem k v d) = dict_get k' d.
Proof.
  intros Hne. induction d as [|[k0 v0] d IH]; cbn [dict_setitem fst].
  - rewrite dict_get_cons. by rewrite decide_False.
  - destruct (decide (k0 = k)) as [->|Hk]; rewrite !dict_get_cons.
    + by rewrite !decide_False by done.
    + destruct (decide (k0 = k')); [done | apply IH].
Qed.

(** X18.  Whatever the user stored, the settings of the answer carry the
    server's [ENABLE_UPDATE_CHECK] as [update_checking.backend_setting];
    every other setting, and every other entry of [update_checking], is
    the stored one.  Stored settings that are no dict, or an
    [update_checking] that is none, let [TypeError] escape. *)
Theorem UiSettingsView_get_sets_the_backend_setting
  is_valid User_objects_get ENABLE_UPDATE_CHECK request w validated_data row :
  is_valid "UiSettingsViewSerializer" (data request) = Ok validated_data ->
  User_objects_get (user_id (user request)) = Ok row ->
  exists w' o,
    UiSettingsView_get is_valid User_objects_get ENABLE_UPDATE_CHECK request w = (w', o)
    /\ db w' = db w
    /\ (forall d,
          default (JDict []) (row_ui_settings row) = JDict d ->
          (forall x, dict_get "update_checking" d = Some x -> exists u, x = JDict u) ->
          exists body settings u,
            o = Ok (Response (JDict body))
            /\ dict_get "settings" body = Some (JDict settings)
            /\ dict_get "update_checking" settings = Some (JDict u)
            /\ dict_get "backend_setting" u = Some ENABLE_UPDATE_CHECK
            /\ (forall k, k <> "update_checking" -> dict_get k settings = dict_get k d)
            /\ (forall k u0, k <> "backend_setting" ->
                  dict_get "update_checking" d = Some (JDict u0) ->
                  dict_get k u = dict_get k u0))
    /\ ((forall d, default (JDict []) (row_ui_settings row) <> JDict d)
        \/ (exists d x, default (JDict []) (row_ui_settings row) = JDict d
                        /\ dict_get "update_checking" d = Some x
                        /\ forall u, x <> JDict u) ->
        o = Raise TypeError).
Proof.
  intros Hv Hrow. unfold UiSettingsView_get, validate.
  cbv [bind emit lift ret]. cbn [db files trace]. rewrite Hv, Hrow. cbn [db files trace].
  destruct (default (JDict []) (row_ui_settings row)) as [| | | | |d] eqn:Hs;
    cbn [set_backend_setting].
  1-5: (eexists _, _; split; [reflexivity |]; split; [done |];
        split; [discriminate |]; done).
  destruct (dict_get "update_checking" d) as [x|] eqn:Hu.
  - destruct x as [| | | | |u];
      try (eexists _, _; split; [reflexivity |]; split; [done |]; split;
           [intros d' [= <-] Hd; destruct (Hd _ Hu) as [u' Hu']; discriminate | done]).
    eexists _, _. split; [reflexivity |]. split; [done |]. split.
    + intros d' [= <-] _. eexists _, _, _. split; [reflexivity |].
      split; [by dict_lookup |]. split; [apply dict_get_setitem_same |].
      split; [apply dict_get_setitem_same |]. split.
      * intros k Hk. by apply dict_get_setitem_other.
      * intros k u0 Hk Hu0. rewrite Hu in Hu0. injection Hu0 as <-.
        by apply dict_get_setitem_other.
    + intros [Hno | (d' & x & [= <-] & Hx & Hnd)]; [by destruct (Hno d) |].
      rewrite Hu in Hx. injection Hx as <-. by destruct (Hnd u).
  - eexists _, _. split; [reflexivity |]. split; [done |]. split.
    + intros d' [= <-] _. eexists _, _, _. split; [reflexivity |].
      split; [by dict_lookup |]. split; [apply dict_get_setitem_same |].
      split; [by dict_lookup |]. split.
      * intros k Hk. by apply dict_get_setitem_other.
      * intros k u0 Hk Hu0. rewrite Hu in Hu0. discriminate.
    + intros [Hno | (d' & x & [= <-] & Hx & Hnd)]; [by destruct (Hno d) |].
      rewrite Hu in Hx. discriminate.
Qed.

Lemma span_word_app label c rest :
  Forall (fun x => is_word x = true) label -> is_word c = false ->
  span_word (label ++ c :: rest) = (label, c :: rest).
Proof.
  intros Hl Hc. induction Hl as [|x label Hx _ IH]; cbn [span_word app].
  - by rewrite Hc.
  - by rewrite Hx, IH.
Qed.

Lemma span_word_all label :
  Forall (fun x => is_word x = true) label -> span_word label = (label, []).
Proof.
  induction 1 as [|x label Hx _ IH]; cbn [span_word]; [done |]. by rewrite Hx, IH.
Qed.

(** X19.  The permission names of the answer: from [app_label.codename] the
    label and the dot are cut off.  The pattern does not ask for a dot:
    any character but a line feed after the label is cut off with it,
    and a name that is one run of two or more letters, digits and
    underscores becomes empty.  (ASCII names.) *)
Theorem strip_app_label_cuts_the_label_and_one_character :
  (forall label codename,
     label <> [] -> Forall (fun x => is_word x = true) label ->
     strip_app_label (of_chars label +:+ "." +:+ codename) = codename)
  /\ (forall label c rest,
        label <> [] -> Forall (fun x => is_word x = true) label ->
        is_word c = false -> c <> "010"%char -> (code c < 128)%N ->
        strip_app_label (of_chars (label ++ c :: rest)) = of_chars rest)
  /\ (forall c1 c2 label,
        Forall (fun x => is_word x = true) (c1 :: c2 :: label) ->
        strip_app_label (of_chars (c1 :: c2 :: label)) = "").
Proof.
  assert (forall label c rest,
            label <> [] -> Forall (fun x => is_word x = true) label ->
            is_word c = false -> c <> "010"%char ->
            strip_app_label (of_chars (label ++ c :: rest)) = of_chars rest) as H.
  { intros label c rest Hne Hl Hc Hnl. unfold strip_app_label.
    rewrite chars_of_chars, span_word_app by done.
    destruct label; [done |]. by rewrite decide_False. }
  split; [| split].
  - intros label codename Hne Hl.
    rewrite <- (of_chars_chars codename) at 1.
    change "." with (of_chars ["."%char]). rewrite <- !of_chars_app.
    change (["."%char] ++ chars codename) with ("."%char :: chars codename).
    rewrite H by done. apply of_chars_chars.
  - intros label c rest Hne Hl Hc Hnl _. by apply H.
  - intros c1 c2 label Hl. unfold strip_app_label.
    by rewrite chars_of_chars, span_word_all.
Qed.

(** ** DocumentViewSet.metadata *)





(** ** RemoteVersionView.get *)

Lemma substring_all s : String.substring 0 (String.length s) s = s.
Proof. induction s as [|c s IH]; [done |]. cbn. by rewrite IH. Qed.

Lemma strip_ngx_prefixed v : strip_ngx ("ngx-" +:+ v) = v.
Proof.
  change ("ngx-" +:+ v) with (String "n" (String "g" (String "x" (String "-" v)))).
  unfold strip_ngx. destruct v as [|c v]; cbn; by rewrite ?substring_all.
Qed.

(** X21.  When the release cannot be fetched ([URLError]) or is no JSON, the
    answer is still given, with version ["0.0.0"]; a release tag
    [ngx-V] is answered as [V].  A JSON object without [tag_name] is not
    covered by either handler: [KeyError] escapes. *)
Theorem RemoteVersionView_get_falls_back_to_0_0_0
  (version : Type) parse version_gt full_version_str urlopen_read json_loads
  request w (current zero : version) :
  parse full_version_str = Ok current ->
  parse "0.0.0" = Ok zero ->
  let get := RemoteVersionView_get version parse version_gt full_version_str
               urlopen_read json_loads request in
  let answer v (parsed : version) :=
    Response (JDict [ ("version", JStr v);
                      ("update_available", JBool (version_gt parsed current)) ]) in
  (urlopen_read = Raise URLError -> (get w).2 = Ok (answer "0.0.0" zero))
  /\ (forall remote, urlopen_read = Ok remote -> json_loads remote = Raise ValueError ->
        (get w).2 = Ok (answer "0.0.0" zero))
  /\ (forall remote d, urlopen_read = Ok remote -> json_loads remote = Ok (JDict d) ->
        dict_getitem "tag_name" d = Raise KeyError ->
        (get w).2 = Raise KeyError)
  /\ (forall remote d v parsed,
        urlopen_read = Ok remote -> json_loads remote = Ok (JDict d) ->
        dict_getitem "tag_name" d = Ok (JStr ("ngx-" +:+ v)) ->
        parse v = Ok parsed ->
        (get w).2 = Ok (answer v parsed)).
Proof.
  intros Hcur Hzero get answer. subst get. unfold RemoteVersionView_get.
  split; [| split; [| split]].
  - intros Hurl. cbv [bind lift try_except emit ret]. rewrite Hcur, Hurl.
    rewrite bool_decide_eq_true_2 by done. by rewrite Hzero.
  - intros remote Hurl Hjson. cbv [bind lift try_except emit ret].
    rewrite Hcur, Hurl, Hjson. rewrite bool_decide_eq_true_2 by done.
    by rewrite Hzero.
  - intros remote d Hurl Hjson Htag. cbv [bind lift try_except emit ret].
    rewrite Hcur, Hurl, Hjson. cbn [tag_name]. rewrite Htag. done.
  - intros remote d v parsed Hurl Hjson Htag Hv. cbv [bind lift try_except emit ret].
    rewrite Hcur, Hurl, Hjson. cbn [tag_name]. rewrite Htag.
    rewrite strip_ngx_prefixed, Hv. done.
Qed.

(** ** preview and download *)

(** X22.  [preview] and [download] of one request serve the same file: the
    same bytes and, after the disposition, the same header.  [download]
    never rewrites the content type, [preview] rewrites it for csv
    originals only. *)
Theorem preview_and_download_serve_the_same_file
  normalize GnuPG_decrypted request pk w id doc c c' :
  int pk = Ok id ->
  filter (fun d => doc_id d = id) (documents (db w)) = [doc] ->
  files w !! served_path request doc = Some c ->
  decrypted GnuPG_decrypted doc c = Ok c' ->
  exists inline attachment rest,
    (preview normalize GnuPG_decrypted request pk w).2 = Ok inline
    /\ (download normalize GnuPG_decrypted request pk w).2 = Ok attachment
    /\ (preview normalize GnuPG_decrypted request pk w).1
       = (download normalize GnuPG_decrypted request pk w).1
    /\ content inline = FileContent c' /\ content attachment = FileContent c'
    /\ get_header "Content-Disposition" inline = Some ("inline" +:+ rest)
    /\ get_header "Content-Disposition" attachment = Some ("attachment" +:+ rest)
    /\ content_type attachment
       = Some (if serves_archive request doc then "application/pdf" else mime_type doc)
    /\ (content_type inline <> content_type attachment ->
        serves_archive request doc = false
        /\ mime_type doc ∈ ["application/csv"; "text/csv"]
        /\ content_type inline = Some "text/plain").
Proof.
  intros Hid Hdoc Hfile Hdec. unfold preview, download, try_except.
  rewrite !(file_response_ok _ _ _ _ _ _ _ _ _ _ Hid Hdoc Hfile Hdec).
  eexists _, _, _. split; [reflexivity |]. split; [reflexivity |].
  split; [done |]. split; [done |]. split; [done |].
  assert (forall v r0, get_header "Content-Disposition"
            (set_header "Content-Disposition" v r0) = Some v) as Hget.
  { intros v r0. unfold get_header, set_header. cbn [headers].
    rewrite filter_cons. cbn [fst]. by rewrite decide_True. }
  rewrite !Hget. unfold content_disposition. cbn [join_strings format_value].
  split; [reflexivity |]. split; [reflexivity |].
  cbn [content_type set_header HttpResponse]. unfold served_content_type.
  destruct (serves_archive request doc); [split; [done |]; by intros [] |].
  rewrite bool_decide_eq_false_2 by discriminate. rewrite andb_false_r.
  split; [done |]. unfold csv_mime_type.
  destruct (bool_decide (mime_type doc ∈ ["application/csv"; "text/csv"])) eqn:E;
    cbn [andb].
  - rewrite bool_decide_eq_true_2 by done. apply bool_decide_eq_true in E. done.
  - by intros [].
Qed.

(** ** FilesAndFoldersViewSet.list: folders before files *)

Lemma slice_fmap_app_sublists {A B C} (f : A -> C) (g : B -> C)
  (l : list A) (k : list B) (start stop : Z) :
  exists l' k',
    slice ((f <$> l) ++ (g <$> k)) start stop = (f <$> l') ++ (g <$> k')
    /\ l' `sublist_of` l /\ k' `sublist_of` k.
Proof.
  unfold slice. cbv zeta. rewrite drop_app, take_app.
  rewrite <- !fmap_drop, <- !fmap_take.
  eexists _, _. split; [reflexivity |]. split.
  - etrans; [apply sublist_take | apply sublist_drop].
  - etrans; [apply sublist_take | apply sublist_drop].
Qed.

Lemma select_folders_files_folders order_by istartswith request w w1 folders docs parent :
  select_folders_files order_by istartswith request w = (w1, Ok (folders, docs, parent)) ->
  folders `sublist_of` storage_paths (db w).
Proof.
  unfold select_folders_files, StoragePath_objects_get.
  destruct (qd_get "parent_storage_path_id" (query_params request)) as [[|c s]|].
  - cbv [bind emit get_db lift ret]. cbn [db files trace].
    destruct (order_by _ _); intros [= <- <- <- <-]. apply sublist_filter.
  - cbv [bind emit get_db lift ret raise row_missing]. cbn [db files trace].
    destruct (int (String c s)) as [id|e]; cbn [db files trace]; [| discriminate].
    destruct (filter (fun p => storage_path_pk p = id) (storage_paths (db w)))
      as [|p [|p2 l]]; cbn [db files trace];
      [destruct (fits_int64 id); discriminate | | discriminate].
    destruct (order_by _ _); intros [= <- <- <- <-].
    etrans; apply sublist_filter.
  - cbv [bind emit get_db lift ret]. cbn [db files trace].
    destruct (order_by _ _); intros [= <- <- <- <-]. apply sublist_filter.
Qed.

(** X23.  Whatever the page and the page size (negative ones too), every
    successful answer of [FilesAndFoldersViewSet.list] lists folders before
    files: the results are serialised storage paths of the database
    followed by serialised documents.  Each result
    carries ["type"], ["folder"] or ["file"], also when the serializer has
    written a field of that name; the other fields are the serializer's. *)
Theorem FilesAndFoldersViewSet_list_folders_come_first
  StoragePathSerializer DocumentSerializer order_by istartswith request w w' resp :
  FilesAndFoldersViewSet_list StoragePathSerializer DocumentSerializer
    order_by istartswith request w = (w', Ok resp) ->
  let serialize := serialize_item StoragePathSerializer DocumentSerializer in
  exists body fs ds,
    resp = Response (JDict body)
    /\ dict_get "results" body
       = Some (JList ((serialize <$> (Folder <$> fs)) ++ (serialize <$> (File <$> ds))))
    /\ Forall (fun f => f ∈ storage_paths (db w)) fs
    /\ (forall it, exists d,
          serialize it = JDict d
          /\ dict_get "type" d
             = Some (JStr match it with Folder _ => "folder" | File _ => "file" end)
          /\ forall k, k <> "type" ->
               dict_get k d
               = dict_get k match it with
                            | Folder s => StoragePathSerializer s
                            | File doc => DocumentSerializer doc
                            end).
Proof.
  intros Hrun serialize. revert Hrun.
  unfold FilesAndFoldersViewSet_list. cbv [bind lift ret].
  destruct (int_param "page" 1 (query_params request)) as [p|e]; [| discriminate].
  destruct (int_param "page_size" 100 (query_params request)) as [s|e]; [| discriminate].
  destruct (select_folders_files order_by istartswith request w)
    as [w1 [[[folders docs] parent]|e]] eqn:Hsel; [| discriminate].
  intros [= <- <-].
  destruct (slice_fmap_app_sublists Folder File folders docs
              ((p - 1) * s) (p * s)) as (fs & ds & Hslice & Hfs & Hds).
  eexists _, fs, ds. split; [reflexivity |]. split; [| split].
  - dict_lookup. fold serialize. by rewrite Hslice, fmap_app.
  - apply Forall_forall. intros f Hf.
    eapply elem_of_sublist; [exact Hf |].
    etrans; [exact Hfs |]. by eapply select_folders_files_folders.
  - intros [s0|doc]; eexists; (split; [reflexivity |]);
      (split; [apply dict_get_setitem_same |]);
      intros k Hk; by apply dict_get_setitem_other.
Qed.

(** ** The further properties on the sample data *)

Lemma getNotes_lists_the_notes_of_the_document_newest_first_witness :
  exists l,
    (getNotes second_document noted_world).2 = Ok (note_json <$> l)
    /\ (l ≡ₚ [ {| note_id := 2; note := JStr "call them"; note_created := 40;
                  note_document := 8; note_user := sample_user |} ]).
Proof.
  destruct (getNotes_lists_the_notes_of_the_document_newest_first
              second_document noted_world) as (l & H & Hp & _).
  exists l. split; [by rewrite H |]. rewrite Hp. vm_compute. reflexivity.
Defined.


Lemma notes_delete_removes_the_note_of_any_document_witness :
  exists w' o,
    notes_handler (co_get_object sample_collaborators)
      (co_index_add_or_update_document sample_collaborators) 100
      (co_str sample_collaborators)
      (sample_request "DELETE" [("id", "2")] []) "7" noted_world = (w', o)
    /\ notes (db w')
       = [ {| note_id := 1; note := JStr "paid"; note_created := 30; note_document := 7;
              note_user := sample_user |} ].
Proof.
  destruct (notes_delete_removes_the_note_of_any_document
              (co_get_object sample_collaborators)
              (co_index_add_or_update_document sample_collaborators) 100
              (co_str sample_collaborators)
              (sample_request "DELETE" [("id", "2")] []) "7" noted_world
              7 sample_document "2" 2
              {| note_id := 2; note := JStr "call them"; note_created := 40;
                 note_document := 8; note_user := sample_user |})
    as (w' & o & H & Hn & _);
    [reflexivity | reflexivity | reflexivity | reflexivity | reflexivity | reflexivity |].
  exists w', o. split; [exact H |]. rewrite Hn. reflexivity.
Defined.



Lemma SearchAutoCompleteView_get_asks_with_a_positive_limit_witness :
  exists w',
    SearchAutoCompleteView_get (co_index_autocomplete sample_collaborators)
      (sample_request "GET" [("term", "bi"); ("limit", "x")] []) sample_world
    = (w', Raise ValueError)
    /\ new_events sample_world w' = [].
Proof.
  destruct (SearchAutoCompleteView_get_asks_with_a_positive_limit
              (co_index_autocomplete sample_collaborators)
              (sample_request "GET" [("term", "bi"); ("limit", "x")] []) sample_world)
    as (w' & o & H & _ & _ & _ & Herr).
  destruct (Herr "x") as [-> Hnone]; [reflexivity | by eexists | reflexivity |].
  exists w'. split; [exact H | exact Hnone].
Defined.

Lemma StatisticsView_file_type_counts_add_up_witness :
  foldr Z.add 0 (mime_type_counts (documents (db noted_world))).*2 = 2.
Proof.
  destruct (StatisticsView_file_type_counts_add_up (sample_request "GET" [] [])
              noted_world) as (w' & body & _ & _ & _ & _ & _ & Hsum).
  rewrite Hsum. reflexivity.
Defined.

Lemma StatisticsView_inbox_tag_is_an_inbox_tag_witness :
  exists w' body,
    StatisticsView_get (sample_request "GET" [] []) sample_world
    = (w', Ok (Response (JDict body)))
    /\ dict_get "inbox_tag" body = Some (JInt 3).
Proof.
  destruct (StatisticsView_inbox_tag_is_an_inbox_tag
              (sample_request "GET" [] []) sample_world)
    as (w' & body & inbox_tag & di & cc & H & Hi & _ & _ & Hm & _).
  exists w', body. split; [exact H |]. rewrite Hi.
  destruct inbox_tag as [pk|].
  - destruct Hm as (t & Hin & Hb & Hpk).
    apply elem_of_cons in Hin as [-> | Hin]; [by rewrite <- Hpk |].
    apply list_elem_of_singleton in Hin as ->. discriminate Hb.
  - exfalso. specialize (Hm {| tag_id := 3; is_inbox_tag := true |}).
    discriminate Hm. left.
Defined.



Lemma FilesAndFolders_pages_partition_the_list_witness :
  mjoin ((fun p => slice [1; 2; 3; 4; 5] ((p - 1) * 2) (p * 2)) <$> seqZ 1 3)
  = [1; 2; 3; 4; 5].
Proof.
  apply (FilesAndFolders_pages_partition_the_list [1; 2; 3; 4; 5] 2 3); [lia |].
  cbn. lia.
Defined.


Lemma content_disposition_is_printable_witness :
  printable (content_disposition (co_normalize sample_collaborators)
               "attachment" "2023 bill, final.csv").
Proof.
  apply (content_disposition_is_printable (co_normalize sample_collaborators)
           "attachment" "2023 bill, final.csv").
  unfold printable. simpl. repeat constructor.
Defined.

Lemma thumb_serves_the_thumbnail_only_witness :
  let w := {| db := sample_db;
              files := <["/media/thumbnails/0000007.webp" := "RIFF"]> (files sample_world);
              trace := [] |} in
  exists w' r,
    thumb (co_GnuPG_decrypted sample_collaborators)
      (co_cache_control sample_collaborators) (sample_request "GET" [] []) "7" w
    = (w', Ok r)
    /\ db w' = sample_db
    /\ content r = FileContent "RIFF"
    /\ get_header "Cache-Control" r = Some "public=False, max-age=315360000".
Proof.
  intros w.
  destruct (thumb_serves_the_thumbnail_only (co_GnuPG_decrypted sample_collaborators)
              (co_cache_control sample_collaborators)
              (sample_request "GET" [] []) "7" w 7 sample_document)
    as (w' & o & H & _ & Hdb & _ & Hsome); [reflexivity | reflexivity |].
  rewrite (Hsome "RIFF" "RIFF") in H by (vm_compute; reflexivity).
  eexists w', _. split; [exact H |]. split; [exact Hdb |]. split; reflexivity.
Defined.

Lemma UnifiedSearchViewSet_filter_queryset_sets_the_user_witness :
  exists q,
    UnifiedSearchViewSet_filter_queryset unit unit (fun _ qs => Ok qs)
      (fun _ => Some 25) (Some tt)
      (sample_request "GET" [("query", "bill"); ("user", "99")] []) tt = Ok (inl q)
    /\ params_get "user" (q_params unit q) = Some (PInt 1)
    /\ q_class unit q = DelayedFullTextQuery.
Proof.
  destruct (UnifiedSearchViewSet_filter_queryset_sets_the_user unit unit
              (fun _ qs => Ok qs) (fun _ => Some 25) (Some tt)
              (sample_request "GET" [("query", "bill"); ("user", "99")] []) tt)
    as (q & H & _ & Hu & _ & Hc & _); [reflexivity |].
  exists q. split; [exact H |]. split; [exact Hu |]. by apply Hc.
Defined.

Lemma UnifiedSearchViewSet_list_answers_errors_with_bad_request_witness :
  UnifiedSearchViewSet_list unit (Raise ValueError) (fun _ _ => ret (Response JNull))
    (co_exn_str sample_collaborators) (sample_request "GET" [("query", "bill")] [])
    sample_world
  = (sample_world, Ok (HttpResponseBadRequest "error")).
Proof.
  destruct (UnifiedSearchViewSet_list_answers_errors_with_bad_request unit
              (Raise ValueError) (fun _ _ => ret (Response JNull))
              (co_exn_str sample_collaborators)
              (sample_request "GET" [("query", "bill")] []) sample_world)
    as [_ Hsearch].
  destruct Hsearch as (w' & o & H & _ & Herr & _); [reflexivity |].
  destruct (Herr ValueError) as [-> ->]; [reflexivity |]. exact H.
Defined.

Lemma get_serializer_fields_are_the_comma_separated_names_witness :
  Some (join_with "," ["id"; "title"])
  = qd_get "fields" (query_params (sample_request "GET" [("fields", "id,title")] [])).
Proof.
  apply (get_serializer_fields_are_the_comma_separated_names
           (sample_request "GET" [("fields", "id,title")] [])).
  reflexivity.
Defined.

Lemma UiSettingsView_get_sets_the_backend_setting_witness :
  exists w' body settings u,
    UiSettingsView_get (co_is_valid sample_collaborators) (fun _ => Ok sample_user_row)
      (JBool false) (sample_request "GET" [] []) sample_world
    = (w', Ok (Response (JDict body)))
    /\ dict_get "settings" body = Some (JDict settings)
    /\ dict_get "language" settings = Some (JStr "en")
    /\ dict_get "update_checking" settings = Some (JDict u)
    /\ dict_get "backend_setting" u = Some (JBool false)
    /\ dict_get "enabled" u = Some (JBool true).
Proof.
  destruct (UiSettingsView_get_sets_the_backend_setting
              (co_is_valid sample_collaborators) (fun _ => Ok sample_user_row)
              (JBool false) (sample_request "GET" [] []) sample_world [] sample_user_row)
    as (w' & o & H & _ & Hok & _); [reflexivity | reflexivity |].
  destruct (Hok [ ("language", JStr "en");
                  ("update_checking", JDict [("enabled", JBool true)]) ])
    as (body & settings & u & -> & Hs & Hu & Hb & Hother & Hrest);
    [reflexivity | intros x [= <-]; by eexists |].
  exists w', body, settings, u. split; [exact H |]. split; [exact Hs |].
  split; [by rewrite Hother |]. split; [exact Hu |]. split; [exact Hb |].
  by rewrite (Hrest "enabled" [("enabled", JBool true)]).
Defined.

Lemma strip_app_label_cuts_the_label_and_one_character_witness :
  strip_app_label (of_chars (chars "documents") +:+ "." +:+ "view_document")
  = "view_document".
Proof.
  apply strip_app_label_cuts_the_label_and_one_character; [discriminate |].
  simpl. repeat constructor.
Defined.


Lemma RemoteVersionView_get_falls_back_to_0_0_0_witness :
  (RemoteVersionView_get Z (fun s => Ok (Z.of_nat (String.length s))) Z.gtb
     "1.14.5" (Raise URLError) (fun _ => Raise ValueError)
     (sample_request "GET" [] []) sample_world).2
  = Ok (Response (JDict [ ("version", JStr "0.0.0");
                          ("update_available", JBool false) ])).
Proof.
  destruct (RemoteVersionView_get_falls_back_to_0_0_0 Z
              (fun s => Ok (Z.of_nat (String.length s))) Z.gtb
              "1.14.5" (Raise URLError) (fun _ => Raise ValueError)
              (sample_request "GET" [] []) sample_world 6 5)
    as [Hurl _]; [reflexivity | reflexivity |].
  rewrite Hurl by reflexivity. reflexivity.
Defined.

Lemma preview_and_download_serve_the_same_file_witness :
  exists inline attachment,
    (preview (co_normalize sample_collaborators) (co_GnuPG_decrypted sample_collaborators)
       (sample_request "GET" [] []) "7" sample_world).2 = Ok inline
    /\ (download (co_normalize sample_collaborators)
          (co_GnuPG_decrypted sample_collaborators)
          (sample_request "GET" [] []) "7" sample_world).2 = Ok attachment
    /\ content inline = FileContent "%PDF-1.7"
    /\ content attachment = FileContent "%PDF-1.7"
    /\ content_type attachment = Some "application/pdf".
Proof.
  destruct (preview_and_download_serve_the_same_file
              (co_normalize sample_collaborators)
              (co_GnuPG_decrypted sample_collaborators)
              (sample_request "GET" [] []) "7" sample_world 7 sample_document
              "%PDF-1.7" "%PDF-1.7")
    as (inline & attachment & rest & Hp & Hd & _ & Hci & Hca & _ & _ & Hct & _);
    [reflexivity | reflexivity | vm_compute; reflexivity | reflexivity |].
  exists inline, attachment. split; [exact Hp |]. split; [exact Hd |].
  split; [exact Hci |]. split; [exact Hca |]. exact Hct.
Defined.

Lemma FilesAndFoldersViewSet_list_folders_come_first_witness :
  let serialize := serialize_item (co_StoragePathSerializer sample_collaborators)
                     (co_DocumentSerializer sample_collaborators) in
  exists w' body fs ds,
    FilesAndFoldersViewSet_list (co_StoragePathSerializer sample_collaborators)
      (co_DocumentSerializer sample_collaborators) (co_order_by sample_collaborators)
      (co_istartswith sample_collaborators)
      (sample_request "GET" [("page_size", "-1")] []) noted_world
    = (w', Ok (Response (JDict body)))
    /\ dict_get "results" body
       = Some (JList ((serialize <$> (Folder <$> fs)) ++ (serialize <$> (File <$> ds))))
    /\ Forall (fun f => f ∈ storage_paths (db noted_world)) fs.
Proof.
  intros serialize.
  edestruct (FilesAndFoldersViewSet_list_folders_come_first
               (co_StoragePathSerializer sample_collaborators)
               (co_DocumentSerializer sample_collaborators)
               (co_order_by sample_collaborators)
               (co_istartswith sample_collaborators)
               (sample_request "GET" [("page_size", "-1")] []) noted_world)
    as (body & fs & ds & Hresp & Hres & Hsub & _); [vm_compute; reflexivity |].
  eexists _, body, fs, ds. split; [| split; [exact Hres | exact Hsub]].
  rewrite <- Hresp. vm_compute. reflexivity.
Defined.
